(** * Exploratory data-analysis report: the analysis methods and the table printer

    A shallow embedding of [data_insights.py] (class [DataInsights]) and of
    [utils/printing.py] (function [print_dataframe]).

    Conventions of the embedding.
    - pandas frames are records of an index and a list of typed columns; a
      missing cell (NaN, None, NaT) is the value [NaN].
    - float64 numbers are exact rationals ([Q]); results of float arithmetic
      are stored reduced ([flt]).  What only the floating-point runtime
      fixes (square root, number formatting, memory accounting, the
      correlation routine), and the markup parser of rich, is an operation
      of the class [Externals].
    - Python objects that are assigned to after creation live in a heap of
      frames addressed by locations; [self.df] is such a location.
    - console output is the list of events a call appends, in order; an
      exception ends a call and keeps the events already emitted. *)

From Stdlib Require Import QArith Qabs Qround.
From stdpp Require Import base gmap list strings pretty sorting.

Close Scope Q_scope.
Local Open Scope string_scope.
Local Open Scope list_scope.
Local Open Scope stdpp_scope.

(** ** pandas: values, columns, frames *)

Module pd.

Inductive dtype := Int64 | Float64 | Object | Bool | Datetime64.

Inductive value :=
| NaN
| VInt (z : Z)
| VFloat (q : Q)
| VStr (s : string)
| VBool (b : bool)
| VTime (ns : Z).

Inductive label := LInt (i : Z) | LStr (s : string).

Record Series := mkSeries {
  s_name : string;
  s_dtype : dtype;
  s_values : list value
}.

Record DataFrame := mkFrame {
  index : list label;
  series : list Series
}.

#[global] Instance dtype_eq_dec : EqDecision dtype.
Proof. solve_decision. Defined.
#[global] Instance Q_eq_dec : EqDecision Q.
Proof. solve_decision. Defined.
#[global] Instance value_eq_dec : EqDecision value.
Proof. solve_decision. Defined.
#[global] Instance label_eq_dec : EqDecision label.
Proof. solve_decision. Defined.
#[global] Instance Series_eq_dec : EqDecision Series.
Proof. solve_decision. Defined.
#[global] Instance DataFrame_eq_dec : EqDecision DataFrame.
Proof. solve_decision. Defined.

#[global] Instance nat_gt_dec (x y : nat) : Decision (x > y)%nat := decide (y < x)%nat.

(** A float result, stored reduced. *)
Definition flt (q : Q) : value := VFloat (Qred q).

(** [pd.DataFrame()] *)
Definition DataFrame_empty : DataFrame := mkFrame [] [].

(** [len(df)], [df.columns], [df.size], [df.empty] *)
Definition len (df : DataFrame) : nat := length (index df).
Definition columns (df : DataFrame) : list string := s_name <$> series df.
Definition size (df : DataFrame) : nat := len df * length (series df).
Definition empty (df : DataFrame) : bool :=
  bool_decide (len df = 0%nat) || bool_decide (length (series df) = 0%nat).

(** [pd.isna(value)] *)
Definition isna (v : value) : bool :=
  match v with NaN => true | _ => false end.

(** [pd.api.types.is_numeric_dtype]: integers, floats and booleans. *)
Definition is_numeric_dtype (d : dtype) : bool :=
  match d with Int64 | Float64 | Bool => true | Object | Datetime64 => false end.

(** One entry of the [include] list of [select_dtypes].  "number" selects
    the integer and float dtypes and leaves booleans out. *)
Definition dtype_selected (sel : string) (d : dtype) : bool :=
  if decide (sel = "number") then
    match d with Int64 | Float64 => true | _ => false end
  else if decide (sel = "object") then bool_decide (d = Object)
  else if decide (sel = "datetime") then bool_decide (d = Datetime64)
  else if decide (sel = "datetime64") then bool_decide (d = Datetime64)
  else if decide (sel = "bool") then bool_decide (d = Bool)
  else false.

Definition select_dtypes (include : list string) (df : DataFrame) : DataFrame :=
  mkFrame (index df)
    (filter (λ c, existsb (λ sel, dtype_selected sel (s_dtype c)) include = true)
            (series df)).

(** Python slice [xs[:n]]: the first [n] items, or all but the last [-n]. *)
Definition py_take {A} (n : Z) (xs : list A) : list A :=
  if (0 <=? n)%Z then take (Z.to_nat n) xs
  else take (Z.to_nat (Z.of_nat (length xs) + n)) xs.

(** [df.head(n)] and [df.iloc[:, :n]] *)
Definition head (n : Z) (df : DataFrame) : DataFrame :=
  mkFrame (py_take n (index df))
          ((λ c, mkSeries (s_name c) (s_dtype c) (py_take n (s_values c))) <$> series df).
Definition iloc_cols (n : Z) (df : DataFrame) : DataFrame :=
  mkFrame (index df) (py_take n (series df)).

(** [df.iloc[i, j]]; out of range is an IndexError ([None]). *)
Definition iloc (df : DataFrame) (i j : nat) : option value :=
  c ← series df !! j; s_values c !! i.

(** [str(x)] of an integer, a label, a truth value. *)
Definition str_int (z : Z) : string := pretty z.
Definition str_nat (n : nat) : string := pretty n.
Definition str_label (l : label) : string :=
  match l with LInt i => str_int i | LStr s => s end.
Definition str_bool (b : bool) : string := if b then "True" else "False".

(** The sort behind [sort_values] and [value_counts], by insertion:
    [before x y] says that [x] may stand ahead of [y]; items that may stand
    either way keep the order they came in. *)
Fixpoint insert_by {A} (before : A → A → bool) (x : A) (l : list A) : list A :=
  match l with
  | [] => [x]
  | y :: l' => if before x y then x :: l else y :: insert_by before x l'
  end.
Definition stable_sort {A} (before : A → A → bool) (l : list A) : list A :=
  foldr (insert_by before) [] l.

(** [df.isnull().sum()]: per column, the number of missing cells. *)
Definition count_missing (vs : list value) : nat :=
  length (filter (λ v, isna v = true) vs).
Definition isnull_sum (df : DataFrame) : list (string * nat) :=
  (λ c, (s_name c, count_missing (s_values c))) <$> series df.

End pd.

(** ** What the floating-point runtime and the libraries fix *)

Class Externals := {
  (** square root of a float *)
  fsqrt : Q → Q;
  (** [format(x, spec)] of a float; the empty spec is [str(x)] *)
  format_float : string → Q → string;
  (** [str] of a timestamp *)
  str_timestamp : Z → string;
  (** [df.memory_usage(deep=True).sum()], in bytes *)
  memory_usage_deep : pd.DataFrame → Z;
  (** [df.corr(method=...)] *)
  corr : string → pd.DataFrame → pd.DataFrame;
  (** [df.to_string(index=...)]: the whole frame as text *)
  to_string : bool → pd.DataFrame → string;
  (** rich: whether a text parses as console markup; a closing tag such as
      "[/b]" that matches no open tag does not, and printing it is a
      MarkupError *)
  markup_ok : string → bool
}.

(** ** The interpreter state: heap of frames, console *)

Module py.

Definition loc := positive.

Record RichColumn := mkColumn {
  header : string;
  style : option string;
  justify : string;
  overflow : string
}.

Record RichTable := mkTable {
  show_header : bool;
  header_style : string;
  title : option string;
  table_columns : list RichColumn;
  table_rows : list (list string);
  caption : option string
}.

Inductive Event :=
| Print (line : string)               (* builtin print *)
| ConsolePrint (markup : string)      (* rich console.print of a string *)
| ConsoleTable (t : RichTable).       (* rich console.print of a Table *)

Inductive exn :=
| ValueError (msg : string)
| IndexError
| KeyError
| ReferenceError
| MarkupError.                        (* rich.errors.MarkupError *)

Inductive result (A : Type) :=
| Ok (a : A)
| Raise (e : exn).
Arguments Ok {A} a.
Arguments Raise {A} e.

Record World := mkWorld {
  heap : gmap loc pd.DataFrame;
  console : list Event
}.

Definition M (A : Type) : Type := World → World * result A.

Definition ret {A} (a : A) : M A := λ w, (w, Ok a).
Definition bind {A B} (c : M A) (k : A → M B) : M B :=
  λ w, match c w with
       | (w', Ok a) => k a w'
       | (w', Raise e) => (w', Raise e)
       end.
Definition raise {A} (e : exn) : M A := λ w, (w, Raise e).

Definition emit (e : Event) : M unit :=
  λ w, (mkWorld (heap w) (console w ++ [e]), Ok tt).
Definition print (line : string) : M unit := emit (Print line).
Definition console_print (markup : string) : M unit := emit (ConsolePrint markup).
Definition console_print_table (t : RichTable) : M unit := emit (ConsoleTable t).

(** A new frame object. *)
Definition alloc (df : pd.DataFrame) : M loc :=
  λ w, let l := fresh (dom (heap w)) in
       (mkWorld (<[l := df]> (heap w)) (console w), Ok l).
(** The frame an object reference denotes. *)
Definition load (l : loc) : M pd.DataFrame :=
  λ w, match heap w !! l with
       | Some df => (w, Ok df)
       | None => (w, Raise ReferenceError)
       end.
(** In-place update of a frame object. *)
Definition store (l : loc) (df : pd.DataFrame) : M unit :=
  λ w, match heap w !! l with
       | Some _ => (mkWorld (<[l := df]> (heap w)) (console w), Ok tt)
       | None => (w, Raise ReferenceError)
       end.
(** A partial library call: [None] raises. *)
Definition lift {A} (e : exn) (o : option A) : M A :=
  match o with Some a => ret a | None => raise e end.

(** [for x in xs: body x] *)
Fixpoint for_ {A} (xs : list A) (body : A → M unit) : M unit :=
  match xs with
  | [] => ret tt
  | x :: xs' => bind (body x) (λ _, for_ xs' body)
  end.

End py.

#[global] Instance M_ret : MRet py.M := @py.ret.
#[global] Instance M_bind : MBind py.M := λ A B k c, py.bind c k.

(** ** utils/printing.py *)

Module printing.
Import pd py.

Section with_externals.
Context `{Externals}.

Definition valid_justifications : list string := ["left"; "center"; "right"].

(** Python truth value of an [Optional[int]] and of an [Optional[str]]. *)
Definition truthy (o : option Z) : bool :=
  match o with Some n => negb (n =? 0)%Z | None => false end.
Definition truthy_str (o : option string) : bool :=
  match o with Some s => negb (String.eqb s "") | None => false end.
Definition int_of (o : option Z) : Z := default 0%Z o.

(** [str(xs)] of a list of strings. *)
Definition str_list (xs : list string) : string :=
  "[" +:+ String.concat ", " ((λ s, "'" +:+ s +:+ "'") <$> xs) +:+ "]".

Definition str_value (v : value) : string :=
  match v with
  | NaN => "nan"
  | VInt z => str_int z
  | VFloat q => format_float "" q
  | VStr s => s
  | VBool b => str_bool b
  | VTime ns => str_timestamp ns
  end.

Definition Qltb (a b : Q) : bool := negb (Qle_bool b a).

(** [Table.add_column], [Table.add_row] and the two attribute assignments. *)
Definition add_column (t : RichTable) (c : RichColumn) : RichTable :=
  mkTable (show_header t) (header_style t) (title t)
          (table_columns t ++ [c]) (table_rows t) (caption t).
Definition add_row (t : RichTable) (r : list string) : RichTable :=
  mkTable (show_header t) (header_style t) (title t)
          (table_columns t) (table_rows t ++ [r]) (caption t).
Definition set_title (t : RichTable) (s : option string) : RichTable :=
  mkTable (show_header t) (header_style t) s
          (table_columns t) (table_rows t) (caption t).
Definition set_caption (t : RichTable) (s : string) : RichTable :=
  mkTable (show_header t) (header_style t) (title t)
          (table_columns t) (table_rows t) (Some s).

(** [iterrows] yields each row as one Series of the frame's common dtype: a
    frame of integer and float columns with at least one float column is a
    float64 block, and its integers arrive as floats. *)
Definition float_block (df : DataFrame) : bool :=
  forallb (λ c, match s_dtype c with Int64 | Float64 => true | _ => false end) (series df)
  && existsb (λ c, bool_decide (s_dtype c = Float64)) (series df).
Definition row_value (df : DataFrame) (c : Series) (k : nat) : value :=
  let v := default NaN (s_values c !! k) in
  if float_block df then
    match v with VInt z => flt (inject_Z z) | _ => v end
  else v.

(** Lines 89-101: one formatted cell. *)
Definition format_cell (c : Series) (value : value) : string :=
  if isna value then "[dim]NaN[/dim]"
  else if is_numeric_dtype (s_dtype c) then
    match value with
    | VFloat q => if Qltb (Qabs q) 1000 then format_float ".4f" q
                  else format_float ".2e" q
    | _ => str_value value
    end
  else str_value value.

(** Lines 80-105: the cells of row [k]. *)
Definition row_data (display_df : DataFrame) (show_index : bool) (k : nat) : list string :=
  (if show_index
   then [from_option str_label "" (index display_df !! k)]
   else [])
  ++ ((λ c, format_cell c (row_value display_df c k)) <$> series display_df).

(** Lines 107-113: the caption, when rows or columns were limited. *)
Definition with_caption (t : RichTable) (df : DataFrame) (max_rows max_cols : option Z)
  : RichTable :=
  if truthy max_rows && (int_of max_rows <? Z.of_nat (len df))%Z then
    set_caption t ("Showing " +:+ str_int (int_of max_rows) +:+ " of "
                   +:+ str_nat (len df) +:+ " rows")
  else if truthy max_cols && (int_of max_cols <? Z.of_nat (length (columns df)))%Z then
    set_caption t ("Showing " +:+ str_int (int_of max_cols) +:+ " of "
                   +:+ str_nat (length (columns df)) +:+ " columns")
  else if (truthy max_rows && (int_of max_rows <? Z.of_nat (len df))%Z)
          && (truthy max_cols && (int_of max_cols <? Z.of_nat (length (columns df)))%Z) then
    set_caption t ("Showing " +:+ str_int (int_of max_rows) +:+ " of "
                   +:+ str_nat (len df) +:+ " rows, "
                   +:+ str_int (int_of max_cols) +:+ " of "
                   +:+ str_nat (length (columns df)) +:+ " columns")
  else t.

(** Line 120: the shape notice. *)
Definition shape_notice (df : DataFrame) : string :=
  String (Ascii.ascii_of_nat 10) "" +:+ "[dim]DataFrame shape: " +:+ str_nat (len df)
  +:+ " rows Ã— " +:+ str_nat (length (columns df)) +:+ " columns[/dim]".

(** Lines 51-56: the frame that is displayed. *)
Definition display_frame (df : DataFrame) (max_rows max_cols : option Z) : DataFrame :=
  (* Limit rows, then columns, if specified *)
  let display_df := if truthy max_rows then head (int_of max_rows) df else df in
  if truthy max_cols then iloc_cols (int_of max_cols) display_df else display_df.

(** A label that several columns of the frame carry.  For such a label
    [display_df[col]] is a frame and [row[col]] a Series, where an unrepeated
    label gives a column and a cell. *)
Definition repeated (display_df : DataFrame) (col : string) : bool :=
  bool_decide (1 < length (filter (λ name, name = col) (columns display_df)))%nat.

(** [pd.api.types.is_numeric_dtype(display_df[col])]: False for a frame. *)
Definition is_numeric (display_df : DataFrame) (col : Series) : bool :=
  negb (repeated display_df (s_name col)) && is_numeric_dtype (s_dtype col).

(** Lines 58-113: the table handed to the console. *)
Definition build_table (df : DataFrame) (title : option string)
    (max_rows max_cols : option Z) (show_index : bool) (justify_numeric : string)
  : RichTable :=
  let display_df := display_frame df max_rows max_cols in
  let table := mkTable true "bold magenta" None [] [] None in
  let table := if truthy_str title then set_title table title else table in
  let table :=
    if show_index
    then add_column table (mkColumn "Index" (Some "dim") "right" "ellipsis")
    else table in
  let table :=
    foldl (λ t col,
             let justify :=
               if is_numeric display_df col then justify_numeric else "left" in
             add_column t (mkColumn (s_name col) None justify "fold"))
          table (series display_df) in
  let table :=
    foldl (λ t k, add_row t (row_data display_df show_index k))
          table (seq 0 (len display_df)) in
  with_caption table df max_rows max_cols.

(** Line 92, [if pd.isna(value)]: with a repeated label [value] is a Series,
    and the truth value of a Series is a ValueError.  It is raised on the
    first row, so only when there is one. *)
Definition ambiguous (display_df : DataFrame) : bool :=
  bool_decide (0 < len display_df)%nat
  && existsb (repeated display_df) (columns display_df).
Definition truth_value_error : exn :=
  ValueError "The truth value of a Series is ambiguous. Use a.empty, a.bool(), a.item(), a.any() or a.all().".

(** Line 116, [console.print(table)]: rich parses the title, the headers,
    the cells and the caption as console markup; when one of them does not
    parse the call raises and nothing is printed.  The two notices the
    printer writes itself (lines 48 and 120) are well-formed markup around
    integers, and always print. *)
Definition texts (t : RichTable) : list string :=
  option_list (title t) ++ (header <$> table_columns t)
  ++ concat (table_rows t) ++ option_list (caption t).
Definition accepted (t : RichTable) : bool := forallb markup_ok (texts t).
Definition render_table (t : RichTable) : M unit :=
  if accepted t then console_print_table t else raise MarkupError.

Definition print_dataframe (df : DataFrame) (title : option string)
    (max_rows max_cols : option Z) (show_index : bool) (justify_numeric : string)
  : M unit :=
  (* Validate justify_numeric parameter *)
  if bool_decide (justify_numeric ∉ valid_justifications) then
    raise (ValueError ("justify_numeric must be one of " +:+ str_list valid_justifications
                       +:+ ", got '" +:+ justify_numeric +:+ "'"))
  (* Handle empty dataframe *)
  else if empty df then
    console_print "[yellow]DataFrame is empty[/yellow]"
  else
    let display_df := display_frame df max_rows max_cols in
    (* Add rows *)
    if ambiguous display_df then raise truth_value_error
    else
      let table := build_table df title max_rows max_cols show_index justify_numeric in
      render_table table;;
      if truthy max_rows || truthy max_cols
      then console_print (shape_notice df)
      else mret tt.

End with_externals.
End printing.

(** ** pandas: the reductions the report uses *)

Module stats.
Import pd.

#[global] Instance Qle_decision (x y : Q) : Decision (x <= y)%Q :=
  decide (Qnum x * QDen y ≤ Qnum y * QDen x)%Z.

Definition to_Q (v : value) : option Q :=
  match v with
  | VInt z => Some (inject_Z z)
  | VFloat q => Some q
  | _ => None
  end.

(** The non-missing numbers of a column ([skipna=True]). *)
Definition numbers (vs : list value) : list Q := omap to_Q vs.

Definition Qn (n : nat) : Q := inject_Z (Z.of_nat n).
Definition Qsum (xs : list Q) : Q := foldr Qplus 0%Q xs.
Definition mean (xs : list Q) : Q := (Qsum xs / Qn (length xs))%Q.
(** The sum of the [k]-th powers of the deviations from the mean. *)
Definition dev_sum (k : positive) (xs : list Q) : Q :=
  Qsum ((λ x, Qpower_positive (x - mean xs) k) <$> xs).
Definition sorted (xs : list Q) : list Q := merge_sort Qle xs.
Definition at_ (xs : list Q) (i : nat) : Q := default 0%Q (xs !! i).

Definition count_ (xs : list Q) : value := flt (Qn (length xs)).
Definition mean_ (xs : list Q) : value :=
  match xs with [] => NaN | _ => flt (mean xs) end.
Definition min_ (xs : list Q) : value :=
  match xs with [] => NaN | _ => flt (at_ (sorted xs) 0) end.
Definition max_ (xs : list Q) : value :=
  match xs with [] => NaN | _ => flt (at_ (sorted xs) (length xs - 1)) end.

(** [quantile(p)] with linear interpolation between the two nearest ranks. *)
Definition quantile (p : Q) (xs : list Q) : value :=
  match xs with
  | [] => NaN
  | _ =>
    let pos := (Qn (length xs - 1) * p)%Q in
    let i := Z.to_nat (Qfloor pos) in
    let frac := (pos - inject_Z (Qfloor pos))%Q in
    let lo := at_ (sorted xs) i in
    let hi := default lo (sorted xs !! S i) in
    flt (lo + (hi - lo) * frac)
  end.

(** [median()]: the middle value, or the mean of the two middle values. *)
Definition median (xs : list Q) : value :=
  match xs with
  | [] => NaN
  | _ =>
    let n := length xs in
    if Nat.even n
    then flt ((at_ (sorted xs) (n / 2 - 1) + at_ (sorted xs) (n / 2)) / 2)
    else flt (at_ (sorted xs) (n / 2))
  end.

(** nanops' [_zero_out_fperr]. *)
Definition zero_out_fperr (x : Q) : Q :=
  if negb (Qle_bool (1 # 100000000000000) (Qabs x)) then 0%Q else x.

Section with_externals.
Context `{Externals}.

(** [std()], with one degree of freedom taken off. *)
Definition std (xs : list Q) : value :=
  if bool_decide (length xs ≤ 1)%nat then NaN
  else flt (fsqrt (Qred (dev_sum 2 xs / Qn (length xs - 1)))).

(** [skew()] and [kurtosis()], the bias-corrected estimators of nanops. *)
Definition skew (xs : list Q) : value :=
  let count := length xs in
  let m2 := zero_out_fperr (dev_sum 2 xs) in
  let m3 := zero_out_fperr (dev_sum 3 xs) in
  if bool_decide (count < 3)%nat then NaN
  else if Qeq_bool m2 0 then flt 0
  else flt ((Qn count * fsqrt (Qred (Qn (count - 1))) / Qn (count - 2))
            * (m3 / (m2 * fsqrt (Qred m2)))).

Definition kurtosis (xs : list Q) : value :=
  let count := length xs in
  let m2 := dev_sum 2 xs in
  let m4 := dev_sum 4 xs in
  let adj := (3 * (Qn (count - 1) * Qn (count - 1))
              / (Qn (count - 2) * Qn (count - 3)))%Q in
  let numerator := zero_out_fperr (Qn count * Qn (count + 1) * Qn (count - 1) * m4) in
  let denominator := zero_out_fperr (Qn (count - 2) * Qn (count - 3) * (m2 * m2)) in
  if bool_decide (count < 4)%nat then NaN
  else if Qeq_bool denominator 0 then flt 0
  else flt (numerator / denominator - adj).

(** A reduction applied to every column of a frame: a Series indexed by the
    column names. *)
Definition reduce (f : list Q → value) (df : DataFrame) : list (string * value) :=
  (λ c, (s_name c, f (numbers (s_values c)))) <$> series df.

Definition describe_labels : list label :=
  LStr <$> ["count"; "mean"; "std"; "min"; "25%"; "50%"; "75%"; "max"].

(** [df.describe(include='number')]; a ValueError ([None]) when the frame
    has no numeric column. *)
Definition describe_number (df : DataFrame) : option DataFrame :=
  match series (select_dtypes ["number"] df) with
  | [] => None
  | cs =>
    Some (mkFrame describe_labels
      ((λ c, let xs := numbers (s_values c) in
             mkSeries (s_name c) Float64
               [count_ xs; mean_ xs; std xs; min_ xs;
                quantile (1 # 4) xs; quantile (1 # 2) xs; quantile (3 # 4) xs;
                max_ xs]) <$> cs))
  end.

End with_externals.

(** [df.loc[lbl] = row]: the row is aligned on the column names; a new
    label appends a row, a known one overwrites it. *)
Definition row_entry (row : list (string * value)) (name : string) : value :=
  default NaN (snd <$> (snd <$> list_find (λ p, p.1 = name) row)).
Definition loc_set (lbl : label) (row : list (string * value)) (df : DataFrame)
  : DataFrame :=
  match list_find (λ l, l = lbl) (index df) with
  | Some (k, _) =>
    mkFrame (index df)
      ((λ c, mkSeries (s_name c) (s_dtype c)
               (<[k := row_entry row (s_name c)]> (s_values c))) <$> series df)
  | None =>
    mkFrame (index df ++ [lbl])
      ((λ c, mkSeries (s_name c) (s_dtype c)
               (s_values c ++ [row_entry row (s_name c)])) <$> series df)
  end.

(** [df.loc[lbl]]: the row with that label. *)
Definition loc_get (lbl : label) (df : DataFrame) : option (list (string * value)) :=
  '(k, _) ← list_find (λ l, l = lbl) (index df);
  Some ((λ c, (s_name c, default NaN (s_values c !! k))) <$> series df).

(** The distinct non-missing values of a column, in order of first
    appearance. *)
Definition unique (vs : list value) : list value :=
  foldl (λ seen v, if bool_decide (v ∈ seen) then seen else seen ++ [v]) []
        (filter (λ v, isna v = false) vs).
Definition occurrences (v : value) (vs : list value) : nat :=
  length (filter (λ x, x = v) vs).

(** [s.nunique()] and [s.value_counts()]: most frequent first, ties in order
    of first appearance. *)
Definition nunique (vs : list value) : nat := length (unique vs).
Definition more_frequent (a b : value * nat) : Prop := (b.2 ≤ a.2)%nat.
#[global] Instance more_frequent_dec a b : Decision (more_frequent a b).
Proof. unfold more_frequent. apply _. Defined.
Definition value_counts (vs : list value) : list (value * nat) :=
  stable_sort (λ a b, bool_decide (more_frequent a b))
              ((λ v, (v, occurrences v vs)) <$> unique vs).

(** Order of the values inside one column: strings by code point, numbers by
    magnitude; values of different kinds are left as they stand. *)
Definition value_leb (a b : value) : bool :=
  match a, b with
  | VStr x, VStr y => String.leb x y
  | _, _ =>
    match to_Q a, to_Q b with
    | Some x, Some y => Qle_bool x y
    | _, _ => true
    end
  end.

Definition value_le (a b : value) : Prop := value_leb a b = true.
#[global] Instance value_le_dec a b : Decision (value_le a b).
Proof. unfold value_le. apply _. Defined.

(** [s.mode()]: every value tied for the highest frequency, sorted. *)
Definition mode (vs : list value) : list value :=
  let vc := value_counts vs in
  let top := default 0%nat (snd <$> vc !! 0%nat) in
  merge_sort value_le
             (fst <$> filter (λ p, p.2 = top) vc).

(** [value_counts()[item]]; a KeyError ([None]) for an absent item. *)
Definition count_of (item : value) (vc : list (value * nat)) : option nat :=
  snd <$> (snd <$> list_find (λ p, p.1 = item) vc).

(** [df.describe(include='object')]; a ValueError ([None]) when the frame
    has no object column. *)
Definition describe_object (df : DataFrame) : option DataFrame :=
  match series (select_dtypes ["object"] df) with
  | [] => None
  | cs =>
    Some (mkFrame (LStr <$> ["count"; "unique"; "top"; "freq"])
      ((λ c, let vs := s_values c in
             let vc := value_counts vs in
             mkSeries (s_name c) Object
               [VInt (Z.of_nat (length (filter (λ v, isna v = false) vs)));
                VInt (Z.of_nat (nunique vs));
                default NaN (fst <$> vc !! 0%nat);
                default NaN ((λ p, VInt (Z.of_nat p.2)) <$> vc !! 0%nat)]) <$> cs))
  end.

(** The dtype pandas infers for an index made of the keys of a dict:
    integers, floats (integers among them become floats), truth values and
    timestamps keep their dtype; anything else, and no key at all, is
    object. *)
Definition infer_dtype (keys : list value) : dtype :=
  if bool_decide (keys = []) then Object
  else if forallb (λ v, match v with VInt _ => true | _ => false end) keys then Int64
  else if forallb (λ v, match v with VInt _ | VFloat _ => true | _ => false end) keys
  then Float64
  else if forallb (λ v, match v with VBool _ => true | _ => false end) keys then Bool
  else if forallb (λ v, match v with VTime _ => true | _ => false end) keys
  then Datetime64
  else Object.
Definition as_dtype (t : dtype) (v : value) : value :=
  match t, v with
  | Float64, VInt z => flt (inject_Z z)
  | _, _ => v
  end.

(** [pd.Series(d).reset_index()] of a dict from items to counts: a frame
    with the columns "index" and "0" over a fresh range index. *)
Definition range_index (n : nat) : list label := (λ i, LInt (Z.of_nat i)) <$> seq 0 n.
Definition series_reset_index (d : list (value * nat)) : DataFrame :=
  let keys := fst <$> d in
  mkFrame (range_index (length d))
          [mkSeries "index" (infer_dtype keys) (as_dtype (infer_dtype keys) <$> keys);
           mkSeries "0" Int64 ((λ p, VInt (Z.of_nat p.2)) <$> d)].

(** [df.columns = names]; a ValueError ([None]) on a length mismatch. *)
Definition set_columns (names : list string) (df : DataFrame) : option DataFrame :=
  if bool_decide (length names = length (series df)) then
    Some (mkFrame (index df)
            (zip_with (λ n c, mkSeries n (s_dtype c) (s_values c)) names (series df)))
  else None.

(** [df[names]]; a KeyError ([None]) for an absent name. *)
Definition getitem (names : list string) (df : DataFrame) : option DataFrame :=
  cs ← mapM (λ n, snd <$> list_find (λ c, s_name c = n) (series df)) names;
  Some (mkFrame (index df) cs).

End stats.

(** ** data_insights.py *)

Module data_insights.
Import pd py stats printing.

(** The report object: [self.df] refers to the loaded table. *)
Record DataInsights := mkDataInsights { df : loc }.

Definition nl : string := String (Ascii.ascii_of_nat 10) "".
(** [s * n] *)
Definition str_mul (s : string) (n : nat) : string := String.concat "" (replicate n s).
(** [enumerate(xs, start)] *)
Definition enumerate {A} (start : nat) (xs : list A) : list (nat * A) :=
  zip (seq start (length xs)) xs.

(** The decorator: three banner lines, then the decorated method. *)
Definition print_divider {A} (text : string) (func_name : M A) : M unit :=
  print (nl +:+ str_mul "=" 80);;
  print text;;
  print (str_mul "=" 80);;
  func_name;;
  mret tt.

(** Lines 58-67: the frame [missing_record_df], one record per row, sorted
    by ascending count; rows with equal counts stay in column order. *)
Record MissingRecord := mkMissing {
  Columns : string;
  Missing_Elements : nat;
  Percentage_Missing : value
}.
Definition fewer_missing (a b : MissingRecord) : Prop :=
  (Missing_Elements a ≤ Missing_Elements b)%nat.
#[global] Instance fewer_missing_dec a b : Decision (fewer_missing a b).
Proof. unfold fewer_missing. apply _. Defined.

Definition missing_record_df (d : DataFrame) : list MissingRecord :=
  let missing_elements_per_column := isnull_sum d in
  let total := sum_list (snd <$> missing_elements_per_column) in
  (* a division of a numpy number by zero is NaN *)
  let percentage :=
    if bool_decide (size d = 0%nat) then NaN
    else flt (Qn total * 100 / Qn (size d)) in
  let missing_record_df :=
    (λ p, mkMissing p.1 p.2 percentage) <$> missing_elements_per_column in
  stable_sort (λ a b, bool_decide (fewer_missing a b))
    (filter (λ r, 0 < Missing_Elements r)%nat missing_record_df).

(** Lines 208-215 and 231-238: the scan of a correlation matrix for strong
    pairs.  [None] is the IndexError of [iloc] or of [columns[i]]. *)
Definition abs_gt (v : value) (bound : Q) : bool :=
  match to_Q v with
  | Some q => Qltb bound (Qabs q)
  | None => false     (* NaN compares false *)
  end.
Fixpoint foldM {A S} (f : S → A → option S) (s : S) (xs : list A) : option S :=
  match xs with
  | [] => Some s
  | x :: xs' => s' ← f s x; foldM f s' xs'
  end.
Definition strong_corrs (correlation_matrix : DataFrame)
  : option (list (string * string * value)) :=
  let n := length (columns correlation_matrix) in
  foldM (λ strong i,
    foldM (λ strong j,
      corr_val ← iloc correlation_matrix i j;
      if abs_gt corr_val (1 # 2) then
        col1 ← columns correlation_matrix !! i;
        col2 ← columns correlation_matrix !! j;
        Some (strong ++ [(col1, col2, corr_val)])
      else Some strong)
      strong (seq (i + 1) (n - (i + 1))))
    [] (seq 0 n).

Section with_externals.
Context `{Externals}.

Definition basic_info (self : DataInsights) : M unit :=
  print_divider "BASIC DATAFRAME INFORMATION" (
    d ← load (df self);
    print ("Number of rows: " +:+ str_nat (len d));;
    print ("Number of columns: " +:+ str_nat (length (columns d)));;
    print ("Memory usage: "
           +:+ format_float ".2f" (inject_Z (memory_usage_deep d) / 1048576)
           +:+ " MB");;
    print (nl +:+ "Column Names:");;
    for_ (enumerate 1 (columns d)) (λ '(i, col),
      print ("  " +:+ str_nat i +:+ ". " +:+ col))).

Definition missing_values_analysis (self : DataInsights) : M unit :=
  print_divider "MISSING VALUES ANALYSIS" (
    d ← load (df self);
    let missing_record_df := missing_record_df d in
    if bool_decide (length missing_record_df ≠ 0%nat) then
      print "Found missing values in dataset!";;
      d ← load (df self);
      print (to_string false d)
    else
      print "There are no missing elements in the dataset !!").

Definition numeric_columns (d : DataFrame) : list string :=
  columns (select_dtypes ["number"] d).
Definition categorical_columns (d : DataFrame) : list string :=
  columns (select_dtypes ["object"] d).
Definition datetime_columns (d : DataFrame) : list string :=
  columns (select_dtypes ["datetime"; "datetime64"] d).

Definition data_types_summary (self : DataInsights) : M unit :=
  print_divider "DATA TYPES SUMMARY" (
    d ← load (df self);
    let numeric_columns := numeric_columns d in
    let categorical_columns := categorical_columns d in
    let datetime_columns := datetime_columns d in
    (if bool_decide (length numeric_columns > 0)%nat then
       print ("Found " +:+ str_nat (length numeric_columns)
              +:+ " numeric columns in dataset:");;
       for_ (enumerate 0 numeric_columns) (λ '(i, col_name),
         print (str_nat i +:+ " - " +:+ col_name))
     else print "No numerical data found in dataset");;
    (if bool_decide (length categorical_columns > 0)%nat then
       print (nl +:+ "Found " +:+ str_nat (length categorical_columns)
              +:+ " categorical columns in dataset:");;
       for_ (enumerate 0 categorical_columns) (λ '(i, col_name),
         print (str_nat i +:+ " - " +:+ col_name))
     else print (nl +:+ "No categorical data found in dataset"));;
    (if bool_decide (length datetime_columns > 0)%nat then
       print (nl +:+ "Found " +:+ str_nat (length datetime_columns)
              +:+ " datetime columns in dataset:");;
       for_ (enumerate 0 datetime_columns) (λ '(i, col_name),
         print (str_nat i +:+ " - " +:+ col_name))
     else print (nl +:+ "No datetime data found in dataset"))).

Definition no_objects : exn := ValueError "No objects to concatenate".

(** [summary.loc[lbl] = row] on the frame object [summary]. *)
Definition loc_assign (summary : loc) (lbl : string) (row : list (string * value))
  : M unit :=
  s ← load summary; store summary (loc_set (LStr lbl) row s).

Definition numeric_summary (self : DataInsights) : M unit :=
  print_divider "NUMERIC COLUMNS STATISTICS" (
    let numeric_data_exists (d : DataFrame) :=
      bool_decide (length (columns (select_dtypes ["number"] d)) > 0)%nat in
    d ← load (df self);
    if numeric_data_exists d then
      d ← load (df self);
      described ← lift no_objects (describe_number d);
      summary ← alloc described;
      d ← load (df self);
      described ← lift no_objects (describe_number d);
      loc_assign summary "median" (reduce median described);;
      d ← load (df self);
      described ← lift no_objects (describe_number d);
      loc_assign summary "skew" (reduce skew described);;
      d ← load (df self);
      described ← lift no_objects (describe_number d);
      loc_assign summary "kurtosis" (reduce kurtosis described);;
      s ← load summary;
      print_dataframe s None None None true "right"
    else
      print "No numeric data exists in dataset...").

Definition N_MAX : nat := 10.

(** [printPd = pd.Series(d).reset_index(); printPd.columns = ['Item', 'Count'];
    prt.print_dataframe(printPd, show_index=False)] *)
Definition print_items (d : list (value * nat)) : M unit :=
  printPd ← alloc (series_reset_index d);
  p ← load printPd;
  renamed ← lift (ValueError "Length mismatch") (set_columns ["Item"; "Count"] p);
  store printPd renamed;;
  p ← load printPd;
  print_dataframe p None None None false "right".

(** [self.df[col]] for one column name. *)
Definition getitem_column (self : DataInsights) (col : string) : M Series :=
  d ← load (df self);
  lift KeyError (snd <$> list_find (λ c, s_name c = col) (series d)).

Definition categorical_summary (self : DataInsights) : M unit :=
  print_divider "CATEGORICAL COLUMNS STATISTICS" (
    d ← load (df self);
    let categorical_columns_list := columns (select_dtypes ["object"] d) in
    if bool_decide (length categorical_columns_list ≠ 0%nat) then
      print "High level summary of categorical columns:";;
      d ← load (df self);
      described ← lift no_objects (describe_object d);
      print_dataframe described None None None true "right";;
      for_ categorical_columns_list (λ col,
        print (nl +:+ str_mul "~" 80);;
        print ("Categorical feature (column): " +:+ col);;
        column ← getitem_column self col;
        let n_unique_items := nunique (s_values column) in
        print ("Number of unique items: " +:+ str_nat n_unique_items);;
        (if bool_decide (n_unique_items ≤ N_MAX)%nat then
           column ← getitem_column self col;
           let unique_dict := value_counts (s_values column) in
           print_items unique_dict
         else
           print (nl +:+ "Number of unique items > " +:+ str_nat N_MAX
                  +:+ ". Skipping item listing..."));;
        column ← getitem_column self col;
        let most_frequent_col_items := mode (s_values column) in
        if bool_decide (length most_frequent_col_items ≤ N_MAX)%nat then
          print (nl +:+ "Highest frequency items:");;
          itemDict ← lift KeyError
            (mapM (λ item, n ← count_of item (value_counts (s_values column));
                           Some (item, n))
                  most_frequent_col_items);
          print_items itemDict
        else
          print (nl +:+ "There are >" +:+ str_nat N_MAX
                 +:+ " items at high frequency. Skipping item listing..."))
    else
      print "No categorical data exists in dataset...").

(** [f"  {col1} ↔ {col2}: {corr_val:.3f}"] *)
Definition strong_line (p : string * string * value) : string :=
  "  " +:+ p.1.1 +:+ " ↔ " +:+ p.1.2 +:+ ": "
  +:+ from_option (format_float ".3f") "nan" (to_Q p.2).

Definition correlation_analysis (self : DataInsights) : M unit :=
  print_divider "CORRELATION ANALYSIS (applicable to the numeric columns only)" (
    d ← load (df self);
    let numeric_columns := columns (select_dtypes ["number"] d) in
    if bool_decide (length numeric_columns = 0%nat) then
      print "No numerical data found in dataset..."
    else if bool_decide (length numeric_columns < 2)%nat then
      print ("Found only " +:+ str_nat (length numeric_columns)
             +:+ " numeric column(s). At least 2 numeric columns are required for correlation analysis.")
    else
      print ("Found " +:+ str_nat (length numeric_columns)
             +:+ " numeric columns in dataset:");;
      for_ (enumerate 0 numeric_columns) (λ '(i, col_name),
        print ("  " +:+ str_nat (i + 1) +:+ ". " +:+ col_name));;
      (* Select only the original numeric columns *)
      d ← load (df self);
      numeric_df ← lift KeyError (getitem numeric_columns d);
      (* Pearson Correlation *)
      print (nl +:+ "Pearson Correlation Matrix:");;
      let pearson_correlation_matrix := corr "pearson" numeric_df in
      print_dataframe pearson_correlation_matrix None None None true "center";;
      print (nl +:+ "Strong Pearson Correlations Criterion: |r| > 0.5");;
      strong_pearson_corrs ← lift IndexError (strong_corrs pearson_correlation_matrix);
      (if bool_decide (length strong_pearson_corrs > 0)%nat then
         for_ strong_pearson_corrs (λ p, print (strong_line p))
       else print (String (Ascii.ascii_of_nat 9) "No strong Pearson correlations found !"));;
      (* Spearman Correlation *)
      print (nl +:+ "Spearman Correlation Matrix:");;
      let spearman_correlation_matrix := corr "spearman" numeric_df in
      print_dataframe spearman_correlation_matrix None None None true "center";;
      print (nl +:+ "Strong Spearman Correlations Criterion: |r| > 0.5:");;
      strong_spearman_corrs ← lift IndexError (strong_corrs spearman_correlation_matrix);
      if bool_decide (length strong_spearman_corrs > 0)%nat then
        for_ strong_spearman_corrs (λ p, print (strong_line p))
      else print (String (Ascii.ascii_of_nat 9) "No strong Spearman correlations found !")).

End with_externals.
End data_insights.

(** ** Construction of the report object, and main.py *)

Module driver.
Import pd py printing data_insights.

(** What [pd.read_csv] does with a path. *)
Inductive read_result :=
| Loaded (table : DataFrame)
| NotFound (message : string)      (* raises FileNotFoundError(message) *)
| Unreadable (message : string).   (* raises another exception e, str(e) = message *)

(** The file system and the terminal the driver runs against. *)
Class Host := {
  read_csv : string → read_result;
  (** the line [input()] reads *)
  stdin_line : string
}.

(** The exceptions that reach the driver: those of the analysis methods and
    the ones of loading and attribute lookup. *)
Inductive fault :=
| Analysis (e : exn)
| FileNotFoundError (message : string)
| LoadFailure (message : string)
| AttributeError (message : string).

Definition D (A : Type) : Type := World → World * (fault + A).

Definition dret {A} (a : A) : D A := λ w, (w, inr a).
Definition dbind {A B} (c : D A) (k : A → D B) : D B :=
  λ w, match c w with
       | (w', inr a) => k a w'
       | (w', inl f) => (w', inl f)
       end.
Definition throw {A} (f : fault) : D A := λ w, (w, inl f).
(** A statement of the analysis layer, run by the driver. *)
Definition call {A} (c : M A) : D A :=
  λ w, match c w with
       | (w', Ok a) => (w', inr a)
       | (w', Raise e) => (w', inl (Analysis e))
       end.

#[global] Instance D_ret : MRet D := @dret.
#[global] Instance D_bind : MBind D := λ A B k c, dbind c k.

Section with_host.
Context `{Externals} `{Host}.

(** [DataInsights(path)]: the decorated [__init__].  [self.df] is bound to
    an empty frame, then to the table read; a failure to read is announced
    and raised again. *)
Definition DataInsights_init (path : string) : D DataInsights :=
  call (print (nl +:+ str_mul "=" 80));;
  call (print "INITIALIZING DATA INSIGHTS OBJECT");;
  call (print (str_mul "=" 80));;
  self_df ← call (alloc DataFrame_empty);
  let self := mkDataInsights self_df in
  match read_csv path with
  | Loaded table =>
    call (store (df self) table);;
    d ← call (load (df self));
    call (print ("Data loaded successfully: " +:+ str_nat (len d) +:+ " rows, "
                 +:+ str_nat (length (columns d)) +:+ " columns"));;
    mret self
  | NotFound message =>
    call (print ("File not found: " +:+ path));;
    throw (FileNotFoundError message)
  | Unreadable message =>
    call (print ("Error loading data: " +:+ message));;
    throw (LoadFailure message)
  end.

(** [input()] *)
Definition input : D string := mret stdin_line.

(** [dsObj.numeric_distributions]: the class defines no such attribute. *)
Definition numeric_distributions (dsObj : DataInsights) : D unit :=
  throw (AttributeError
           "'DataInsights' object has no attribute 'numeric_distributions'").

Definition main : D unit :=
  call (print "Welcome to Walmart-customer-behavior-insights!");;
  let dataset_filepath := "dataset/Walmart_customer_purchases.csv" in
  dsObj ← DataInsights_init dataset_filepath;
  (* Start basic data insights generation *)
  call (basic_info dsObj);;
  call (missing_values_analysis dsObj);;
  call (data_types_summary dsObj);;
  call (numeric_summary dsObj);;
  numeric_distributions dsObj;;
  call (categorical_summary dsObj);;
  call (correlation_analysis dsObj);;
  (* Press Enter key to exit the program *)
  call (print (nl +:+ "Press Enter key to exit the program..."));;
  _ ← input;
  mret tt.

End with_host.
End driver.

(** ** A concrete runtime, for evaluating the methods on examples

    Its square root is exact on the squares of rationals and correct to
    sixteen decimals elsewhere, and its number formatting prints the exact
    fraction after the format spec.  Its correlation is the product-moment
    coefficient over the rows where both columns hold a number, taken on the
    values (Pearson) or on their average ranks (Spearman), in this
    arithmetic.  Its markup parser knows the tags of rich: an opening tag
    "[name]", a closing tag "[/name]" or "[/]", and the backslash that
    escapes a bracket. *)

Module exact.
Import pd stats.

Definition is_square (z : Z) : bool := (Z.sqrt z * Z.sqrt z =? z)%Z.
Definition sqrt_exact (q : Q) : Q :=
  let n := Qnum (Qred q) in
  let d := Z.pos (Qden (Qred q)) in
  if is_square n && is_square d then (Z.sqrt n # Z.to_pos (Z.sqrt d))%Q
  else (Z.sqrt (n * 10 ^ 32 / d) # 10 ^ 16)%Q.

Definition format_exact (spec : string) (q : Q) : string :=
  "{" +:+ spec +:+ "}" +:+ str_int (Qnum (Qred q)) +:+ "/"
  +:+ str_int (Z.pos (Qden (Qred q))).

Definition paired (a b : Series) : list (Q * Q) :=
  omap (λ p, x ← to_Q p.1; y ← to_Q p.2; Some (x, y)) (zip (s_values a) (s_values b)).

Definition pearson (ps : list (Q * Q)) : value :=
  let xs := ps.*1 in
  let ys := ps.*2 in
  let sxy := Qsum ((λ p, (p.1 - mean xs) * (p.2 - mean ys))%Q <$> ps) in
  let den := sqrt_exact (dev_sum 2 xs * dev_sum 2 ys) in
  if Qeq_bool den 0 then NaN else flt (sxy / den).

Definition rank (xs : list Q) (x : Q) : Q :=
  (Qn (length (filter (λ y, Qle_bool x y = false) xs))
   + (Qn (length (filter (λ y, Qeq_bool x y = true) xs)) + 1) / 2)%Q.

Definition spearman (ps : list (Q * Q)) : value :=
  pearson (zip (rank (ps.*1) <$> ps.*1) (rank (ps.*2) <$> ps.*2)).

Definition corr_exact (method : string) (d : DataFrame) : DataFrame :=
  let coefficient := if String.eqb method "spearman" then spearman else pearson in
  mkFrame (LStr <$> columns d)
    ((λ b, mkSeries (s_name b) Float64 ((λ a, coefficient (paired a b)) <$> series d))
       <$> series d).

(** The text of a tag that opens right after a "[": it runs up to the first
    "]", and is none when another "[" or the end of the text comes first. *)
Fixpoint tag_text (s : string) : option (string * string) :=
  match s with
  | EmptyString => None
  | String c rest =>
    if Ascii.eqb c (Ascii.ascii_of_nat 93) then Some (EmptyString, rest)
    else if Ascii.eqb c (Ascii.ascii_of_nat 91) then None
    else '(name, rest') ← tag_text rest; Some (String c name, rest')
  end.
(** A tag starts with a lower-case letter, "#" (35), "/" (47) or "@" (64);
    the brackets are the characters 91 and 93, the backslash is 92. *)
Definition starts_tag (c : Ascii.ascii) : bool :=
  let n := Ascii.nat_of_ascii c in
  (bool_decide (97 ≤ n)%nat && bool_decide (n ≤ 122)%nat)
  || Ascii.eqb c (Ascii.ascii_of_nat 35) || Ascii.eqb c (Ascii.ascii_of_nat 47) || Ascii.eqb c (Ascii.ascii_of_nat 64).
Fixpoint close_tag (name : string) (open_tags : list string) : option (list string) :=
  match open_tags with
  | [] => None
  | t :: ts => if String.eqb t name then Some ts
               else ts' ← close_tag name ts; Some (t :: ts')
  end.
(** The scan of a text, with the tags that are open, the most recent first,
    and whether an odd number of backslashes came just before. *)
Fixpoint scan (fuel : nat) (escaped : bool) (open_tags : list string) (s : string) : bool :=
  match fuel, s with
  | O, _ | _, EmptyString => true
  | S fuel', String c rest =>
    if Ascii.eqb c (Ascii.ascii_of_nat 92) then scan fuel' (negb escaped) open_tags rest
    else if Ascii.eqb c (Ascii.ascii_of_nat 91) then
      match tag_text rest with
      | Some (String c0 name, rest') =>
        if negb (starts_tag c0) then scan fuel' false open_tags rest
        else if escaped then scan fuel' false open_tags rest'
        else if Ascii.eqb c0 (Ascii.ascii_of_nat 47) then
          match (if String.eqb name EmptyString
                 then match open_tags with [] => None | _ :: ts => Some ts end
                 else close_tag name open_tags) with
          | Some open_tags' => scan fuel' false open_tags' rest'
          | None => false
          end
        else scan fuel' false (String c0 name :: open_tags) rest'
      | _ => scan fuel' false open_tags rest
      end
    else scan fuel' false open_tags rest
  end.
Definition markup_parses (s : string) : bool := scan (String.length s) false [] s.

Definition to_string_names (index : bool) (d : DataFrame) : string :=
  String.concat " " (columns d) +:+ " (" +:+ str_nat (len d) +:+ " rows)".

Definition runtime : Externals := {|
  fsqrt := sqrt_exact;
  format_float := format_exact;
  str_timestamp := str_int;
  memory_usage_deep := λ d, (8 * Z.of_nat (size d))%Z;
  corr := corr_exact;
  to_string := to_string_names;
  markup_ok := markup_parses
|}.

End exact.

(** ** Vocabulary of the statements *)

Import pd py stats printing data_insights driver.

(** The events a call appends to the console of [w]. *)
Definition emitted {A} (c : M A) (w : World) : list Event :=
  drop (length (console w)) (console (c w).1).
(** How a call ends. *)
Definition outcome {A} (c : M A) (w : World) : result A := (c w).2.

(** A world with an empty heap and a silent console. *)
Definition quiet : World := mkWorld ∅ [].
(** A world whose only object is the loaded table, at location 1. *)
Definition loaded (table : DataFrame) : World := mkWorld {[ 1%positive := table ]} [].
Definition report : DataInsights := mkDataInsights 1%positive.

(** Five rows, three columns. *)
Definition five_by_three : DataFrame :=
  mkFrame (range_index 5)
    [mkSeries "a" Int64 (VInt <$> [1; 2; 3; 4; 5]%Z);
     mkSeries "b" Int64 (VInt <$> [6; 7; 8; 9; 10]%Z);
     mkSeries "c" Object (VStr <$> ["p"; "q"; "r"; "s"; "t"])].

(** The three lines the decorator prints ahead of a method. *)
Definition banner (text : string) : list Event :=
  [Print (nl +:+ str_mul "=" 80); Print text; Print (str_mul "=" 80)].

(** The number of missing cells of a table. *)
Definition missing_cells (d : DataFrame) : nat :=
  sum_list ((λ c, count_missing (s_values c)) <$> series d).

(** The table of the spec's example scenario: A = 1, 2, NaN and B = x, y, x. *)
Definition scenario : DataFrame :=
  mkFrame (range_index 3)
    [mkSeries "A" Float64 [VFloat 1; VFloat 2; NaN];
     mkSeries "B" Object (VStr <$> ["x"; "y"; "x"])].

(** A table with one column of truth values, as a CSV column of
    True/False cells loads. *)
Definition flags : DataFrame :=
  mkFrame (range_index 2) [mkSeries "flag" Bool [VBool true; VBool false]].

(** A run that leaves the heap alone: it appends [es] and returns [a]. *)
Definition prints {A} (c : M A) (w : World) (es : list Event) (a : A) : Prop :=
  c w = (mkWorld (heap w) (console w ++ es), Ok a).

(** Every column is as long as the index. *)
Definition rectangular (d : DataFrame) : Prop :=
  Forall (λ c, length (s_values c) = len d) (series d).

(** What [data_types_summary] prints for one of its three column lists. *)
Definition partition_report (lead kind none : string) (cols : list string) : list Event :=
  if bool_decide (length cols > 0)%nat then
    Print (lead +:+ "Found " +:+ str_nat (length cols) +:+ " " +:+ kind
           +:+ " columns in dataset:")
    :: ((λ p, Print (str_nat p.1 +:+ " - " +:+ p.2)) <$> enumerate 0 cols)
  else [Print (lead +:+ none)].

(** The percentage every row of [missing_record_df] carries. *)
Definition global_percentage (d : DataFrame) : value :=
  if bool_decide (size d = 0%nat) then NaN
  else flt (Qn (sum_list ((isnull_sum d).*2)) * 100 / Qn (size d)).

(** A matrix: as many rows as columns, every column as long as the index. *)
Definition square (m : DataFrame) : Prop :=
  rectangular m ∧ len m = length (series m).

(** The coefficient at row [i], column [j]; none where the cell is NaN. *)
Definition coefficient (m : DataFrame) (i j : nat) : option Q :=
  iloc m i j ≫= to_Q.
(** A strong entry: its absolute value exceeds one half. *)
Definition strong (m : DataFrame) (i j : nat) : Prop :=
  ∃ q, coefficient m i j = Some q ∧ (1 # 2 < Qabs q)%Q.
(** The order of a row-major scan. *)
Definition row_major (p q : nat * nat) : Prop :=
  (p.1 < q.1)%nat ∨ (p.1 = q.1 ∧ (p.2 < q.2)%nat).
(** The triple the scan records for the position [p]. *)
Definition entry_at (m : DataFrame) (p : nat * nat) (e : string * string * value) : Prop :=
  columns m !! p.1 = Some e.1.1
  ∧ columns m !! p.2 = Some e.1.2
  ∧ iloc m p.1 p.2 = Some e.2.

(** The scan, as a list comprehension over the upper triangle. *)
Definition is_strong (m : DataFrame) (i j : nat) : bool :=
  match iloc m i j with Some v => abs_gt v (1 # 2) | None => false end.
Definition entry (m : DataFrame) (p : nat * nat) : string * string * value :=
  (default "" (columns m !! p.1), default "" (columns m !! p.2),
   default NaN (iloc m p.1 p.2)).
Definition strong_positions (m : DataFrame) : list (nat * nat) :=
  let n := length (columns m) in
  i ← seq 0 n; j ← seq (i + 1) (n - (i + 1)); if is_strong m i j then [(i, j)] else [].

(** What the scan of the matrix [m] found, and where. *)
Definition scanned (m : DataFrame) (positions : list (nat * nat))
    (found : list (string * string * value)) : Prop :=
  strong_corrs m = Some found
  ∧ Forall2 (entry_at m) positions found
  ∧ StronglySorted row_major positions
  ∧ (∀ i j, (i, j) ∈ positions ↔ (i < j < length (columns m))%nat ∧ strong m i j)
  ∧ (NoDup (columns m) → NoDup ((λ e, e.1) <$> found)).

(** The events the printer emits for a frame. *)
Definition rendering `{Externals} (d : DataFrame) (justify_numeric : string) : list Event :=
  emitted (print_dataframe d None None None true justify_numeric) quiet.

(** What [correlation_analysis] prints for one list of strong pairs. *)
Definition strong_report `{Externals} (kind : string)
    (found : list (string * string * value)) : list Event :=
  if bool_decide (length found > 0)%nat then (λ p, Print (strong_line p)) <$> found
  else [Print (String (Ascii.ascii_of_nat 9)
                 ("No strong " +:+ kind +:+ " correlations found !"))].

(** Three perfectly correlated columns, one uncorrelated with them, and a
    column of labels. *)
Definition trends : DataFrame :=
  mkFrame (range_index 3)
    [mkSeries "x" Int64 (VInt <$> [1; 2; 3]%Z);
     mkSeries "label" Object (VStr <$> ["p"; "q"; "r"]);
     mkSeries "y" Int64 (VInt <$> [2; 4; 6]%Z);
     mkSeries "z" Int64 (VInt <$> [3; 2; 1]%Z);
     mkSeries "u" Int64 (VInt <$> [1; 0; 1]%Z)].
Definition trends_numeric : DataFrame :=
  mkFrame (range_index 3)
    [mkSeries "x" Int64 (VInt <$> [1; 2; 3]%Z);
     mkSeries "y" Int64 (VInt <$> [2; 4; 6]%Z);
     mkSeries "z" Int64 (VInt <$> [3; 2; 1]%Z);
     mkSeries "u" Int64 (VInt <$> [1; 0; 1]%Z)].

(** One numeric column holding -2, -1, 0. *)
Definition readings : DataFrame :=
  mkFrame (range_index 3) [mkSeries "A" Int64 (VInt <$> [-2; -1; 0]%Z)].

(** While [c] runs, the location [l] keeps denoting the frame [d], however
    the run ends; a result it returns satisfies [Q]. *)
Definition keeps {A} (l : loc) (d : DataFrame) (c : M A) (Q : A → Prop) : Prop :=
  ∀ w, heap w !! l = Some d →
       heap (c w).1 !! l = Some d
       ∧ match (c w).2 with Ok a => Q a | Raise _ => True end.

(** The column the printer adds for one column of the displayed frame, when
    no label is repeated. *)
Definition data_column (justify_numeric : string) (col : Series) : RichColumn :=
  mkColumn (s_name col) None
           (if is_numeric_dtype (s_dtype col) then justify_numeric else "left") "fold".
Definition index_column : RichColumn := mkColumn "Index" (Some "dim") "right" "ellipsis".

(** A cap that cuts: given, non-zero, and below the true count. *)
Definition cuts (cap : option Z) (count : nat) : Prop :=
  truthy cap = true ∧ (int_of cap < Z.of_nat count)%Z.

(** A run from [w] that ends normally with the heap [h], the events [es]
    appended and the result [a]. *)
Definition runs {A} (c : M A) (w : World) (h : gmap loc DataFrame) (es : list Event)
    (a : A) : Prop :=
  c w = (mkWorld h (console w ++ es), Ok a).

(** A column as [df.head(n)] leaves it. *)
Definition cut_column (n : Z) (c : Series) : Series :=
  mkSeries (s_name c) (s_dtype c) (py_take n (s_values c)).

(** The statistics table [numeric_summary] ends with: the description and
    the three rows assigned to it, in the order of the assignments. *)
Definition summary_of `{Externals} (described : DataFrame) : DataFrame :=
  loc_set (LStr "kurtosis") (reduce kurtosis described)
    (loc_set (LStr "skew") (reduce skew described)
       (loc_set (LStr "median") (reduce median described) described)).

(** What each of the first four sections prints for the table [d]. *)
Definition basic_report `{Externals} (d : DataFrame) : list Event :=
  banner "BASIC DATAFRAME INFORMATION"
  ++ [Print ("Number of rows: " +:+ str_nat (len d));
      Print ("Number of columns: " +:+ str_nat (length (columns d)));
      Print ("Memory usage: "
             +:+ format_float ".2f" (inject_Z (memory_usage_deep d) / 1048576)
             +:+ " MB");
      Print (nl +:+ "Column Names:")]
  ++ ((λ p, Print ("  " +:+ str_nat p.1 +:+ ". " +:+ p.2)) <$> enumerate 1 (columns d)).
Definition missing_report `{Externals} (d : DataFrame) : list Event :=
  banner "MISSING VALUES ANALYSIS"
  ++ if bool_decide (length (missing_record_df d) ≠ 0%nat)
     then [Print "Found missing values in dataset!"; Print (to_string false d)]
     else [Print "There are no missing elements in the dataset !!"].
Definition types_report (d : DataFrame) : list Event :=
  banner "DATA TYPES SUMMARY"
  ++ partition_report "" "numeric" "No numerical data found in dataset"
       (numeric_columns d)
  ++ partition_report nl "categorical" "No categorical data found in dataset"
       (categorical_columns d)
  ++ partition_report nl "datetime" "No datetime data found in dataset"
       (datetime_columns d).
Definition numeric_report `{Externals} (d : DataFrame) : list Event :=
  banner "NUMERIC COLUMNS STATISTICS"
  ++ match describe_number d with
     | Some described => rendering (summary_of described) "right"
     | None => [Print "No numeric data exists in dataset..."]
     end.


(** How the printer ends on a frame. *)
Definition verdict `{Externals} (d : DataFrame) (justify_numeric : string) : result unit :=
  outcome (print_dataframe d None None None true justify_numeric) quiet.
(** How [numeric_summary] ends on a table: as the printer does on the
    statistics table, when there is one. *)
Definition numeric_verdict `{Externals} (d : DataFrame) : result unit :=
  match describe_number d with
  | Some described => verdict (summary_of described) "right"
  | None => Ok tt
  end.

(** A run from [w] that ends, normally or not, with the heap [h] and the
    events [es] appended. *)
Definition finishes {A} (c : M A) (w : World) (h : gmap loc DataFrame) (es : list Event)
    (r : result A) : Prop :=
  c w = (mkWorld h (console w ++ es), r).

(** The line printed for a recorded pair: two spaces, the two names around
    an arrow, a colon and the coefficient to three decimals. *)
Definition pair_line `{Externals} (e : string * string * value) (line : Event) : Prop :=
  ∃ q, to_Q e.2 = Some q
       ∧ line = Print ("  " +:+ e.1.1 +:+ " ↔ " +:+ e.1.2 +:+ ": "
                       +:+ format_float ".3f" q).
(** The lines printed for a list of recorded pairs: one per pair, in order,
    or the one line that says there is none. *)
Definition pair_lines `{Externals} (kind : string)
    (found : list (string * string * value)) (lines : list Event) : Prop :=
  (found = []
   ∧ lines = [Print (String (Ascii.ascii_of_nat 9)
                       ("No strong " +:+ kind +:+ " correlations found !"))])
  ∨ (found ≠ [] ∧ Forall2 pair_line found lines).


(** Two perfectly correlated columns, the first named by a closing tag. *)
Definition tagged : DataFrame :=
  mkFrame (range_index 3)
    [mkSeries "[/b]" Int64 (VInt <$> [1; 2; 3]%Z);
     mkSeries "x" Int64 (VInt <$> [2; 4; 6]%Z)].

(** A run of the driver from [w] that ends, normally or not, with the heap
    [h] and the events [es] appended. *)
Definition druns {A} (c : D A) (w : World) (h : gmap loc DataFrame) (es : list Event)
    (r : fault + A) : Prop :=
  c w = (mkWorld h (console w ++ es), r).

(** A host whose data set is the table of the example scenario. *)
Definition disk : Host := {|
  read_csv := λ path,
    if String.eqb path "dataset/Walmart_customer_purchases.csv"
    then Loaded scenario else NotFound path;
  stdin_line := ""
|}.

(** A run only adds to the console: what was printed before stays, in
    place. *)
Definition appends {A} (c : M A) : Prop :=
  ∀ w, ∃ es, console (c w).1 = console w ++ es.

(** Decidable facts about concrete data. *)
Ltac decide_by_compute := apply (bool_decide_unpack _); vm_compute; exact I.

(** * The printer *)

Section printer.
Context `{Externals}.

Lemma emitted_emit (e : Event) (w : World) : emitted (emit e) w = [e].
Proof.
  unfold emitted, emit; simpl. by rewrite drop_app_length.
Qed.

Lemma emitted_emit2 (e1 e2 : Event) (w : World) :
  emitted (emit e1;; emit e2) w = [e1; e2].
Proof.
  unfold emitted, mbind, M_bind, bind, emit; simpl.
  rewrite <- app_assoc. by rewrite drop_app_length.
Qed.

Lemma print_dataframe_invalid df title max_rows max_cols show_index j w :
  j ∉ valid_justifications →
  ∃ msg, print_dataframe df title max_rows max_cols show_index j w
         = (w, Raise (ValueError msg)).
Proof.
  intros Hj. unfold print_dataframe.
  rewrite bool_decide_eq_true_2 by done. by eexists.
Qed.

(** Distinct labels: no label is repeated, and no truth value is taken of a
    Series. *)
Lemma filter_eq_NoDup (l : list string) x :
  NoDup l → (length (filter (λ n, n = x) l) ≤ 1)%nat.
Proof.
  induction 1 as [|y l Hy Hnd IH]; [simpl; lia|].
  rewrite filter_cons. destruct (decide (y = x)) as [->|]; [|done].
  destruct (filter (λ n, n = x) l) as [|z zs] eqn:Hf; [simpl; lia|].
  exfalso. apply Hy.
  assert (Hz : z ∈ filter (λ n, n = x) l) by (rewrite Hf; apply elem_of_cons; by left).
  by apply list_elem_of_filter in Hz as [-> Hz].
Qed.

Lemma repeated_NoDup d col : NoDup (columns d) → repeated d col = false.
Proof.
  intros Hnd. unfold repeated. apply bool_decide_eq_false_2.
  pose proof (filter_eq_NoDup (columns d) col Hnd). lia.
Qed.

Lemma ambiguous_NoDup d : NoDup (columns d) → ambiguous d = false.
Proof.
  intros Hnd. unfold ambiguous. apply andb_false_iff. right.
  apply not_true_iff_false. intros Hex.
  apply existsb_exists in Hex as (x & _ & Hx). by rewrite repeated_NoDup in Hx.
Qed.

Lemma NoDup_py_take {A} (n : Z) (l : list A) : NoDup l → NoDup (py_take n l).
Proof.
  intros Hnd. unfold py_take.
  destruct (0 <=? n)%Z;
    match goal with
    | |- NoDup (take ?k l) =>
      rewrite <- (take_drop k l) in Hnd; by apply NoDup_app in Hnd as [? _]
    end.
Qed.

Lemma py_take_fmap {A B} (f : A → B) (n : Z) (xs : list A) :
  py_take n (f <$> xs) = f <$> py_take n xs.
Proof. unfold py_take. rewrite length_fmap. destruct (0 <=? n)%Z; by rewrite fmap_take. Qed.

Lemma columns_head n df : columns (head n df) = columns df.
Proof.
  unfold columns, head. simpl. rewrite <- list_fmap_compose. by apply list_fmap_ext.
Qed.

Lemma columns_iloc_cols n df : columns (iloc_cols n df) = py_take n (columns df).
Proof. unfold columns, iloc_cols. simpl. by rewrite py_take_fmap. Qed.

Lemma columns_display_frame df max_rows max_cols :
  columns (display_frame df max_rows max_cols)
  = if truthy max_cols then py_take (int_of max_cols) (columns df) else columns df.
Proof.
  unfold display_frame. destruct (truthy max_rows), (truthy max_cols);
    by rewrite ?columns_iloc_cols, ?columns_head.
Qed.

Lemma NoDup_display_frame df max_rows max_cols :
  NoDup (columns df) → NoDup (columns (display_frame df max_rows max_cols)).
Proof.
  intros Hnd. rewrite columns_display_frame.
  destruct (truthy max_cols); [by apply NoDup_py_take | done].
Qed.

(** How a call with a recognized mode ends. *)
Lemma print_dataframe_valid df title max_rows max_cols show_index j w :
  j ∈ valid_justifications →
  outcome (print_dataframe df title max_rows max_cols show_index j) w
  = if empty df then Ok tt
    else if ambiguous (display_frame df max_rows max_cols) then Raise truth_value_error
    else if accepted (build_table df title max_rows max_cols show_index j) then Ok tt
    else Raise MarkupError.
Proof.
  intros Hj. unfold outcome, print_dataframe.
  rewrite bool_decide_eq_false_2 by (intros Hn; by apply Hn).
  destruct (empty df); [done|].
  destruct (ambiguous (display_frame df max_rows max_cols)); [done|].
  unfold render_table.
  destruct (accepted (build_table df title max_rows max_cols show_index j)); [|done].
  unfold mbind, M_bind, bind, console_print_table, console_print, emit; simpl.
  by destruct (truthy max_rows || truthy max_cols).
Qed.

(** What a call prints and how it ends depends on its arguments only. *)
Lemma print_dataframe_anywhere df title max_rows max_cols show_index j w :
  print_dataframe df title max_rows max_cols show_index j w
  = (mkWorld (heap w)
       (console w
        ++ emitted (print_dataframe df title max_rows max_cols show_index j) quiet),
     outcome (print_dataframe df title max_rows max_cols show_index j) quiet).
Proof.
  unfold emitted, outcome, print_dataframe.
  assert (Hsame : ∀ e : exn, (w, Raise e : result unit)
                    = (mkWorld (heap w) (console w ++ []), Raise e))
    by (intros e; rewrite app_nil_r; by destruct w).
  destruct (bool_decide (j ∉ valid_justifications)); [apply Hsame|].
  destruct (empty df); [done|].
  destruct (ambiguous (display_frame df max_rows max_cols)); [apply Hsame|].
  unfold render_table.
  destruct (accepted (build_table df title max_rows max_cols show_index j));
    [|apply Hsame].
  unfold mbind, M_bind, bind, console_print_table, console_print, emit, mret, M_ret, ret.
  simpl. destruct (truthy max_rows || truthy max_cols); simpl; [|done].
  by rewrite <- app_assoc.
Qed.

(** A frame with distinct labels whose table the console accepts is drawn. *)
Lemma print_dataframe_draws df title max_rows max_cols show_index j w :
  j ∈ valid_justifications →
  empty df = false →
  NoDup (columns df) →
  accepted (build_table df title max_rows max_cols show_index j) = true →
  emitted (print_dataframe df title max_rows max_cols show_index j) w
  = ConsoleTable (build_table df title max_rows max_cols show_index j) ::
    (if truthy max_rows || truthy max_cols
     then [ConsolePrint (shape_notice df)] else [])
  ∧ outcome (print_dataframe df title max_rows max_cols show_index j) w = Ok tt.
Proof.
  intros Hj Hne Hnd Hacc. split.
  - unfold print_dataframe.
    rewrite bool_decide_eq_false_2 by (intros Hn; by apply Hn).
    rewrite Hne, (ambiguous_NoDup _ (NoDup_display_frame df max_rows max_cols Hnd)).
    unfold render_table. rewrite Hacc.
    destruct (truthy max_rows || truthy max_cols).
    + unfold console_print_table, console_print. apply emitted_emit2.
    + unfold emitted, mbind, M_bind, bind, console_print_table, emit, mret, M_ret, ret.
      simpl. by rewrite drop_app_length.
  - rewrite print_dataframe_valid by done.
    by rewrite Hne, (ambiguous_NoDup _ (NoDup_display_frame df max_rows max_cols Hnd)),
         Hacc.
Qed.

(** A frame with distinct labels whose table the console rejects: nothing
    is printed. *)
Lemma print_dataframe_rejected df title max_rows max_cols show_index j w :
  j ∈ valid_justifications →
  empty df = false →
  NoDup (columns df) →
  accepted (build_table df title max_rows max_cols show_index j) = false →
  emitted (print_dataframe df title max_rows max_cols show_index j) w = []
  ∧ outcome (print_dataframe df title max_rows max_cols show_index j) w
    = Raise MarkupError.
Proof.
  intros Hj Hne Hnd Hacc. split.
  - unfold print_dataframe.
    rewrite bool_decide_eq_false_2 by (intros Hn; by apply Hn).
    rewrite Hne, (ambiguous_NoDup _ (NoDup_display_frame df max_rows max_cols Hnd)).
    unfold render_table. rewrite Hacc. unfold emitted, raise. simpl. apply drop_all.
  - rewrite print_dataframe_valid by done.
    by rewrite Hne, (ambiguous_NoDup _ (NoDup_display_frame df max_rows max_cols Hnd)),
         Hacc.
Qed.


(** C10: with an unrecognized justification mode the call raises before it
    prints anything: the world, console included, is the one it started
    from, whatever the table, an empty one included. *)
Theorem print_dataframe_validates_before_output :
  ∀ df title max_rows max_cols show_index j w,
    j ∉ ["left"; "center"; "right"] →
    (∃ msg, outcome (print_dataframe df title max_rows max_cols show_index j) w
            = Raise (ValueError msg))
    ∧ (print_dataframe df title max_rows max_cols show_index j w).1 = w
    ∧ emitted (print_dataframe df title max_rows max_cols show_index j) w = [].
Proof.
  intros df title max_rows max_cols show_index j w Hj.
  destruct (print_dataframe_invalid df title max_rows max_cols show_index j w Hj)
    as [msg Hmsg].
  unfold outcome, emitted. rewrite Hmsg. simpl.
  split; [by exists msg|]. split; [done|]. by rewrite drop_all.
Qed.

(** C8, as amended: on a non-empty frame with distinct column labels whose
    table the console accepts, and with a recognized mode, the console
    receives the table and then the shape notice of the whole frame exactly
    when [max_rows] or [max_cols] was given a non-zero value, whether or not
    that value cuts anything off. *)
Theorem shape_notice_iff_cap_given :
  ∀ df title max_rows max_cols show_index j w,
    j ∈ ["left"; "center"; "right"] →
    empty df = false →
    NoDup (columns df) →
    accepted (build_table df title max_rows max_cols show_index j) = true →
    (∃ t, emitted (print_dataframe df title max_rows max_cols show_index j) w
          = ConsoleTable t ::
            (if truthy max_rows || truthy max_cols
             then [ConsolePrint (shape_notice df)] else []))
    ∧ (ConsolePrint (shape_notice df)
         ∈ emitted (print_dataframe df title max_rows max_cols show_index j) w
       ↔ truthy max_rows || truthy max_cols = true).
Proof.
  intros df title max_rows max_cols show_index j w Hj Hne Hnd Hacc.
  destruct (print_dataframe_draws df title max_rows max_cols show_index j w
              Hj Hne Hnd Hacc) as [Ht _].
  split; [by eexists|]. rewrite Ht.
  destruct (truthy max_rows || truthy max_cols).
  - split; [done|]. intros _. rewrite !elem_of_cons. by right; left.
  - split; [|done]. intros Hin. apply elem_of_cons in Hin as [Heq|Hin]; [done|].
    by apply elem_of_nil in Hin.
Qed.

End printer.

Lemma print_dataframe_validates_before_output_witness :
  ("middle" ∉ ["left"; "center"; "right"])
  ∧ (∃ msg, outcome (print_dataframe (H:=exact.runtime) DataFrame_empty None None None
                       true "middle") quiet
            = Raise (ValueError msg))
  ∧ (print_dataframe (H:=exact.runtime) DataFrame_empty None None None
       true "middle" quiet).1 = quiet
  ∧ emitted (print_dataframe (H:=exact.runtime) DataFrame_empty None None None
               true "middle") quiet = [].
Proof.
  assert (Hj : "middle" ∉ ["left"; "center"; "right"])
    by decide_by_compute.
  split; [exact Hj|].
  exact (print_dataframe_validates_before_output (H:=exact.runtime)
           DataFrame_empty None None None true "middle" quiet Hj).
Defined.

(** C8, as the spec words it, fails on an empty frame: a row cap is
    supplied, and the call prints the "empty" notice and returns, so no shape
    notice follows. *)
Lemma shape_notice_missing_for_empty_frame :
  ¬ (ConsolePrint (shape_notice DataFrame_empty)
       ∈ emitted (print_dataframe (H:=exact.runtime) DataFrame_empty None
                    (Some 5%Z) None true "right") quiet
     ↔ (Some 5%Z ≠ None ∨ (None : option Z) ≠ None)).
Proof.
  intros [_ Hback].
  assert (Hin := Hback (or_introl (λ E, eq_ind (Some 5%Z)
                  (λ o, match o with Some _ => True | None => False end) I None E))).
  vm_compute in Hin.
  apply elem_of_cons in Hin as [Heq|Hin]; [discriminate Heq|].
  by apply elem_of_nil in Hin.
Qed.

Lemma shape_notice_iff_cap_given_witness :
  ("right" ∈ ["left"; "center"; "right"])
  ∧ empty five_by_three = false
  ∧ NoDup (columns five_by_three)
  ∧ accepted (H:=exact.runtime)
      (build_table (H:=exact.runtime) five_by_three None (Some 10%Z) None true "right")
    = true
  ∧ (∃ t, emitted (print_dataframe (H:=exact.runtime) five_by_three None
                     (Some 10%Z) None true "right") quiet
          = ConsoleTable t ::
            (if truthy (Some 10%Z) || truthy None
             then [ConsolePrint (shape_notice five_by_three)] else []))
  ∧ (ConsolePrint (shape_notice five_by_three)
       ∈ emitted (print_dataframe (H:=exact.runtime) five_by_three None
                    (Some 10%Z) None true "right") quiet
     ↔ truthy (Some 10%Z) || truthy None = true).
Proof.
  assert (Hj : "right" ∈ ["left"; "center"; "right"])
    by decide_by_compute.
  assert (Hne : empty five_by_three = false) by reflexivity.
  assert (Hnd : NoDup (columns five_by_three)) by decide_by_compute.
  assert (Hacc : accepted (H:=exact.runtime)
                   (build_table (H:=exact.runtime) five_by_three None (Some 10%Z) None
                      true "right") = true) by (vm_compute; reflexivity).
  split; [exact Hj|]. split; [exact Hne|]. split; [exact Hnd|]. split; [exact Hacc|].
  exact (shape_notice_iff_cap_given (H:=exact.runtime)
           five_by_three None (Some 10%Z) None true "right" quiet Hj Hne Hnd Hacc).
Defined.



(** The third branch of the caption never runs: its condition implies the
    first one. *)
Lemma with_caption_branches t df max_rows max_cols :
  caption (with_caption t df max_rows max_cols)
  = if truthy max_rows && (int_of max_rows <? Z.of_nat (len df))%Z then
      Some ("Showing " +:+ str_int (int_of max_rows) +:+ " of "
            +:+ str_nat (len df) +:+ " rows")
    else if truthy max_cols && (int_of max_cols <? Z.of_nat (length (columns df)))%Z then
      Some ("Showing " +:+ str_int (int_of max_cols) +:+ " of "
            +:+ str_nat (length (columns df)) +:+ " columns")
    else caption t.
Proof.
  unfold with_caption.
  destruct (truthy max_rows && (int_of max_rows <? Z.of_nat (len df))%Z); [done|].
  destruct (truthy max_cols && (int_of max_cols <? Z.of_nat (length (columns df)))%Z);
    done.
Qed.

(** C3, where the code departs from it: five rows and three columns, printed
    with [max_rows=2] and [max_cols=1].  Both caps truncate, and the caption
    reports the rows only. *)
Theorem caption_with_both_caps_reports_rows_only :
  ∃ t, emitted (print_dataframe (H:=exact.runtime) five_by_three None
                  (Some 2%Z) (Some 1%Z) true "right") quiet
       = [ConsoleTable t; ConsolePrint (shape_notice five_by_three)]
    ∧ length (table_rows t) = 2%nat
    ∧ header <$> table_columns t = ["Index"; "a"]
    ∧ caption t = Some "Showing 2 of 5 rows".
Proof.
  eexists. split; [vm_compute; reflexivity|]. by vm_compute.
Qed.

(** * Runs that only print *)

Section prints.
Context `{Externals}.

Lemma prints_ret {A} (a : A) w : prints (mret a) w [] a.
Proof. unfold prints, mret, M_ret, ret. rewrite app_nil_r. by destruct w. Qed.

Lemma prints_emit e w : prints (emit e) w [e] tt.
Proof. done. Qed.

Lemma prints_print s w : prints (print s) w [Print s] tt.
Proof. done. Qed.

Lemma prints_bind {A B} (c : M A) (k : A → M B) w es a es' b :
  prints c w es a →
  prints (k a) (mkWorld (heap w) (console w ++ es)) es' b →
  prints (c ≫= k) w (es ++ es') b.
Proof.
  unfold prints, mbind, M_bind, bind. intros -> ->. simpl. by rewrite app_assoc.
Qed.

Lemma prints_load l d w : heap w !! l = Some d → prints (load l) w [] d.
Proof.
  intros Hl. unfold prints, load. rewrite Hl, app_nil_r. by destruct w.
Qed.

Lemma prints_eq {A} (c : M A) w es es' a : prints c w es a → es = es' → prints c w es' a.
Proof. by intros ? <-. Qed.

Lemma prints_for {A} (f : A → string) (body : A → M unit) xs w :
  (∀ x w', prints (body x) w' [Print (f x)] tt) →
  prints (for_ xs body) w ((λ x, Print (f x)) <$> xs) tt.
Proof.
  intros Hbody. revert w. induction xs as [|x xs IH]; intros w.
  - apply prints_ret.
  - change (prints (body x ≫= λ _, for_ xs body) w
                    ([Print (f x)] ++ ((λ x, Print (f x)) <$> xs)) tt).
    eapply prints_bind; [apply Hbody | apply IH].
Qed.

Lemma prints_divider {A} text (c : M A) w es a :
  (∀ w', heap w' = heap w → prints c w' es a) →
  prints (print_divider text c) w (banner text ++ es) tt.
Proof.
  intros Hc. unfold print_divider, banner.
  eapply prints_eq.
  - eapply prints_bind; [apply prints_print|].
    eapply prints_bind; [apply prints_print|].
    eapply prints_bind; [apply prints_print|].
    eapply prints_bind; [apply Hc; done|].
    apply prints_ret.
  - simpl. by rewrite app_nil_r.
Qed.

Lemma prints_emitted {A} (c : M A) w es a :
  prints c w es a → emitted c w = es ∧ outcome c w = Ok a.
Proof.
  unfold prints, emitted, outcome. intros ->. simpl.
  by rewrite drop_app_length.
Qed.

End prints.

(** * The sort *)

Section sorting.
Context {A : Type} (before : A → A → bool).

Lemma insert_by_Permutation x l : insert_by before x l ≡ₚ x :: l.
Proof.
  induction l as [|y l IH]; [done|]. simpl. destruct (before x y); [done|].
  rewrite IH. apply Permutation_swap.
Qed.

Lemma stable_sort_Permutation l : stable_sort before l ≡ₚ l.
Proof.
  induction l as [|x l IH]; [done|]. unfold stable_sort in *. simpl.
  by rewrite insert_by_Permutation, IH.
Qed.

Lemma insert_by_sorted (R : relation A) `{!Transitive R} x l :
  (∀ a b, before a b = true → R a b) →
  (∀ a b, before a b = false → R b a) →
  StronglySorted R l → StronglySorted R (insert_by before x l).
Proof.
  intros Hyes Hno. induction 1 as [|y l Hl IH Hy]; simpl.
  - repeat constructor.
  - destruct (before x y) eqn:Hb.
    + constructor; [by constructor|]. constructor; [by apply Hyes|].
      eapply Forall_impl; [exact Hy|]. intros z Hz. simpl.
      transitivity y; [by apply Hyes | done].
    + constructor; [done|]. rewrite insert_by_Permutation.
      constructor; [by apply Hno | done].
Qed.

Lemma stable_sort_sorted (R : relation A) `{!Transitive R} l :
  (∀ a b, before a b = true → R a b) →
  (∀ a b, before a b = false → R b a) →
  StronglySorted R (stable_sort before l).
Proof.
  intros Hyes Hno. induction l as [|x l IH]; [constructor|].
  unfold stable_sort in *. simpl. by apply insert_by_sorted.
Qed.

End sorting.

(** * missing_values_analysis *)

Section missing_values.
Context `{Externals}.

#[local] Instance fewer_missing_trans : Transitive fewer_missing.
Proof. unfold fewer_missing. intros a b c. lia. Qed.
#[local] Instance fewer_missing_total : Total fewer_missing.
Proof. unfold fewer_missing. intros a b. lia. Qed.

Lemma missing_record_df_elem d r :
  r ∈ missing_record_df d ↔
  ∃ c, c ∈ series d ∧ (0 < count_missing (s_values c))%nat
       ∧ r = mkMissing (s_name c) (count_missing (s_values c)) (global_percentage d).
Proof.
  unfold missing_record_df. rewrite stable_sort_Permutation.
  rewrite list_elem_of_filter, list_elem_of_fmap. unfold isnull_sum. split.
  - intros (Hpos & p & -> & Hp). apply list_elem_of_fmap in Hp as (c & -> & Hc).
    exists c. by repeat split.
  - intros (c & Hc & Hpos & ->). split; [done|].
    exists (s_name c, count_missing (s_values c)). split; [done|].
    apply list_elem_of_fmap. by exists c.
Qed.

Lemma listed_columns pct (cs : list Series) :
  Columns <$> filter (λ r, 0 < Missing_Elements r)%nat
                ((λ p : string * nat, mkMissing p.1 p.2 pct)
                   <$> ((λ c, (s_name c, count_missing (s_values c))) <$> cs))
  = s_name <$> filter (λ c, 0 < count_missing (s_values c))%nat cs.
Proof.
  induction cs as [|c cs IH]; [done|].
  rewrite !fmap_cons, !filter_cons. cbn [Missing_Elements snd].
  destruct (decide (0 < count_missing (s_values c))%nat); [|exact IH].
  rewrite !fmap_cons. by rewrite IH.
Qed.

Lemma missing_record_df_columns d :
  Columns <$> missing_record_df d
  ≡ₚ s_name <$> filter (λ c, 0 < count_missing (s_values c))%nat (series d).
Proof.
  unfold missing_record_df. rewrite stable_sort_Permutation.
  unfold isnull_sum. by rewrite listed_columns.
Qed.

Lemma isnull_sum_total d : sum_list ((isnull_sum d).*2) = missing_cells d.
Proof.
  unfold isnull_sum, missing_cells. f_equal. rewrite <- list_fmap_compose.
  by apply list_fmap_ext.
Qed.

Lemma count_missing_le vs : (count_missing vs ≤ length vs)%nat.
Proof. unfold count_missing. apply length_filter. Qed.

Lemma missing_cells_zero d c :
  missing_cells d = 0%nat → c ∈ series d → count_missing (s_values c) = 0%nat.
Proof.
  unfold missing_cells. intros Hz Hc.
  assert (Hle : (count_missing (s_values c)
                 ≤ sum_list ((λ c, count_missing (s_values c)) <$> series d))%nat).
  { clear Hz. induction Hc as [c cs|c c' cs Hc IH]; rewrite fmap_cons; simpl; lia. }
  lia.
Qed.

Lemma missing_values_analysis_prints self d w :
  heap w !! df self = Some d →
  prints (missing_values_analysis self) w
    (banner "MISSING VALUES ANALYSIS" ++
     if bool_decide (length (missing_record_df d) ≠ 0%nat)
     then [Print "Found missing values in dataset!"; Print (to_string false d)]
     else [Print "There are no missing elements in the dataset !!"]) tt.
Proof.
  intros Hd. unfold missing_values_analysis. apply (prints_divider _ _ _ _ tt).
  intros w' Hw'. rewrite <- Hw' in Hd.
  destruct (bool_decide (length (missing_record_df d) ≠ 0%nat)) eqn:Hb.
  - eapply prints_eq.
    + eapply prints_bind; [by apply prints_load|]. cbv beta zeta. rewrite Hb.
      eapply prints_bind; [apply prints_print|].
      eapply prints_bind; [by apply prints_load|].
      apply prints_print.
    + reflexivity.
  - eapply prints_eq.
    + eapply prints_bind; [by apply prints_load|]. cbv beta zeta. rewrite Hb.
      apply prints_print.
    + reflexivity.
Qed.

(** C5: every row of the missing-value result carries the same percentage,
    the number of missing cells of the whole table times 100 over rows times
    columns; the result lists the columns with a non-zero missing count and
    no others, in ascending order of that count; and a table without a
    missing cell gets the "no missing elements" line and nothing else. *)
Theorem missing_values_percentage_is_global :
  ∀ self d w,
    heap w !! df self = Some d →
    rectangular d →
    (∀ r, r ∈ missing_record_df d →
       (0 < Missing_Elements r)%nat
       ∧ ∃ q, Percentage_Missing r = VFloat q
              ∧ (q == inject_Z (Z.of_nat (missing_cells d) * 100)
                      / inject_Z (Z.of_nat (len d * length (columns d))))%Q)
    ∧ (∀ r, r ∈ missing_record_df d ↔
         ∃ c, c ∈ series d ∧ (0 < count_missing (s_values c))%nat
              ∧ Columns r = s_name c
              ∧ Missing_Elements r = count_missing (s_values c)
              ∧ Percentage_Missing r = global_percentage d)
    ∧ Columns <$> missing_record_df d
      ≡ₚ s_name <$> filter (λ c, 0 < count_missing (s_values c))%nat (series d)
    ∧ StronglySorted fewer_missing (missing_record_df d)
    ∧ (missing_cells d = 0%nat →
       missing_record_df d = []
       ∧ emitted (missing_values_analysis self) w
         = banner "MISSING VALUES ANALYSIS"
           ++ [Print "There are no missing elements in the dataset !!"]
       ∧ outcome (missing_values_analysis self) w = Ok tt).
Proof.
  intros self d w Hd Hrect.
  split; [|split; [|split; [|split]]].
  - intros r Hr. apply missing_record_df_elem in Hr as (c & Hc & Hpos & ->). simpl.
    split; [done|].
    assert (Hlen : (0 < len d)%nat).
    { unfold rectangular in Hrect. rewrite Forall_forall in Hrect.
      rewrite <- (Hrect c Hc). pose proof (count_missing_le (s_values c)). lia. }
    assert (Hcols : (0 < length (series d))%nat).
    { destruct (series d); [by apply elem_of_nil in Hc | simpl; lia]. }
    unfold global_percentage.
    rewrite bool_decide_eq_false_2 by (unfold size; nia).
    eexists. split; [reflexivity|].
    rewrite Qred_correct, isnull_sum_total. unfold size, columns, Qn.
    rewrite length_fmap, inject_Z_mult. reflexivity.
  - intros r. rewrite missing_record_df_elem. split.
    + intros (c & Hc & Hpos & ->). by exists c.
    + intros (c & Hc & Hpos & Hn & Hm & Hp). exists c. repeat split; try done.
      destruct r; simpl in *; by subst.
  - apply missing_record_df_columns.
  - unfold missing_record_df. apply (stable_sort_sorted _ fewer_missing).
    + intros a b Hb. by apply bool_decide_eq_true_1 in Hb.
    + intros a b Hb. apply bool_decide_eq_false_1 in Hb.
      unfold fewer_missing in *. lia.
  - intros Hzero.
    assert (Hnil : missing_record_df d = []).
    { apply elem_of_nil_inv. intros r Hr.
      apply missing_record_df_elem in Hr as (c & Hc & Hpos & _).
      rewrite (missing_cells_zero d c Hzero Hc) in Hpos. lia. }
    split; [done|].
    pose proof (missing_values_analysis_prints self d w Hd) as Hp.
    rewrite Hnil in Hp. simpl in Hp.
    by apply prints_emitted in Hp.
Qed.

(** C6: when some column has a missing cell, the method prints the
    confirmation line and then the text of the loaded table itself, whole;
    the missing-value result it computed is not printed. *)
Theorem missing_values_dumps_loaded_table :
  ∀ self d w,
    heap w !! df self = Some d →
    (∃ c, c ∈ series d ∧ (0 < count_missing (s_values c))%nat) →
    emitted (missing_values_analysis self) w
    = banner "MISSING VALUES ANALYSIS"
      ++ [Print "Found missing values in dataset!"; Print (to_string false d)]
    ∧ outcome (missing_values_analysis self) w = Ok tt.
Proof.
  intros self d w Hd (c & Hc & Hpos).
  pose proof (missing_values_analysis_prints self d w Hd) as Hp.
  rewrite bool_decide_eq_true_2 in Hp; [by apply prints_emitted in Hp|].
  assert (Hr : mkMissing (s_name c) (count_missing (s_values c)) (global_percentage d)
               ∈ missing_record_df d)
    by (apply missing_record_df_elem; by exists c).
  destruct (missing_record_df d); [by apply elem_of_nil in Hr | done].
Qed.

End missing_values.

Lemma missing_values_percentage_is_global_witness :
  heap (loaded scenario) !! df report = Some scenario
  ∧ rectangular scenario
  ∧ missing_record_df scenario = [mkMissing "A" 1 (VFloat (50 # 3))]
  ∧ (∀ r, r ∈ missing_record_df scenario →
       (0 < Missing_Elements r)%nat
       ∧ ∃ q, Percentage_Missing r = VFloat q
              ∧ (q == inject_Z (Z.of_nat (missing_cells scenario) * 100)
                      / inject_Z (Z.of_nat (len scenario * length (columns scenario))))%Q).
Proof.
  assert (Hd : heap (loaded scenario) !! df report = Some scenario) by reflexivity.
  assert (Hrect : rectangular scenario) by (repeat constructor).
  split; [exact Hd|]. split; [exact Hrect|]. split; [reflexivity|].
  exact (proj1 (missing_values_percentage_is_global (H:=exact.runtime)
                  report scenario (loaded scenario) Hd Hrect)).
Defined.

Lemma missing_values_dumps_loaded_table_witness :
  heap (loaded scenario) !! df report = Some scenario
  ∧ (∃ c, c ∈ series scenario ∧ (0 < count_missing (s_values c))%nat)
  ∧ emitted (missing_values_analysis (H:=exact.runtime) report) (loaded scenario)
    = banner "MISSING VALUES ANALYSIS"
      ++ [Print "Found missing values in dataset!";
          Print (to_string (Externals:=exact.runtime) false scenario)]
  ∧ outcome (missing_values_analysis (H:=exact.runtime) report) (loaded scenario) = Ok tt.
Proof.
  assert (Hd : heap (loaded scenario) !! df report = Some scenario) by reflexivity.
  assert (Hc : ∃ c, c ∈ series scenario ∧ (0 < count_missing (s_values c))%nat).
  { exists (mkSeries "A" Float64 [VFloat 1; VFloat 2; NaN]).
    split; [apply elem_of_cons; by left | vm_compute; lia]. }
  split; [exact Hd|]. split; [exact Hc|].
  exact (missing_values_dumps_loaded_table (H:=exact.runtime)
           report scenario (loaded scenario) Hd Hc).
Defined.

(** * data_types_summary *)

Section data_types.

Lemma elem_of_selected include d x :
  x ∈ columns (select_dtypes include d) ↔
  ∃ c, c ∈ series d ∧ s_name c = x
       ∧ existsb (λ sel, dtype_selected sel (s_dtype c)) include = true.
Proof.
  unfold columns, select_dtypes. simpl. rewrite list_elem_of_fmap. split.
  - intros (c & -> & Hc). apply list_elem_of_filter in Hc as [Hsel Hc]. by exists c.
  - intros (c & Hc & <- & Hsel). exists c. split; [done|].
    by apply list_elem_of_filter.
Qed.

Lemma unique_names (cs : list Series) c1 c2 :
  NoDup (s_name <$> cs) → c1 ∈ cs → c2 ∈ cs → s_name c1 = s_name c2 → c1 = c2.
Proof.
  induction cs as [|c cs IH]; intros Hnd H1 H2 Heq.
  - by apply elem_of_nil in H1.
  - rewrite fmap_cons in Hnd. apply NoDup_cons in Hnd as [Hnotin Hnd].
    apply elem_of_cons in H1 as [->|H1]; apply elem_of_cons in H2 as [->|H2].
    + done.
    + exfalso. apply Hnotin. rewrite Heq. by apply list_elem_of_fmap_2.
    + exfalso. apply Hnotin. rewrite <- Heq. by apply list_elem_of_fmap_2.
    + by apply IH.
Qed.

Lemma selected_number dt :
  existsb (λ sel, dtype_selected sel dt) ["number"] = true ↔ dt = Int64 ∨ dt = Float64.
Proof. destruct dt; vm_compute; split; intros; try done; by intuition. Qed.

Lemma selected_object dt :
  existsb (λ sel, dtype_selected sel dt) ["object"] = true ↔ dt = Object.
Proof. by destruct dt; vm_compute. Qed.

Lemma selected_datetime dt :
  existsb (λ sel, dtype_selected sel dt) ["datetime"; "datetime64"] = true
  ↔ dt = Datetime64.
Proof. by destruct dt; vm_compute. Qed.

Lemma prints_listing lead kind none head_line cols w :
  (head_line = lead +:+ "Found " +:+ str_nat (length cols) +:+ " " +:+ kind
               +:+ " columns in dataset:") →
  prints
    (if bool_decide (length cols > 0)%nat then
       print head_line;;
       for_ (enumerate 0 cols) (λ '(i, col_name),
         print (str_nat i +:+ " - " +:+ col_name))
     else print (lead +:+ none))
    w (partition_report lead kind none cols) tt.
Proof.
  intros ->. unfold partition_report.
  destruct (bool_decide (length cols > 0)%nat).
  - change (?x :: ?l) with ([x] ++ l).
    eapply prints_bind; [apply prints_print|].
    apply (prints_for (λ p, str_nat p.1 +:+ " - " +:+ p.2)).
    by intros [i col] w'.
  - apply prints_print.
Qed.

Lemma data_types_summary_prints self d w :
  heap w !! df self = Some d →
  prints (data_types_summary self) w
    (banner "DATA TYPES SUMMARY"
     ++ partition_report "" "numeric" "No numerical data found in dataset"
          (numeric_columns d)
     ++ partition_report nl "categorical" "No categorical data found in dataset"
          (categorical_columns d)
     ++ partition_report nl "datetime" "No datetime data found in dataset"
          (datetime_columns d)) tt.
Proof.
  intros Hd. unfold data_types_summary. apply (prints_divider _ _ _ _ tt).
  intros w' Hw'. rewrite <- Hw' in Hd.
  eapply prints_eq.
  - eapply prints_bind; [by apply prints_load|]. cbv beta zeta.
    eapply prints_bind;
      [apply (prints_listing "" "numeric" "No numerical data found in dataset");
       reflexivity|].
    eapply prints_bind;
      [apply (prints_listing nl "categorical" "No categorical data found in dataset");
       reflexivity|].
    apply (prints_listing nl "datetime" "No datetime data found in dataset").
    reflexivity.
  - reflexivity.
Qed.

(** C2, as amended: the three lists the summary reports are pairwise
    disjoint and hold columns of the table only; a column is in one of them
    exactly when its dtype is integer, float, object or datetime, so a
    column of truth values is in none. *)
Theorem data_types_partition :
  ∀ self d w,
    heap w !! df self = Some d →
    NoDup (columns d) →
    emitted (data_types_summary self) w
    = banner "DATA TYPES SUMMARY"
      ++ partition_report "" "numeric" "No numerical data found in dataset"
           (numeric_columns d)
      ++ partition_report nl "categorical" "No categorical data found in dataset"
           (categorical_columns d)
      ++ partition_report nl "datetime" "No datetime data found in dataset"
           (datetime_columns d)
    ∧ (∀ x, ¬ (x ∈ numeric_columns d ∧ x ∈ categorical_columns d))
    ∧ (∀ x, ¬ (x ∈ numeric_columns d ∧ x ∈ datetime_columns d))
    ∧ (∀ x, ¬ (x ∈ categorical_columns d ∧ x ∈ datetime_columns d))
    ∧ (∀ x, x ∈ numeric_columns d ∨ x ∈ categorical_columns d ∨ x ∈ datetime_columns d
            → x ∈ columns d)
    ∧ (∀ c, c ∈ series d →
         (s_name c ∈ numeric_columns d ∨ s_name c ∈ categorical_columns d
          ∨ s_name c ∈ datetime_columns d)
         ↔ s_dtype c ≠ Bool).
Proof.
  intros self d w Hd Hnd.
  assert (Hkind : ∀ include x c,
            x ∈ columns (select_dtypes include d) → c ∈ series d → s_name c = x →
            existsb (λ sel, dtype_selected sel (s_dtype c)) include = true).
  { intros include x c Hx Hc Hname.
    apply elem_of_selected in Hx as (c' & Hc' & Hname' & Hsel).
    by rewrite (unique_names (series d) c c' Hnd Hc Hc') by congruence. }
  assert (Hdisj : ∀ inc1 inc2 x,
            (∀ dt, existsb (λ sel, dtype_selected sel dt) inc1 = true →
                   existsb (λ sel, dtype_selected sel dt) inc2 = true → False) →
            ¬ (x ∈ columns (select_dtypes inc1 d) ∧ x ∈ columns (select_dtypes inc2 d))).
  { intros inc1 inc2 x Hex [H1 H2].
    pose proof H1 as H1'. apply elem_of_selected in H1' as (c & Hc & Hname & _).
    apply (Hex (s_dtype c)); by eapply Hkind. }
  split; [|split; [|split; [|split; [|split]]]].
  - by apply (prints_emitted _ _ _ tt), data_types_summary_prints.
  - intros x. apply Hdisj. intros dt H1%selected_number H2%selected_object.
    destruct H1; congruence.
  - intros x. apply Hdisj. intros dt H1%selected_number H2%selected_datetime.
    destruct H1; congruence.
  - intros x. apply Hdisj. intros dt H1%selected_object H2%selected_datetime.
    congruence.
  - intros x [Hx|[Hx|Hx]]; apply elem_of_selected in Hx as (c & Hc & <- & _);
      by apply list_elem_of_fmap_2.
  - intros c Hc. unfold numeric_columns, categorical_columns, datetime_columns.
    rewrite !elem_of_selected. split.
    + intros [(c' & Hc' & Hn & Hs)|[(c' & Hc' & Hn & Hs)|(c' & Hc' & Hn & Hs)]];
        rewrite (unique_names (series d) c' c Hnd Hc' Hc Hn) in Hs.
      * apply selected_number in Hs. destruct Hs; congruence.
      * apply selected_object in Hs. congruence.
      * apply selected_datetime in Hs. congruence.
    + intros Hb. destruct (s_dtype c) eqn:Hdt; try done.
      * left. exists c. rewrite Hdt. by repeat split.
      * left. exists c. rewrite Hdt. by repeat split.
      * right; left. exists c. rewrite Hdt. by repeat split.
      * right; right. exists c. rewrite Hdt. by repeat split.
Qed.

End data_types.

Lemma data_types_partition_witness :
  heap (loaded scenario) !! df report = Some scenario
  ∧ NoDup (columns scenario)
  ∧ numeric_columns scenario = ["A"]
  ∧ categorical_columns scenario = ["B"]
  ∧ datetime_columns scenario = []
  ∧ (∀ x, ¬ (x ∈ numeric_columns scenario ∧ x ∈ categorical_columns scenario)).
Proof.
  assert (Hd : heap (loaded scenario) !! df report = Some scenario) by reflexivity.
  assert (Hnd : NoDup (columns scenario)) by decide_by_compute.
  split; [exact Hd|]. split; [exact Hnd|]. do 3 (split; [reflexivity|]).
  exact (proj1 (proj2 (data_types_partition report scenario (loaded scenario) Hd Hnd))).
Defined.

(** C2, as the spec words it, fails on a table with a column of truth
    values: the column belongs to the table and to none of the three lists. *)
Lemma truth_value_column_in_no_partition :
  ("flag" ∈ columns flags)
  ∧ ("flag" ∉ numeric_columns flags)
  ∧ ("flag" ∉ categorical_columns flags)
  ∧ ("flag" ∉ datetime_columns flags).
Proof. repeat split; decide_by_compute. Qed.

(** * The scan for strong correlations *)

Section strong_pairs.

Lemma Qltb_lt a b : Qltb a b = true ↔ (a < b)%Q.
Proof.
  unfold Qltb. rewrite negb_true_iff, <- not_true_iff_false, Qle_bool_iff.
  split; [apply Qnot_le_lt | apply Qlt_not_le].
Qed.

Lemma is_strong_spec m i j : is_strong m i j = true ↔ strong m i j.
Proof.
  unfold is_strong, strong, coefficient, abs_gt.
  destruct (iloc m i j) as [v|]; simpl.
  - destruct (to_Q v) as [q|].
    + rewrite Qltb_lt. split; [intros Hq; by exists q | by intros (q' & [= <-] & Hq)].
    + split; [done | by intros (q' & [=] & _)].
  - split; [done | by intros (q' & [=] & _)].
Qed.

Lemma foldM_collect {A B} (f : list B → A → option (list B)) (g : A → list B) xs acc :
  (∀ acc x, x ∈ xs → f acc x = Some (acc ++ g x)) →
  foldM f acc xs = Some (acc ++ (xs ≫= g)).
Proof.
  revert acc. induction xs as [|x xs IH]; intros acc Hf.
  - simpl. by rewrite app_nil_r.
  - rewrite bind_cons. cbn [foldM].
    rewrite Hf by (apply elem_of_cons; by left). cbn [mbind option_bind].
    rewrite IH by (intros; apply Hf, elem_of_cons; by right).
    by rewrite app_assoc.
Qed.

Lemma square_iloc m i j :
  square m → (i < length (columns m))%nat → (j < length (columns m))%nat →
  is_Some (iloc m i j).
Proof.
  intros [Hrect Hlen] Hi Hj. unfold columns in *. rewrite length_fmap in *.
  unfold iloc. destruct (lookup_lt_is_Some_2 (series m) j Hj) as [c Hc].
  rewrite Hc. simpl. apply lookup_lt_is_Some_2.
  unfold rectangular in Hrect. rewrite Forall_forall in Hrect.
  rewrite (Hrect c) by (by eapply list_elem_of_lookup_2). lia.
Qed.

Lemma strong_corrs_positions m :
  square m → strong_corrs m = Some (entry m <$> strong_positions m).
Proof.
  intros Hsq. unfold strong_corrs, strong_positions.
  set (n := length (columns m)).
  rewrite (foldM_collect _
             (λ i, entry m <$> (seq (i + 1) (n - (i + 1))
                                ≫= λ j, if is_strong m i j then [(i, j)] else []))).
  - simpl. f_equal. induction (seq 0 n) as [|i is_ IH]; [done|].
    by rewrite !bind_cons, fmap_app, IH.
  - intros acc i Hi. apply elem_of_seq in Hi.
    rewrite (foldM_collect _ (λ j, entry m <$> if is_strong m i j then [(i, j)] else [])).
    + f_equal. f_equal. induction (seq (i + 1) (n - (i + 1))) as [|j js IH]; [done|].
      by rewrite !bind_cons, fmap_app, IH.
    + intros acc' j Hj. apply elem_of_seq in Hj.
      destruct (square_iloc m i j Hsq) as [v Hv]; [lia..|].
      destruct (lookup_lt_is_Some_2 (columns m) i) as [a Ha]; [lia|].
      destruct (lookup_lt_is_Some_2 (columns m) j) as [b Hb]; [lia|].
      unfold is_strong, entry. rewrite Hv. simpl.
      destruct (abs_gt v (1 # 2)); [|by rewrite app_nil_r].
      rewrite Ha, Hb. simpl. by rewrite Ha, Hb, Hv.
Qed.

Lemma elem_of_strong_positions m i j :
  (i, j) ∈ strong_positions m ↔ (i < j < length (columns m))%nat ∧ strong m i j.
Proof.
  unfold strong_positions. rewrite list_elem_of_bind. split.
  - intros (i' & Hin & Hi'). apply list_elem_of_bind in Hin as (j' & Hin & Hj').
    apply elem_of_seq in Hi', Hj'.
    destruct (is_strong m i' j') eqn:Hs; [|by apply elem_of_nil in Hin].
    apply elem_of_cons in Hin as [[= -> ->]|Hin]; [|by apply elem_of_nil in Hin].
    split; [lia | by apply is_strong_spec].
  - intros [Hij Hs]. exists i. split; [|apply elem_of_seq; lia].
    apply list_elem_of_bind. exists j. split; [|apply elem_of_seq; lia].
    apply is_strong_spec in Hs. rewrite Hs. apply elem_of_cons. by left.
Qed.

Lemma sorted_bind {A B} (R1 : relation A) (R : relation B) (f : A → list B) xs :
  StronglySorted R1 xs →
  (∀ x, x ∈ xs → StronglySorted R (f x)) →
  (∀ x y a b, x ∈ xs → y ∈ xs → R1 x y → a ∈ f x → b ∈ f y → R a b) →
  StronglySorted R (xs ≫= f).
Proof.
  induction 1 as [|x xs Hxs IH Hx]; intros Hf HR.
  - constructor.
  - rewrite bind_cons. apply StronglySorted_app_2.
    + intros a b Ha Hb. apply list_elem_of_bind in Hb as (y & Hb & Hy).
      rewrite Forall_forall in Hx.
      apply (HR x y); try done; [apply elem_of_cons; by left
                                | apply elem_of_cons; by right | by apply Hx].
    + apply Hf, elem_of_cons. by left.
    + apply IH.
      * intros y Hy. apply Hf, elem_of_cons. by right.
      * intros y z a b Hy Hz. apply HR; apply elem_of_cons; by right.
Qed.

Lemma seq_sorted j n : StronglySorted lt (seq j n).
Proof.
  revert j. induction n as [|n IH]; intros j; simpl; constructor; [apply IH|].
  apply Forall_forall. intros k Hk%elem_of_seq. lia.
Qed.

Lemma strong_positions_sorted m : StronglySorted row_major (strong_positions m).
Proof.
  unfold strong_positions.
  apply (sorted_bind lt); [apply seq_sorted | |].
  - intros i _. apply (sorted_bind lt); [apply seq_sorted | |].
    + intros j _. destruct (is_strong m i j); repeat constructor.
    + intros j j' a b _ _ Hlt Ha Hb.
      destruct (is_strong m i j); [|by apply elem_of_nil in Ha].
      destruct (is_strong m i j'); [|by apply elem_of_nil in Hb].
      apply elem_of_cons in Ha as [->|Ha]; [|by apply elem_of_nil in Ha].
      apply elem_of_cons in Hb as [->|Hb]; [|by apply elem_of_nil in Hb].
      right. simpl. lia.
  - intros i i' a b _ _ Hlt Ha Hb.
    apply list_elem_of_bind in Ha as (j & Ha & _).
    apply list_elem_of_bind in Hb as (j' & Hb & _).
    destruct (is_strong m i j); [|by apply elem_of_nil in Ha].
    destruct (is_strong m i' j'); [|by apply elem_of_nil in Hb].
    apply elem_of_cons in Ha as [->|Ha]; [|by apply elem_of_nil in Ha].
    apply elem_of_cons in Hb as [->|Hb]; [|by apply elem_of_nil in Hb].
    left. simpl. lia.
Qed.

Lemma sorted_NoDup {A} (R : relation A) (l : list A) :
  (∀ x, ¬ R x x) → StronglySorted R l → NoDup l.
Proof.
  intros Hirr. induction 1 as [|x l Hl IH Hx]; constructor; [|done].
  intros Hin. rewrite Forall_forall in Hx. by apply (Hirr x), Hx.
Qed.

Lemma entries_at m :
  square m → Forall2 (entry_at m) (strong_positions m) (entry m <$> strong_positions m).
Proof.
  intros Hsq. apply Forall2_fmap_r, Forall_Forall2_diag, Forall_forall.
  intros [i j] Hin. apply elem_of_strong_positions in Hin as [Hij _].
  destruct (square_iloc m i j Hsq) as [v Hv]; [lia..|].
  destruct (lookup_lt_is_Some_2 (columns m) i) as [a Ha]; [lia|].
  destruct (lookup_lt_is_Some_2 (columns m) j) as [b Hb]; [lia|].
  unfold entry_at, entry. simpl. by rewrite Ha, Hb, Hv.
Qed.

(** The scan of a square matrix: the positions it records, in order, with
    what it records at each. *)
Lemma strong_corrs_spec m :
  square m →
  ∃ positions found,
    strong_corrs m = Some found
    ∧ Forall2 (entry_at m) positions found
    ∧ StronglySorted row_major positions
    ∧ (∀ i j, (i, j) ∈ positions ↔ (i < j < length (columns m))%nat ∧ strong m i j)
    ∧ (NoDup (columns m) → NoDup ((λ e, e.1) <$> found)).
Proof.
  intros Hsq. exists (strong_positions m), (entry m <$> strong_positions m).
  split; [by apply strong_corrs_positions|].
  split; [by apply entries_at|].
  split; [apply strong_positions_sorted|].
  split; [apply elem_of_strong_positions|].
  intros Hnd. rewrite <- list_fmap_compose.
  apply NoDup_fmap_2_strong.
  - intros [i j] [i' j'] Hp Hp' Heq.
    apply elem_of_strong_positions in Hp as [Hij _].
    apply elem_of_strong_positions in Hp' as [Hij' _].
    destruct (lookup_lt_is_Some_2 (columns m) i) as [a Ha]; [lia|].
    destruct (lookup_lt_is_Some_2 (columns m) j) as [b Hb]; [lia|].
    destruct (lookup_lt_is_Some_2 (columns m) i') as [a' Ha']; [lia|].
    destruct (lookup_lt_is_Some_2 (columns m) j') as [b' Hb']; [lia|].
    unfold entry in Heq. simpl in Heq. rewrite Ha, Hb, Ha', Hb' in Heq.
    simpl in Heq. injection Heq as -> ->.
    f_equal; by eapply NoDup_lookup.
  - apply (sorted_NoDup row_major); [|apply strong_positions_sorted].
    intros [i j] [Hlt|[_ Hlt]]; simpl in Hlt; lia.
Qed.

End strong_pairs.

(** * correlation_analysis *)

Section correlation.
Context `{Externals}.

Lemma prints_lift {A} e (o : option A) a w : o = Some a → prints (lift e o) w [] a.
Proof. intros ->. apply prints_ret. Qed.

Lemma prints_print_dataframe d j w :
  j ∈ valid_justifications →
  NoDup (columns d) →
  accepted (build_table d None None None true j) = true →
  prints (print_dataframe d None None None true j) w (rendering d j) tt.
Proof.
  intros Hj Hnd Hacc. unfold prints, rendering.
  rewrite print_dataframe_anywhere. f_equal.
  rewrite print_dataframe_valid by done.
  rewrite (ambiguous_NoDup _ (NoDup_display_frame d None None Hnd)), Hacc.
  by destruct (empty d).
Qed.

Lemma prints_strong_report kind found none w :
  none = String (Ascii.ascii_of_nat 9) ("No strong " +:+ kind +:+ " correlations found !") →
  prints (if bool_decide (length found > 0)%nat
          then for_ found (λ p, print (strong_line p))
          else print none)
         w (strong_report kind found) tt.
Proof.
  intros ->. unfold strong_report. destruct (bool_decide (length found > 0)%nat).
  - apply (prints_for strong_line). intros p w'. apply prints_print.
  - apply prints_print.
Qed.

(** The numeric columns of a table can always be selected by name. *)
Lemma getitem_numeric_columns d : is_Some (getitem (numeric_columns d) d).
Proof.
  unfold getitem.
  assert (Hall : is_Some (mapM (λ n, snd <$> list_find (λ c, s_name c = n) (series d))
                               (numeric_columns d))).
  { apply mapM_is_Some, Forall_forall. intros x Hx.
    apply elem_of_selected in Hx as (c & Hc & Hname & _). simpl.
    destruct (list_find (λ c, s_name c = x) (series d)) as [[k c']|] eqn:Hfind; [done|].
    apply list_find_None in Hfind. rewrite Forall_forall in Hfind.
    by destruct (Hfind c Hc). }
  destruct Hall as [cs Hcs]. rewrite Hcs. done.
Qed.

Lemma correlation_analysis_prints self d numeric_df fp fs w :
  heap w !! df self = Some d →
  (2 ≤ length (numeric_columns d))%nat →
  getitem (numeric_columns d) d = Some numeric_df →
  strong_corrs (corr "pearson" numeric_df) = Some fp →
  strong_corrs (corr "spearman" numeric_df) = Some fs →
  NoDup (columns (corr "pearson" numeric_df)) →
  accepted (build_table (corr "pearson" numeric_df) None None None true "center") = true →
  NoDup (columns (corr "spearman" numeric_df)) →
  accepted (build_table (corr "spearman" numeric_df) None None None true "center") = true →
  prints (correlation_analysis self) w
    (banner "CORRELATION ANALYSIS (applicable to the numeric columns only)"
     ++ [Print ("Found " +:+ str_nat (length (numeric_columns d))
                +:+ " numeric columns in dataset:")]
     ++ ((λ p, Print ("  " +:+ str_nat (p.1 + 1) +:+ ". " +:+ p.2))
           <$> enumerate 0 (numeric_columns d))
     ++ [Print (nl +:+ "Pearson Correlation Matrix:")]
     ++ rendering (corr "pearson" numeric_df) "center"
     ++ [Print (nl +:+ "Strong Pearson Correlations Criterion: |r| > 0.5")]
     ++ strong_report "Pearson" fp
     ++ [Print (nl +:+ "Spearman Correlation Matrix:")]
     ++ rendering (corr "spearman" numeric_df) "center"
     ++ [Print (nl +:+ "Strong Spearman Correlations Criterion: |r| > 0.5:")]
     ++ strong_report "Spearman" fs) tt.
Proof.
  intros Hd Hn Hget Hfp Hfs Hndp Haccp Hnds Haccs. unfold correlation_analysis.
  apply (prints_divider _ _ _ _ tt). intros w' Hw'. rewrite <- Hw' in Hd.
  assert (Hcenter : "center" ∈ valid_justifications) by decide_by_compute.
  unfold numeric_columns in *.
  eapply prints_eq.
  - eapply prints_bind; [by apply prints_load|]. cbv beta zeta.
    rewrite bool_decide_eq_false_2 by lia.
    rewrite bool_decide_eq_false_2 by lia.
    eapply prints_bind; [apply prints_print|].
    eapply prints_bind.
    { apply (prints_for (λ p, "  " +:+ str_nat (p.1 + 1) +:+ ". " +:+ p.2)).
      by intros [i col] w''. }
    eapply prints_bind; [by apply prints_load|]. cbv beta.
    eapply prints_bind; [by apply prints_lift|]. cbv beta zeta.
    eapply prints_bind; [apply prints_print|].
    eapply prints_bind; [by apply prints_print_dataframe|].
    eapply prints_bind; [apply prints_print|].
    eapply prints_bind; [by apply prints_lift|]. cbv beta.
    eapply prints_bind; [by apply (prints_strong_report "Pearson")|].
    eapply prints_bind; [apply prints_print|].
    eapply prints_bind; [by apply prints_print_dataframe|].
    eapply prints_bind; [apply prints_print|].
    eapply prints_bind; [by apply prints_lift|]. cbv beta.
    by apply (prints_strong_report "Spearman").
  - reflexivity.
Qed.

(** Every recorded coefficient is a number. *)
Lemma scanned_numbers m positions found :
  scanned m positions found → Forall (λ e, is_Some (to_Q e.2)) found.
Proof.
  intros (_ & Hat & _ & Hpos & _). apply Forall_forall. intros e He.
  apply list_elem_of_lookup in He as [k Hk].
  destruct (Forall2_lookup_r _ _ _ _ _ Hat Hk) as ([i j] & Hp & _ & _ & Hiloc).
  apply list_elem_of_lookup_2, Hpos in Hp as [_ (q & Hq & _)].
  unfold coefficient in Hq. simpl in Hiloc. rewrite Hiloc in Hq. by exists q.
Qed.

Lemma strong_report_lines kind found :
  Forall (λ e, is_Some (to_Q e.2)) found →
  pair_lines kind found (strong_report kind found).
Proof.
  intros Hnum. unfold pair_lines, strong_report.
  destruct found as [|e found']; [by left|]. right. split; [done|].
  rewrite bool_decide_eq_true_2 by (simpl; lia).
  apply Forall2_fmap_r, Forall_Forall2_diag.
  eapply Forall_impl; [exact Hnum|]. intros p [q Hq]. exists q. split; [done|].
  unfold strong_line. by rewrite Hq.
Qed.

(** C4, as amended: for a table with distinct column labels and at least
    two numeric columns, whose two correlation matrices are square, carry
    distinct labels and are accepted by the console, each strong list the method prints records the
    positions (i, j) of the matrix with i < j whose coefficient exceeds 0.5
    in absolute value, those and no others, each once, in the order of a
    row-major scan; it prints one line "  ColA ↔ ColB: r.rrr" per recorded
    pair, or the "no strong correlations" line when there is none, and
    returns normally. *)
Theorem strong_correlations_listed :
  ∀ self d numeric_df w,
    heap w !! df self = Some d →
    NoDup (columns d) →
    (2 ≤ length (numeric_columns d))%nat →
    getitem (numeric_columns d) d = Some numeric_df →
    square (corr "pearson" numeric_df) →
    square (corr "spearman" numeric_df) →
    NoDup (columns (corr "pearson" numeric_df)) →
    accepted (build_table (corr "pearson" numeric_df) None None None true "center")
    = true →
    NoDup (columns (corr "spearman" numeric_df)) →
    accepted (build_table (corr "spearman" numeric_df) None None None true "center")
    = true →
    ∃ pearson_at pearson_found pearson_lines spearman_at spearman_found spearman_lines,
      scanned (corr "pearson" numeric_df) pearson_at pearson_found
      ∧ scanned (corr "spearman" numeric_df) spearman_at spearman_found
      ∧ pair_lines "Pearson" pearson_found pearson_lines
      ∧ pair_lines "Spearman" spearman_found spearman_lines
      ∧ emitted (correlation_analysis self) w
        = banner "CORRELATION ANALYSIS (applicable to the numeric columns only)"
          ++ [Print ("Found " +:+ str_nat (length (numeric_columns d))
                     +:+ " numeric columns in dataset:")]
          ++ ((λ p, Print ("  " +:+ str_nat (p.1 + 1) +:+ ". " +:+ p.2))
                <$> enumerate 0 (numeric_columns d))
          ++ [Print (nl +:+ "Pearson Correlation Matrix:")]
          ++ rendering (corr "pearson" numeric_df) "center"
          ++ [Print (nl +:+ "Strong Pearson Correlations Criterion: |r| > 0.5")]
          ++ pearson_lines
          ++ [Print (nl +:+ "Spearman Correlation Matrix:")]
          ++ rendering (corr "spearman" numeric_df) "center"
          ++ [Print (nl +:+ "Strong Spearman Correlations Criterion: |r| > 0.5:")]
          ++ spearman_lines
      ∧ outcome (correlation_analysis self) w = Ok tt.
Proof.
  intros self d numeric_df w Hd _ Hn Hget Hp Hs Hndp Haccp Hnds Haccs.
  destruct (strong_corrs_spec _ Hp) as (pp & fp & Hfp & Hrest_p).
  destruct (strong_corrs_spec _ Hs) as (ps & fs & Hfs & Hrest_s).
  assert (Hscan_p : scanned (corr "pearson" numeric_df) pp fp) by (by split).
  assert (Hscan_s : scanned (corr "spearman" numeric_df) ps fs) by (by split).
  exists pp, fp, (strong_report "Pearson" fp), ps, fs, (strong_report "Spearman" fs).
  split; [done|]. split; [done|].
  split; [by eapply strong_report_lines, scanned_numbers|].
  split; [by eapply strong_report_lines, scanned_numbers|].
  by apply (prints_emitted _ _ _ tt), correlation_analysis_prints.
Qed.

End correlation.

Lemma strong_correlations_listed_witness :
  heap (loaded trends) !! df report = Some trends
  ∧ NoDup (columns trends)
  ∧ (2 ≤ length (numeric_columns trends))%nat
  ∧ getitem (numeric_columns trends) trends = Some trends_numeric
  ∧ square (corr (Externals:=exact.runtime) "pearson" trends_numeric)
  ∧ square (corr (Externals:=exact.runtime) "spearman" trends_numeric)
  ∧ NoDup (columns (corr (Externals:=exact.runtime) "pearson" trends_numeric))
  ∧ accepted (H:=exact.runtime)
      (build_table (H:=exact.runtime)
         (corr (Externals:=exact.runtime) "pearson" trends_numeric)
         None None None true "center") = true
  ∧ NoDup (columns (corr (Externals:=exact.runtime) "spearman" trends_numeric))
  ∧ accepted (H:=exact.runtime)
      (build_table (H:=exact.runtime)
         (corr (Externals:=exact.runtime) "spearman" trends_numeric)
         None None None true "center") = true
  ∧ strong_corrs (corr (Externals:=exact.runtime) "pearson" trends_numeric)
    = Some [("x", "y", VFloat 1); ("x", "z", VFloat (-1)); ("y", "z", VFloat (-1))]
  ∧ ∃ pearson_at pearson_found pearson_lines spearman_at spearman_found spearman_lines,
      scanned (corr (Externals:=exact.runtime) "pearson" trends_numeric)
        pearson_at pearson_found
      ∧ scanned (corr (Externals:=exact.runtime) "spearman" trends_numeric)
          spearman_at spearman_found
      ∧ pair_lines (H:=exact.runtime) "Pearson" pearson_found pearson_lines
      ∧ pair_lines (H:=exact.runtime) "Spearman" spearman_found spearman_lines
      ∧ emitted (correlation_analysis (H:=exact.runtime) report) (loaded trends)
        = banner "CORRELATION ANALYSIS (applicable to the numeric columns only)"
          ++ [Print ("Found " +:+ str_nat (length (numeric_columns trends))
                     +:+ " numeric columns in dataset:")]
          ++ ((λ p, Print ("  " +:+ str_nat (p.1 + 1) +:+ ". " +:+ p.2))
                <$> enumerate 0 (numeric_columns trends))
          ++ [Print (nl +:+ "Pearson Correlation Matrix:")]
          ++ rendering (H:=exact.runtime)
               (corr (Externals:=exact.runtime) "pearson" trends_numeric) "center"
          ++ [Print (nl +:+ "Strong Pearson Correlations Criterion: |r| > 0.5")]
          ++ pearson_lines
          ++ [Print (nl +:+ "Spearman Correlation Matrix:")]
          ++ rendering (H:=exact.runtime)
               (corr (Externals:=exact.runtime) "spearman" trends_numeric) "center"
          ++ [Print (nl +:+ "Strong Spearman Correlations Criterion: |r| > 0.5:")]
          ++ spearman_lines
      ∧ outcome (correlation_analysis (H:=exact.runtime) report) (loaded trends) = Ok tt.
Proof.
  assert (Hd : heap (loaded trends) !! df report = Some trends) by reflexivity.
  assert (Hnd : NoDup (columns trends)) by decide_by_compute.
  assert (Hn : (2 ≤ length (numeric_columns trends))%nat) by (vm_compute; lia).
  assert (Hget : getitem (numeric_columns trends) trends = Some trends_numeric)
    by reflexivity.
  assert (Hp : square (corr (Externals:=exact.runtime) "pearson" trends_numeric))
    by (vm_compute; split; [repeat constructor | reflexivity]).
  assert (Hs : square (corr (Externals:=exact.runtime) "spearman" trends_numeric))
    by (vm_compute; split; [repeat constructor | reflexivity]).
  assert (Hndp : NoDup (columns (corr (Externals:=exact.runtime) "pearson" trends_numeric)))
    by decide_by_compute.
  assert (Haccp : accepted (H:=exact.runtime)
                    (build_table (H:=exact.runtime)
                       (corr (Externals:=exact.runtime) "pearson" trends_numeric)
                       None None None true "center") = true)
    by (vm_compute; reflexivity).
  assert (Hnds : NoDup (columns (corr (Externals:=exact.runtime) "spearman" trends_numeric)))
    by decide_by_compute.
  assert (Haccs : accepted (H:=exact.runtime)
                    (build_table (H:=exact.runtime)
                       (corr (Externals:=exact.runtime) "spearman" trends_numeric)
                       None None None true "center") = true)
    by (vm_compute; reflexivity).
  split; [exact Hd|]. split; [exact Hnd|]. split; [exact Hn|]. split; [exact Hget|].
  split; [exact Hp|]. split; [exact Hs|].
  split; [exact Hndp|]. split; [exact Haccp|].
  split; [exact Hnds|]. split; [exact Haccs|]. split; [vm_compute; reflexivity|].
  exact (strong_correlations_listed (H:=exact.runtime)
           report trends trends_numeric (loaded trends)
           Hd Hnd Hn Hget Hp Hs Hndp Haccp Hnds Haccs).
Defined.

(** C4, as the spec words it, fails on a table with a numeric column whose
    name is a closing tag: the two columns correlate perfectly, and the
    method ends in the MarkupError of the console when it prints the first
    matrix, so no strong list is printed at all. *)
Lemma markup_in_column_name_hides_strong_pairs :
  (2 ≤ length (numeric_columns tagged))%nat
  ∧ getitem (numeric_columns tagged) tagged = Some tagged
  ∧ strong (corr (Externals:=exact.runtime) "pearson" tagged) 0 1
  ∧ outcome (correlation_analysis (H:=exact.runtime) report) (loaded tagged)
    = Raise MarkupError
  ∧ emitted (correlation_analysis (H:=exact.runtime) report) (loaded tagged)
    = banner "CORRELATION ANALYSIS (applicable to the numeric columns only)"
      ++ [Print "Found 2 numeric columns in dataset:";
          Print "  1. [/b]";
          Print "  2. x";
          Print (nl +:+ "Pearson Correlation Matrix:")].
Proof.
  split; [vm_compute; lia|]. split; [reflexivity|]. split.
  { exists 1%Q. split; vm_compute; reflexivity. }
  split; vm_compute; reflexivity.
Qed.

(** * numeric_summary *)

(** C1, where the code departs from it: on the column -2, -1, 0 the table
    the method prints has -1 in its "50%" row and -3/4 in its "median" row.
    The median, skew and kurtosis rows are taken over the eight statistics
    of [describe] (3, -1, 1, -2, -3/2, -1, -1/2, 0), not over the data, whose
    median is -1 and whose kurtosis is undefined. *)
Theorem median_row_differs_from_50_percent_row :
  ∃ w' summary t,
    numeric_summary (H:=exact.runtime) report (loaded readings) = (w', Ok tt)
    ∧ heap w' !! df report = Some readings
    ∧ heap w' !! 2%positive = Some summary
    ∧ emitted (numeric_summary (H:=exact.runtime) report) (loaded readings)
      = banner "NUMERIC COLUMNS STATISTICS" ++ [ConsoleTable t]
    ∧ [ConsoleTable t] = rendering (H:=exact.runtime) summary "right"
    ∧ describe_number (H:=exact.runtime) readings
      = Some (mkFrame describe_labels
                [mkSeries "A" Float64
                   (VFloat <$> [3; -1; 1; -2; -3 # 2; -1; -1 # 2; 0]%Q)])
    ∧ loc_get (LStr "50%") summary = Some [("A", VFloat (-1))]
    ∧ loc_get (LStr "median") summary = Some [("A", VFloat (-3 # 4))]
    ∧ loc_get (LStr "kurtosis") summary = Some [("A", VFloat (2387 # 1440))]
    ∧ reduce median readings = [("A", VFloat (-1))]
    ∧ reduce kurtosis readings = [("A", NaN)].
Proof.
  do 3 eexists.
  do 10 (split; [vm_compute; reflexivity|]).
  vm_compute; reflexivity.
Qed.

(** * The loaded table is never written *)

Section frame.
Context `{Externals}.
Variables (l : loc) (d : DataFrame).

Lemma keeps_ret {A} (a : A) (Q : A → Prop) : Q a → keeps l d (mret a) Q.
Proof. by intros Ha w Hw. Qed.

Lemma keeps_raise {A} e (Q : A → Prop) : keeps l d (raise e) Q.
Proof. by intros w Hw. Qed.

Lemma keeps_lift {A} e (o : option A) : keeps l d (lift e o) (λ _, True).
Proof. destruct o; [by apply keeps_ret | apply keeps_raise]. Qed.

Lemma keeps_bind {A B} (c : M A) (k : A → M B) (Q : A → Prop) (R : B → Prop) :
  keeps l d c Q → (∀ a, Q a → keeps l d (k a) R) → keeps l d (c ≫= k) R.
Proof.
  intros Hc Hk w Hw. unfold mbind, M_bind, bind.
  destruct (Hc w Hw) as [Hheap HQ].
  destruct (c w) as [w' [a|e]]; simpl in *; [|done].
  by apply Hk.
Qed.

Lemma keeps_emit e : keeps l d (emit e) (λ _, True).
Proof. by intros w Hw. Qed.

Lemma keeps_print s : keeps l d (print s) (λ _, True).
Proof. apply keeps_emit. Qed.

Lemma keeps_load l' : keeps l d (load l') (λ _, True).
Proof. intros w Hw. unfold load. by destruct (heap w !! l'). Qed.

(** A new object is not the loaded table. *)
Lemma keeps_alloc v : keeps l d (alloc v) (λ l', l' ≠ l).
Proof.
  intros w Hw. unfold alloc. simpl.
  assert (Hne : fresh (dom (heap w)) ≠ l).
  { intros Heq. apply (is_fresh (dom (heap w))). rewrite Heq.
    apply elem_of_dom. by exists d. }
  split; [|done]. by rewrite lookup_insert_ne.
Qed.

(** Writing to another object leaves the loaded table alone. *)
Lemma keeps_store l' v : l' ≠ l → keeps l d (store l' v) (λ _, True).
Proof.
  intros Hne w Hw. unfold store. destruct (heap w !! l'); simpl; [|done].
  split; [|done]. by rewrite lookup_insert_ne.
Qed.

Lemma keeps_for {A} (xs : list A) (body : A → M unit) :
  (∀ x, keeps l d (body x) (λ _, True)) → keeps l d (for_ xs body) (λ _, True).
Proof.
  intros Hbody. induction xs as [|x xs IH]; [by apply keeps_ret|].
  apply (keeps_bind (body x) (λ _, for_ xs body) (λ _, True)); [apply Hbody | done].
Qed.

Lemma keeps_print_dataframe frame title max_rows max_cols show_index j :
  keeps l d (print_dataframe frame title max_rows max_cols show_index j) (λ _, True).
Proof.
  intros w Hw. rewrite print_dataframe_anywhere. simpl. split; [done|].
  by destruct (outcome _ _).
Qed.

Lemma keeps_divider {A} text (c : M A) (Q : A → Prop) :
  keeps l d c Q → keeps l d (print_divider text c) (λ _, True).
Proof.
  intros Hc. unfold print_divider.
  eapply keeps_bind; [apply keeps_print|]. intros _ _.
  eapply keeps_bind; [apply keeps_print|]. intros _ _.
  eapply keeps_bind; [apply keeps_print|]. intros _ _.
  eapply keeps_bind; [apply Hc|]. intros _ _.
  by apply keeps_ret.
Qed.

(** [summary.loc[lbl] = row] writes to [summary] only. *)
Lemma keeps_loc_assign summary lbl row :
  summary ≠ l → keeps l d (loc_assign summary lbl row) (λ _, True).
Proof.
  intros Hne. unfold loc_assign.
  eapply keeps_bind; [apply keeps_load|]. intros s _. by apply keeps_store.
Qed.

(** The item tables of [categorical_summary] are new objects. *)
Lemma keeps_print_items items : keeps l d (print_items items) (λ _, True).
Proof.
  unfold print_items.
  eapply keeps_bind; [apply keeps_alloc|]. intros printPd Hne. cbv beta in Hne.
  eapply keeps_bind; [apply keeps_load|]. intros p _.
  eapply keeps_bind; [apply keeps_lift|]. intros renamed _.
  eapply keeps_bind; [by apply keeps_store|]. intros _ _.
  eapply keeps_bind; [apply keeps_load|]. intros p' _.
  apply keeps_print_dataframe.
Qed.

Lemma keeps_getitem_column self col : keeps l d (getitem_column self col) (λ _, True).
Proof.
  unfold getitem_column.
  eapply keeps_bind; [apply keeps_load|]. intros d' _. apply keeps_lift.
Qed.

Lemma keeps_basic_info self : keeps l d (basic_info self) (λ _, True).
Proof.
  unfold basic_info. eapply keeps_divider.
  eapply keeps_bind; [apply keeps_load|]. intros d' _.
  do 4 (eapply keeps_bind; [apply keeps_print|]; intros _ _).
  apply keeps_for. intros [i col]. apply keeps_print.
Qed.

Lemma keeps_missing_values_analysis self :
  keeps l d (missing_values_analysis self) (λ _, True).
Proof.
  unfold missing_values_analysis. eapply keeps_divider.
  eapply keeps_bind; [apply keeps_load|]. intros d' _. cbv zeta.
  destruct (bool_decide _); [|apply keeps_print].
  eapply keeps_bind; [apply keeps_print|]. intros _ _.
  eapply keeps_bind; [apply keeps_load|]. intros d'' _. apply keeps_print.
Qed.

Lemma keeps_listing (head_line none : string) (cols : list string) :
  keeps l d
    (if bool_decide (length cols > 0)%nat then
       print head_line;;
       for_ (enumerate 0 cols) (λ '(i, col_name),
         print (str_nat i +:+ " - " +:+ col_name))
     else print none)
    (λ _, True).
Proof.
  destruct (bool_decide _); [|apply keeps_print].
  eapply keeps_bind; [apply keeps_print|]. intros _ _.
  apply keeps_for. intros [i col]. apply keeps_print.
Qed.

Lemma keeps_data_types_summary self : keeps l d (data_types_summary self) (λ _, True).
Proof.
  unfold data_types_summary. eapply keeps_divider.
  eapply keeps_bind; [apply keeps_load|]. intros d' _. cbv zeta.
  eapply keeps_bind; [apply keeps_listing|]. intros _ _.
  eapply keeps_bind; [apply keeps_listing|]. intros _ _.
  apply keeps_listing.
Qed.

Lemma keeps_numeric_summary self : keeps l d (numeric_summary self) (λ _, True).
Proof.
  unfold numeric_summary. eapply keeps_divider. cbv zeta.
  eapply keeps_bind; [apply keeps_load|]. intros d0 _.
  destruct (bool_decide _); [|apply keeps_print].
  eapply keeps_bind; [apply keeps_load|]. intros d1 _.
  eapply keeps_bind; [apply keeps_lift|]. intros described _.
  eapply keeps_bind; [apply keeps_alloc|]. intros summary Hne. cbv beta in Hne.
  do 3 (eapply keeps_bind; [apply keeps_load|]; intros ? _;
        eapply keeps_bind; [apply keeps_lift|]; intros ? _;
        eapply keeps_bind; [by apply keeps_loc_assign|]; intros _ _).
  eapply keeps_bind; [apply keeps_load|]. intros s _.
  apply keeps_print_dataframe.
Qed.

Lemma keeps_categorical_summary self : keeps l d (categorical_summary self) (λ _, True).
Proof.
  unfold categorical_summary. eapply keeps_divider.
  eapply keeps_bind; [apply keeps_load|]. intros d0 _. cbv zeta.
  destruct (bool_decide _); [|apply keeps_print].
  eapply keeps_bind; [apply keeps_print|]. intros _ _.
  eapply keeps_bind; [apply keeps_load|]. intros d1 _.
  eapply keeps_bind; [apply keeps_lift|]. intros described _.
  eapply keeps_bind; [apply keeps_print_dataframe|]. intros _ _.
  apply keeps_for. intros col.
  do 2 (eapply keeps_bind; [apply keeps_print|]; intros _ _).
  eapply keeps_bind; [apply keeps_getitem_column|]. intros column _.
  eapply keeps_bind; [apply keeps_print|]. intros _ _.
  eapply keeps_bind.
  { destruct (bool_decide _); [|apply keeps_print].
    eapply keeps_bind; [apply keeps_getitem_column|]. intros column' _.
    apply keeps_print_items. }
  intros _ _.
  eapply keeps_bind; [apply keeps_getitem_column|]. intros column' _.
  destruct (bool_decide _); [|apply keeps_print].
  eapply keeps_bind; [apply keeps_print|]. intros _ _.
  eapply keeps_bind; [apply keeps_lift|]. intros itemDict _.
  apply keeps_print_items.
Qed.

Lemma keeps_strong_listing (found : list (string * string * value)) (none : string) :
  keeps l d
    (if bool_decide (length found > 0)%nat
     then for_ found (λ p, print (strong_line p))
     else print none)
    (λ _, True).
Proof.
  destruct (bool_decide _); [|apply keeps_print].
  apply keeps_for. intros p. apply keeps_print.
Qed.

Lemma keeps_correlation_analysis self :
  keeps l d (correlation_analysis self) (λ _, True).
Proof.
  unfold correlation_analysis. eapply keeps_divider.
  eapply keeps_bind; [apply keeps_load|]. intros d0 _. cbv zeta.
  destruct (bool_decide _); [apply keeps_print|].
  destruct (bool_decide _); [apply keeps_print|].
  eapply keeps_bind; [apply keeps_print|]. intros _ _.
  eapply keeps_bind.
  { apply keeps_for. intros [i col]. apply keeps_print. }
  intros _ _.
  eapply keeps_bind; [apply keeps_load|]. intros d1 _.
  eapply keeps_bind; [apply keeps_lift|]. intros numeric_df _.
  eapply keeps_bind; [apply keeps_print|]. intros _ _.
  eapply keeps_bind; [apply keeps_print_dataframe|]. intros _ _.
  eapply keeps_bind; [apply keeps_print|]. intros _ _.
  eapply keeps_bind; [apply keeps_lift|]. intros strong_pearson _.
  eapply keeps_bind; [apply keeps_strong_listing|]. intros _ _.
  eapply keeps_bind; [apply keeps_print|]. intros _ _.
  eapply keeps_bind; [apply keeps_print_dataframe|]. intros _ _.
  eapply keeps_bind; [apply keeps_print|]. intros _ _.
  eapply keeps_bind; [apply keeps_lift|]. intros strong_spearman _.
  apply keeps_strong_listing.
Qed.

End frame.

(** C9: every analysis method leaves the loaded table as it found it:
    after the call, however it ends, [self.df] denotes the same frame as
    before, whatever frames the call created or wrote meanwhile. *)
Theorem analysis_methods_leave_table_unchanged `{Externals} :
  ∀ self table w,
    heap w !! df self = Some table →
    heap (basic_info self w).1 !! df self = Some table
    ∧ heap (missing_values_analysis self w).1 !! df self = Some table
    ∧ heap (data_types_summary self w).1 !! df self = Some table
    ∧ heap (numeric_summary self w).1 !! df self = Some table
    ∧ heap (categorical_summary self w).1 !! df self = Some table
    ∧ heap (correlation_analysis self w).1 !! df self = Some table.
Proof.
  intros self table w Hw. repeat split.
  - by apply (keeps_basic_info (df self) table self w).
  - by apply (keeps_missing_values_analysis (df self) table self w).
  - by apply (keeps_data_types_summary (df self) table self w).
  - by apply (keeps_numeric_summary (df self) table self w).
  - by apply (keeps_categorical_summary (df self) table self w).
  - by apply (keeps_correlation_analysis (df self) table self w).
Qed.

Lemma analysis_methods_leave_table_unchanged_witness :
  heap (loaded scenario) !! df report = Some scenario
  ∧ heap (basic_info (H:=exact.runtime) report (loaded scenario)).1 !! df report
    = Some scenario
  ∧ heap (missing_values_analysis (H:=exact.runtime) report (loaded scenario)).1
      !! df report = Some scenario
  ∧ heap (data_types_summary report (loaded scenario)).1 !! df report = Some scenario
  ∧ heap (numeric_summary (H:=exact.runtime) report (loaded scenario)).1 !! df report
    = Some scenario
  ∧ heap (categorical_summary (H:=exact.runtime) report (loaded scenario)).1 !! df report
    = Some scenario
  ∧ heap (correlation_analysis (H:=exact.runtime) report (loaded scenario)).1 !! df report
    = Some scenario.
Proof.
  assert (Hd : heap (loaded scenario) !! df report = Some scenario) by reflexivity.
  split; [exact Hd|].
  exact (analysis_methods_leave_table_unchanged (H:=exact.runtime)
           report scenario (loaded scenario) Hd).
Defined.

(** * More on the printer *)

Section printer_table.
Context `{Externals}.

Lemma foldl_add_column (f : Series → RichColumn) cs t :
  foldl (λ t col, add_column t (f col)) t cs
  = mkTable (show_header t) (header_style t) (title t)
            (table_columns t ++ (f <$> cs)) (table_rows t) (caption t).
Proof.
  revert t. induction cs as [|c cs IH]; intros t; simpl.
  - rewrite app_nil_r. by destruct t.
  - rewrite IH. simpl. by rewrite <- app_assoc.
Qed.

Lemma foldl_add_row (f : nat → list string) ks t :
  foldl (λ t k, add_row t (f k)) t ks
  = mkTable (show_header t) (header_style t) (title t)
            (table_columns t) (table_rows t ++ (f <$> ks)) (caption t).
Proof.
  revert t. induction ks as [|k ks IH]; intros t; simpl.
  - rewrite app_nil_r. by destruct t.
  - rewrite IH. simpl. by rewrite <- app_assoc.
Qed.

Lemma with_caption_keeps t df max_rows max_cols :
  table_columns (with_caption t df max_rows max_cols) = table_columns t
  ∧ table_rows (with_caption t df max_rows max_cols) = table_rows t
  ∧ title (with_caption t df max_rows max_cols) = title t.
Proof.
  unfold with_caption.
  repeat (match goal with |- context [if ?b then _ else _] => destruct b end); done.
Qed.

(** What a call that draws a frame hands to the console: its columns, its
    rows, its caption and its title. *)
Lemma print_dataframe_table df title_ max_rows max_cols show_index j w :
  j ∈ valid_justifications →
  empty df = false →
  NoDup (columns df) →
  accepted (build_table df title_ max_rows max_cols show_index j) = true →
  ∃ t, emitted (print_dataframe df title_ max_rows max_cols show_index j) w
       = ConsoleTable t ::
         (if truthy max_rows || truthy max_cols
          then [ConsolePrint (shape_notice df)] else [])
     ∧ outcome (print_dataframe df title_ max_rows max_cols show_index j) w = Ok tt
     ∧ table_columns t
       = (if show_index then [index_column] else [])
         ++ (data_column j <$> series (display_frame df max_rows max_cols))
     ∧ table_rows t
       = row_data (display_frame df max_rows max_cols) show_index
           <$> seq 0 (len (display_frame df max_rows max_cols))
     ∧ caption t
       = (if truthy max_rows && (int_of max_rows <? Z.of_nat (len df))%Z then
            Some ("Showing " +:+ str_int (int_of max_rows) +:+ " of "
                  +:+ str_nat (len df) +:+ " rows")
          else if truthy max_cols
                  && (int_of max_cols <? Z.of_nat (length (columns df)))%Z then
            Some ("Showing " +:+ str_int (int_of max_cols) +:+ " of "
                  +:+ str_nat (length (columns df)) +:+ " columns")
          else None)
     ∧ title t = (if truthy_str title_ then title_ else None).
Proof.
  intros Hj Hne Hnd Hacc.
  destruct (print_dataframe_draws df title_ max_rows max_cols show_index j w
              Hj Hne Hnd Hacc) as [Ht Hok].
  exists (build_table df title_ max_rows max_cols show_index j).
  split; [exact Ht|]. split; [exact Hok|].
  clear Ht Hok Hacc. unfold build_table.
  pose proof (NoDup_display_frame df max_rows max_cols Hnd) as Hdisp.
  set (disp := display_frame df max_rows max_cols) in *.
  match goal with
  | |- context [with_caption ?t0 df max_rows max_cols] =>
    destruct (with_caption_keeps t0 df max_rows max_cols) as (Hc & Hr & Ht)
  end.
  rewrite Hc, Hr, Ht, with_caption_branches.
  rewrite foldl_add_row.
  rewrite (foldl_add_column
             (λ col, mkColumn (s_name col) None
                       (if is_numeric disp col then j else "left") "fold")).
  cbn [table_columns table_rows caption title].
  assert (Hcolumns : (λ col, mkColumn (s_name col) None
                               (if is_numeric disp col then j else "left") "fold")
                       <$> series disp
                     = data_column j <$> series disp).
  { apply list_fmap_ext. intros i col _. unfold data_column, is_numeric.
    by rewrite (repeated_NoDup disp (s_name col) Hdisp). }
  rewrite Hcolumns.
  destruct show_index, (truthy_str title_); done.
Qed.

End printer_table.

Section printer_extras.
Context `{Externals}.

Lemma length_py_take {A} (n : Z) (xs : list A) :
  length (py_take n xs)
  = if (0 <=? n)%Z then Nat.min (Z.to_nat n) (length xs)
    else (length xs - Z.to_nat (- n))%nat.
Proof.
  unfold py_take. destruct (0 <=? n)%Z eqn:Hn; rewrite length_take.
  - done.
  - apply Z.leb_gt in Hn. lia.
Qed.

Lemma len_display_frame df max_rows max_cols :
  len (display_frame df max_rows max_cols)
  = if truthy max_rows then length (py_take (int_of max_rows) (index df)) else len df.
Proof.
  unfold display_frame. by destruct (truthy max_rows), (truthy max_cols).
Qed.

Lemma series_display_frame df max_rows max_cols :
  length (series (display_frame df max_rows max_cols))
  = if truthy max_cols then length (py_take (int_of max_cols) (series df))
    else length (series df).
Proof.
  unfold display_frame.
  destruct (truthy max_rows), (truthy max_cols); simpl;
    rewrite ?length_py_take, ?length_fmap; done.
Qed.

Lemma length_row_data disp show_index k :
  length (row_data disp show_index k)
  = ((if show_index then 1 else 0) + length (series disp))%nat.
Proof.
  unfold row_data. rewrite length_app, length_fmap. by destruct show_index.
Qed.

(** X1: a frame without rows or without columns gets the "empty" notice and
    nothing else, whatever title, caps and index flag were passed: no table,
    no caption, no shape notice, and the call returns normally. *)
Theorem empty_frame_prints_only_the_notice :
  ∀ df title_ max_rows max_cols show_index j w,
    j ∈ ["left"; "center"; "right"] →
    len df = 0%nat ∨ series df = [] →
    print_dataframe df title_ max_rows max_cols show_index j w
    = (mkWorld (heap w)
         (console w ++ [ConsolePrint "[yellow]DataFrame is empty[/yellow]"]), Ok tt).
Proof.
  intros df title_ max_rows max_cols show_index j w Hj Hempty.
  unfold print_dataframe.
  rewrite bool_decide_eq_false_2 by (intros Hn; by apply Hn).
  assert (He : empty df = true).
  { unfold empty. destruct Hempty as [Hlen|Hcols].
    - by rewrite (bool_decide_eq_true_2 _ Hlen).
    - rewrite Hcols. simpl. by rewrite orb_true_r. }
  by rewrite He.
Qed.

(** X2: the table drawn for a non-empty frame, with distinct column labels
    and texts the console accepts, is well formed: its headers
    are "Index" (when asked for) followed by the names of the displayed
    columns, it has one row per displayed row, and every row has exactly one
    cell per column of the table. *)
Theorem rendered_rows_fit_the_columns :
  ∀ df title_ max_rows max_cols show_index j w,
    j ∈ ["left"; "center"; "right"] →
    empty df = false →
    NoDup (columns df) →
    accepted (build_table df title_ max_rows max_cols show_index j) = true →
    ∃ t rest,
      emitted (print_dataframe df title_ max_rows max_cols show_index j) w
      = ConsoleTable t :: rest
      ∧ header <$> table_columns t
        = (if show_index then ["Index"] else [])
          ++ columns (display_frame df max_rows max_cols)
      ∧ length (table_rows t) = len (display_frame df max_rows max_cols)
      ∧ Forall (λ r, length r = length (table_columns t)) (table_rows t).
Proof.
  intros df title_ max_rows max_cols show_index j w Hj Hne Hnd Hacc.
  destruct (print_dataframe_table df title_ max_rows max_cols show_index j w
              Hj Hne Hnd Hacc)
    as (t & Ht & _ & Hcols & Hrows & _).
  exists t. eexists. split; [exact Ht|].
  rewrite Hcols, Hrows. split; [|split].
  - rewrite fmap_app, <- list_fmap_compose. by destruct show_index.
  - by rewrite length_fmap, length_seq.
  - apply Forall_fmap, Forall_forall. intros k _. simpl.
    rewrite length_row_data, length_app, length_fmap. by destruct show_index.
Qed.

(** X3: how many rows and columns a cap leaves in the table that is drawn
    (for a non-empty frame with distinct column labels and texts the console
    accepts).  No cap, or a cap of 0,
    shows all of them; a positive cap n shows the smaller of n and the true
    count; a negative cap -n shows all but the last n. *)
Theorem caps_limit_rows_and_columns :
  ∀ df title_ max_rows max_cols show_index j w,
    j ∈ ["left"; "center"; "right"] →
    empty df = false →
    NoDup (columns df) →
    accepted (build_table df title_ max_rows max_cols show_index j) = true →
    ∃ t rest,
      emitted (print_dataframe df title_ max_rows max_cols show_index j) w
      = ConsoleTable t :: rest
      ∧ length (table_rows t)
        = match max_rows with
          | None | Some 0%Z => len df
          | Some (Z.pos n) => Nat.min (Pos.to_nat n) (len df)
          | Some (Z.neg n) => (len df - Pos.to_nat n)%nat
          end
      ∧ length (table_columns t)
        = ((if show_index then 1 else 0)
           + match max_cols with
             | None | Some 0%Z => length (columns df)
             | Some (Z.pos n) => Nat.min (Pos.to_nat n) (length (columns df))
             | Some (Z.neg n) => length (columns df) - Pos.to_nat n
             end)%nat.
Proof.
  intros df title_ max_rows max_cols show_index j w Hj Hne Hnd Hacc.
  destruct (print_dataframe_table df title_ max_rows max_cols show_index j w
              Hj Hne Hnd Hacc)
    as (t & Ht & _ & Hcols & Hrows & _).
  exists t. eexists. split; [exact Ht|].
  rewrite Hcols, Hrows. split.
  - rewrite length_fmap, length_seq, len_display_frame.
    destruct max_rows as [[|n|n]|]; simpl; try done;
      rewrite length_py_take; simpl; unfold len; lia.
  - rewrite length_app, length_fmap, series_display_frame.
    unfold columns. rewrite length_fmap.
    destruct show_index, max_cols as [[|n|n]|]; simpl; try done;
      rewrite length_py_take; simpl; lia.
Qed.

(** X5: the caption of the table that is drawn (for a non-empty frame with
    distinct column labels and texts the console accepts).  A row cap that
    cuts gives "Showing n of N rows",
    whatever the column cap does; otherwise a column cap that cuts gives
    "Showing n of N columns"; there is no caption exactly when neither cap
    cuts. *)
Theorem caption_reports_the_first_cut :
  ∀ df title_ max_rows max_cols show_index j w,
    j ∈ ["left"; "center"; "right"] →
    empty df = false →
    NoDup (columns df) →
    accepted (build_table df title_ max_rows max_cols show_index j) = true →
    ∃ t rest,
      emitted (print_dataframe df title_ max_rows max_cols show_index j) w
      = ConsoleTable t :: rest
      ∧ (cuts max_rows (len df) →
         caption t = Some ("Showing " +:+ str_int (int_of max_rows) +:+ " of "
                           +:+ str_nat (len df) +:+ " rows"))
      ∧ (¬ cuts max_rows (len df) → cuts max_cols (length (columns df)) →
         caption t = Some ("Showing " +:+ str_int (int_of max_cols) +:+ " of "
                           +:+ str_nat (length (columns df)) +:+ " columns"))
      ∧ (caption t = None
         ↔ ¬ cuts max_rows (len df) ∧ ¬ cuts max_cols (length (columns df))).
Proof.
  intros df title_ max_rows max_cols show_index j w Hj Hne Hnd Hacc.
  destruct (print_dataframe_table df title_ max_rows max_cols show_index j w
              Hj Hne Hnd Hacc)
    as (t & Ht & _ & _ & _ & Hcap & _).
  exists t. eexists. split; [exact Ht|]. rewrite Hcap. unfold cuts.
  destruct (truthy max_rows) eqn:Hr, (truthy max_cols) eqn:Hc; simpl;
    destruct (Z.ltb_spec (int_of max_rows) (Z.of_nat (len df)));
    destruct (Z.ltb_spec (int_of max_cols) (Z.of_nat (length (columns df))));
    repeat split; try done; try (intros [? ?]; done; lia);
    try (intros; exfalso; intuition (try done; lia)); intuition (try done; lia).
Qed.

(** X6: how the columns of the table that is drawn are justified (for a
    non-empty frame with distinct column labels and texts the console
    accepts).  The index column is right-justified;
    a column of the displayed frame takes the requested mode when its dtype
    is numeric and is left-justified otherwise, whatever mode was requested. *)
Theorem non_numeric_columns_stay_left :
  ∀ df title_ max_rows max_cols show_index j w,
    j ∈ ["left"; "center"; "right"] →
    empty df = false →
    NoDup (columns df) →
    accepted (build_table df title_ max_rows max_cols show_index j) = true →
    ∃ t rest,
      emitted (print_dataframe df title_ max_rows max_cols show_index j) w
      = ConsoleTable t :: rest
      ∧ (show_index = true →
         table_columns t !! 0%nat = Some (mkColumn "Index" (Some "dim") "right" "ellipsis"))
      ∧ Forall2 (λ col rc,
                   header rc = s_name col
                   ∧ justify rc = (if is_numeric_dtype (s_dtype col) then j else "left"))
          (series (display_frame df max_rows max_cols))
          (drop (if show_index then 1 else 0) (table_columns t)).
Proof.
  intros df title_ max_rows max_cols show_index j w Hj Hne Hnd Hacc.
  destruct (print_dataframe_table df title_ max_rows max_cols show_index j w
              Hj Hne Hnd Hacc)
    as (t & Ht & _ & Hcols & _).
  exists t. eexists. split; [exact Ht|]. rewrite Hcols. split.
  - by intros ->.
  - assert (Hdrop : drop (if show_index then 1 else 0)
                      ((if show_index then [index_column] else [])
                       ++ (data_column j <$> series (display_frame df max_rows max_cols)))
                    = data_column j <$> series (display_frame df max_rows max_cols))
      by (by destruct show_index).
    rewrite Hdrop. apply Forall2_fmap_r, Forall_Forall2_diag, Forall_forall.
    by intros col _.
Qed.

End printer_extras.

Section head_wise.
Context `{Externals}.

Lemma float_block_cut (n : Z) (index_ index_' : list label) (cs : list Series) :
  float_block (mkFrame index_ (cut_column n <$> cs)) = float_block (mkFrame index_' cs).
Proof.
  unfold float_block. simpl.
  f_equal; induction cs as [|c cs IH]; [done| |done|];
    rewrite fmap_cons; simpl; by rewrite IH.
Qed.

Lemma series_display_cut df (n : positive) max_cols :
  series (display_frame df (Some (Z.pos n)) max_cols)
  = cut_column (Z.pos n) <$> series (display_frame df None max_cols)
  ∧ index (display_frame df (Some (Z.pos n)) max_cols)
    = take (Pos.to_nat n) (index (display_frame df None max_cols)).
Proof.
  unfold display_frame. simpl. destruct (truthy max_cols); simpl.
  - split; [|done]. apply py_take_fmap.
  - done.
Qed.

Lemma row_data_cut disp disp' (n : positive) show_index k :
  series disp' = cut_column (Z.pos n) <$> series disp →
  index disp' = take (Pos.to_nat n) (index disp) →
  (k < Pos.to_nat n)%nat →
  row_data disp' show_index k = row_data disp show_index k.
Proof.
  intros Hs Hi Hk. unfold row_data. rewrite Hs, Hi.
  rewrite lookup_take_lt by done. f_equal.
  rewrite <- list_fmap_compose. apply list_fmap_ext. intros i c _. simpl.
  assert (Hval : row_value disp' (cut_column (Z.pos n) c) k = row_value disp c k).
  { unfold row_value.
    assert (Hfb : float_block disp' = float_block disp).
    { destruct disp as [ix cs], disp' as [ix' cs']. simpl in Hs. subst cs'.
      apply float_block_cut. }
    rewrite Hfb. simpl. unfold py_take. simpl.
    by rewrite lookup_take_lt by done. }
  rewrite Hval. unfold format_cell. done.
Qed.

(** X4: a positive row cap shows the head of the table (of a non-empty
    frame with distinct column labels, when the console accepts the texts of
    both tables): the same columns as
    without the cap, and as rows the first n rows of what the call without
    the cap draws, cell for cell. *)
Theorem row_cap_shows_the_first_rows :
  ∀ df title_ (n : positive) max_cols show_index j w,
    j ∈ ["left"; "center"; "right"] →
    empty df = false →
    NoDup (columns df) →
    accepted (build_table df title_ (Some (Z.pos n)) max_cols show_index j) = true →
    accepted (build_table df title_ None max_cols show_index j) = true →
    ∃ t rest t0 rest0,
      emitted (print_dataframe df title_ (Some (Z.pos n)) max_cols show_index j) w
      = ConsoleTable t :: rest
      ∧ emitted (print_dataframe df title_ None max_cols show_index j) w
        = ConsoleTable t0 :: rest0
      ∧ table_columns t = table_columns t0
      ∧ table_rows t = take (Pos.to_nat n) (table_rows t0).
Proof.
  intros df title_ n max_cols show_index j w Hj Hne Hnd Hacc Hacc0.
  destruct (print_dataframe_table df title_ (Some (Z.pos n)) max_cols show_index j w
              Hj Hne Hnd Hacc) as (t & Ht & _ & Hcols & Hrows & _).
  destruct (print_dataframe_table df title_ None max_cols show_index j w
              Hj Hne Hnd Hacc0) as (t0 & Ht0 & _ & Hcols0 & Hrows0 & _).
  exists t. eexists. exists t0. eexists.
  split; [exact Ht|]. split; [exact Ht0|].
  destruct (series_display_cut df n max_cols) as [Hs Hi].
  rewrite Hcols, Hcols0, Hrows, Hrows0. split.
  - f_equal. rewrite Hs, <- list_fmap_compose. by apply list_fmap_ext.
  - rewrite <- fmap_take, take_seq.
    assert (Hlen : len (display_frame df (Some (Z.pos n)) max_cols)
                   = Nat.min (Pos.to_nat n) (len (display_frame df None max_cols))).
    { unfold len. rewrite Hi. apply length_take. }
    rewrite Hlen. apply list_fmap_ext. intros i k Hk.
    apply lookup_seq in Hk as [-> Hk]. simpl.
    apply (row_data_cut _ _ n); [done..|lia].
Qed.

End head_wise.

(** * Runs that allocate *)

Section runs.
Context `{Externals}.

Lemma runs_of_prints {A} (c : M A) w es a : prints c w es a → runs c w (heap w) es a.
Proof. done. Qed.

Lemma runs_bind {A B} (c : M A) (k : A → M B) w h es a h' es' b :
  runs c w h es a →
  runs (k a) (mkWorld h (console w ++ es)) h' es' b →
  runs (c ≫= k) w h' (es ++ es') b.
Proof.
  unfold runs, mbind, M_bind, bind. intros -> ->. simpl. by rewrite app_assoc.
Qed.

Lemma runs_alloc v w :
  runs (alloc v) w (<[fresh (dom (heap w)) := v]> (heap w)) [] (fresh (dom (heap w))).
Proof. unfold runs, alloc. by rewrite app_nil_r. Qed.

Lemma runs_load l d w : heap w !! l = Some d → runs (load l) w (heap w) [] d.
Proof. intros Hl. by apply runs_of_prints, prints_load. Qed.

Lemma runs_store l v w :
  is_Some (heap w !! l) → runs (store l v) w (<[l := v]> (heap w)) [] tt.
Proof. intros [d Hd]. unfold runs, store. by rewrite Hd, app_nil_r. Qed.

Lemma runs_eq {A} (c : M A) w h h' es es' a :
  runs c w h es a → h = h' → es = es' → runs c w h' es' a.
Proof. by intros ? <- <-. Qed.

Lemma runs_divider {A} text (c : M A) w h es a :
  (∀ w', heap w' = heap w → runs c w' h es a) →
  runs (print_divider text c) w h (banner text ++ es) tt.
Proof.
  intros Hc. unfold print_divider, banner.
  eapply runs_eq.
  - eapply runs_bind; [apply runs_of_prints, prints_print|].
    eapply runs_bind; [apply runs_of_prints, prints_print|].
    eapply runs_bind; [apply runs_of_prints, prints_print|].
    eapply runs_bind; [apply Hc; done|].
    apply runs_of_prints, prints_ret.
  - done.
  - simpl. by rewrite app_nil_r.
Qed.

Lemma finishes_of_runs {A} (c : M A) w h es a : runs c w h es a → finishes c w h es (Ok a).
Proof. done. Qed.

Lemma finishes_bind {A B} (c : M A) (k : A → M B) w h es a h' es' r :
  runs c w h es a →
  finishes (k a) (mkWorld h (console w ++ es)) h' es' r →
  finishes (c ≫= k) w h' (es ++ es') r.
Proof.
  unfold runs, finishes, mbind, M_bind, bind. intros -> ->. simpl. by rewrite app_assoc.
Qed.

Lemma finishes_eq {A} (c : M A) w h h' es es' r :
  finishes c w h es r → h = h' → es = es' → finishes c w h' es' r.
Proof. by intros ? <- <-. Qed.

(** The decorator passes on how the method ends. *)
Lemma finishes_divider {A} text (c : M A) w h es (r : result A) :
  (∀ w', heap w' = heap w → finishes c w' h es r) →
  finishes (print_divider text c) w h (banner text ++ es)
    (match r with Ok _ => Ok tt | Raise e => Raise e end).
Proof.
  intros Hc.
  unfold print_divider, banner, finishes, mbind, M_bind, bind, print, emit. simpl.
  match goal with |- context [c ?w1] => rewrite (Hc w1 eq_refl) end.
  simpl. destruct r; simpl; by rewrite <- !app_assoc.
Qed.

Lemma finishes_print_dataframe d j w :
  finishes (print_dataframe d None None None true j) w (heap w) (rendering d j)
    (verdict d j).
Proof. apply print_dataframe_anywhere. Qed.

Lemma fresh_not_allocated (h : gmap loc DataFrame) l d :
  h !! l = Some d → fresh (dom h) ≠ l.
Proof.
  intros Hl Heq. apply (is_fresh (dom h)). rewrite Heq. apply elem_of_dom. by exists d.
Qed.

Lemma runs_loc_assign summary lbl row s w :
  heap w !! summary = Some s →
  runs (loc_assign summary lbl row) w
       (<[summary := loc_set (LStr lbl) row s]> (heap w)) [] tt.
Proof.
  intros Hs. unfold loc_assign. eapply runs_eq.
  - eapply runs_bind; [by apply runs_load|].
    apply runs_store. simpl. by exists s.
  - done.
  - done.
Qed.

Lemma describe_number_is_Some d :
  numeric_columns d ≠ [] → is_Some (describe_number d).
Proof.
  unfold numeric_columns, columns, describe_number.
  destruct (series (select_dtypes ["number"] d)); [done | by eexists].
Qed.

Lemma describe_number_is_None d :
  numeric_columns d = [] → describe_number d = None.
Proof.
  unfold numeric_columns, columns, describe_number.
  by destruct (series (select_dtypes ["number"] d)).
Qed.

Lemma basic_info_prints self d w :
  heap w !! df self = Some d → prints (basic_info self) w (basic_report d) tt.
Proof.
  intros Hd. unfold basic_info, basic_report. apply (prints_divider _ _ _ _ tt).
  intros w' Hw'. rewrite <- Hw' in Hd.
  eapply prints_eq.
  - eapply prints_bind; [by apply prints_load|]. cbv beta.
    do 4 (eapply prints_bind; [apply prints_print|]).
    apply (prints_for (λ p, "  " +:+ str_nat p.1 +:+ ". " +:+ p.2)).
    by intros [i col] w''.
  - reflexivity.
Qed.

(** [numeric_summary], whatever the table: the statistics table it creates,
    what it prints, and how it ends. *)
Lemma numeric_summary_finishes self d w :
  heap w !! df self = Some d →
  finishes (numeric_summary self) w
    (match describe_number d with
     | Some described => <[fresh (dom (heap w)) := summary_of described]> (heap w)
     | None => heap w
     end)
    (numeric_report d) (numeric_verdict d).
Proof.
  intros Hd.
  assert (Hunit : ∀ r : result unit,
            match r with Ok _ => Ok tt | Raise e => Raise e end = r)
    by (by intros [[]|]).
  rewrite <- (Hunit (numeric_verdict d)).
  unfold numeric_summary, numeric_report, numeric_verdict.
  apply finishes_divider. intros w' Hw'. rewrite <- Hw' in *. clear Hw'.
  cbv zeta.
  destruct (decide (numeric_columns d = [])) as [Hnone|Hsome].
  - rewrite (describe_number_is_None d Hnone).
    eapply finishes_eq.
    + eapply finishes_bind; [by apply runs_load|]. cbv beta.
      unfold numeric_columns in Hnone. rewrite Hnone.
      rewrite bool_decide_eq_false_2 by (simpl; lia).
      apply finishes_of_runs, runs_of_prints, prints_print.
    + reflexivity.
    + reflexivity.
  - destruct (describe_number_is_Some d Hsome) as [described Hdesc]. rewrite Hdesc.
    pose proof (fresh_not_allocated (heap w') (df self) d Hd) as Hfresh.
    set (l := fresh (dom (heap w'))) in *.
    eapply finishes_eq.
    + eapply finishes_bind; [by apply runs_load|]. cbv beta.
      rewrite bool_decide_eq_true_2
        by (unfold numeric_columns in Hsome;
            destruct (columns (select_dtypes ["number"] d)); [done | simpl; lia]).
      eapply finishes_bind; [by apply runs_load|]. cbv beta.
      eapply finishes_bind; [apply runs_of_prints, prints_lift, Hdesc|]. cbv beta.
      eapply finishes_bind; [apply runs_alloc|]. cbv beta. fold l.
      eapply finishes_bind; [apply runs_load; simpl; by rewrite lookup_insert_ne|].
      eapply finishes_bind; [apply runs_of_prints, prints_lift, Hdesc|]. cbv beta.
      eapply finishes_bind; [apply runs_loc_assign; simpl; apply lookup_insert_eq|].
      eapply finishes_bind;
        [apply runs_load; simpl; by rewrite !lookup_insert_ne by done|].
      eapply finishes_bind; [apply runs_of_prints, prints_lift, Hdesc|]. cbv beta.
      eapply finishes_bind; [apply runs_loc_assign; simpl; apply lookup_insert_eq|].
      eapply finishes_bind;
        [apply runs_load; simpl; by rewrite !lookup_insert_ne by done|].
      eapply finishes_bind; [apply runs_of_prints, prints_lift, Hdesc|]. cbv beta.
      eapply finishes_bind; [apply runs_loc_assign; simpl; apply lookup_insert_eq|].
      eapply finishes_bind; [apply runs_load; simpl; apply lookup_insert_eq|]. cbv beta.
      apply finishes_print_dataframe.
    + simpl. by rewrite !insert_insert_eq.
    + reflexivity.
Qed.

End runs.

(** * numeric_summary, the table it builds *)

Section numeric_table.
Context `{Externals}.




Lemma loc_set_new lbl row fr :
  lbl ∉ index fr →
  loc_set lbl row fr
  = mkFrame (index fr ++ [lbl])
      ((λ c, mkSeries (s_name c) (s_dtype c) (s_values c ++ [row_entry row (s_name c)]))
         <$> series fr).
Proof.
  intros Hnew. unfold loc_set.
  destruct (list_find (λ l, l = lbl) (index fr)) as [[k l']|] eqn:Hf; [|done].
  apply list_find_Some in Hf as (Hlook & -> & _).
  exfalso. apply Hnew. by eapply list_elem_of_lookup_2.
Qed.

Lemma summary_of_described d described :
  describe_number d = Some described →
  summary_of described
  = mkFrame
      (LStr <$> ["count"; "mean"; "std"; "min"; "25%"; "50%"; "75%"; "max";
                 "median"; "skew"; "kurtosis"])
      ((λ c, let xs := numbers (s_values c) in
             mkSeries (s_name c) Float64
               [count_ xs; mean_ xs; std xs; min_ xs;
                quantile (1 # 4) xs; quantile (1 # 2) xs; quantile (3 # 4) xs;
                max_ xs;
                row_entry (reduce median described) (s_name c);
                row_entry (reduce skew described) (s_name c);
                row_entry (reduce kurtosis described) (s_name c)])
         <$> series (select_dtypes ["number"] d)).
Proof.
  unfold describe_number. intros Hdesc.
  destruct (series (select_dtypes ["number"] d)) as [|c cs] eqn:Hcs; [done|].
  remember (c :: cs) as cs0 eqn:Hcs0. clear Hcs0 Hcs c cs.
  injection Hdesc as Hdesc. unfold summary_of.
  generalize (reduce median described) (reduce skew described)
             (reduce kurtosis described).
  intros m s k. subst described.
  rewrite (loc_set_new (LStr "median")) by (cbn [index]; decide_by_compute).
  rewrite (loc_set_new (LStr "skew")) by (cbn [index]; decide_by_compute).
  rewrite (loc_set_new (LStr "kurtosis")) by (cbn [index]; decide_by_compute).
  cbn [index series]. f_equal.
  rewrite <- !list_fmap_compose. by apply list_fmap_ext.
Qed.

Lemma NoDup_selected include d :
  NoDup (columns d) → NoDup (columns (select_dtypes include d)).
Proof.
  intros Hnd. eapply sublist_NoDup; [exact Hnd|].
  unfold columns, select_dtypes. simpl. apply fmap_sublist, sublist_filter.
Qed.

Lemma columns_summary_of d described :
  describe_number d = Some described →
  columns (summary_of described) = numeric_columns d.
Proof.
  intros Hdesc. rewrite (summary_of_described d described Hdesc).
  unfold numeric_columns, columns. cbn [series].
  rewrite <- list_fmap_compose. by apply list_fmap_ext.
Qed.

(** With distinct labels the statistics table is drawn or rejected by the
    console; nothing else can happen to it. *)
Lemma numeric_verdict_cases d :
  NoDup (columns d) →
  numeric_verdict d = Ok tt ∨ numeric_verdict d = Raise MarkupError.
Proof.
  intros Hnd. unfold numeric_verdict, verdict.
  destruct (describe_number d) as [described|] eqn:Hdesc; [|by left].
  assert (Hj : "right" ∈ valid_justifications) by decide_by_compute.
  assert (Hsum : NoDup (columns (summary_of described))).
  { rewrite (columns_summary_of d described Hdesc). by apply NoDup_selected. }
  rewrite print_dataframe_valid by done.
  rewrite (ambiguous_NoDup _ (NoDup_display_frame _ None None Hsum)).
  destruct (empty _); [by left|]. destruct (accepted _); [by left | by right].
Qed.

(** X9: without a numeric column the method prints its banner and the
    "no numeric data" line, creates no table, and returns normally. *)
Theorem numeric_summary_without_numeric_columns :
  ∀ self d w,
    heap w !! df self = Some d →
    numeric_columns d = [] →
    numeric_summary self w
    = (mkWorld (heap w)
         (console w ++ banner "NUMERIC COLUMNS STATISTICS"
          ++ [Print "No numeric data exists in dataset..."]), Ok tt).
Proof.
  intros self d w Hd Hnone.
  pose proof (numeric_summary_finishes self d w Hd) as Hrun.
  unfold numeric_report, numeric_verdict in Hrun.
  by rewrite (describe_number_is_None d Hnone) in Hrun.
Qed.

(** X10: with at least one numeric column, and distinct column labels, the
    method creates one new frame and writes to no other: the statistics
    table.  Its rows are count, mean, std, min, 25%, 50%, 75%, max, median,
    skew, kurtosis, in this order; its columns are the numeric columns of
    the table, in the table's order, each a float column of eleven cells.
    When the console accepts the texts of this table the method prints,
    after its banner, one table of eleven rows and returns normally; when
    it does not, the method prints its banner only and ends in the
    MarkupError. *)
Theorem numeric_summary_builds_the_statistics_table :
  ∀ self d w,
    heap w !! df self = Some d →
    numeric_columns d ≠ [] →
    NoDup (columns d) →
    ∃ summary,
      heap (numeric_summary self w).1 = <[fresh (dom (heap w)) := summary]> (heap w)
      ∧ index summary
        = LStr <$> ["count"; "mean"; "std"; "min"; "25%"; "50%"; "75%"; "max";
                    "median"; "skew"; "kurtosis"]
      ∧ columns summary = numeric_columns d
      ∧ Forall (λ c, s_dtype c = Float64 ∧ length (s_values c) = 11%nat) (series summary)
      ∧ (accepted (build_table summary None None None true "right") = true →
         ∃ t,
           numeric_summary self w
           = (mkWorld (<[fresh (dom (heap w)) := summary]> (heap w))
                (console w ++ banner "NUMERIC COLUMNS STATISTICS" ++ [ConsoleTable t]),
              Ok tt)
           ∧ header <$> table_columns t = "Index" :: numeric_columns d
           ∧ length (table_rows t) = 11%nat
           ∧ caption t = None)
      ∧ (accepted (build_table summary None None None true "right") = false →
         numeric_summary self w
         = (mkWorld (<[fresh (dom (heap w)) := summary]> (heap w))
              (console w ++ banner "NUMERIC COLUMNS STATISTICS"),
            Raise MarkupError)).
Proof.
  intros self d w Hd Hsome Hnd.
  destruct (describe_number_is_Some d Hsome) as [described Hdesc].
  pose proof (numeric_summary_finishes self d w Hd) as Hrun.
  unfold numeric_report, numeric_verdict, finishes in Hrun. rewrite Hdesc in Hrun.
  pose proof (summary_of_described d described Hdesc) as Hsum.
  pose proof (columns_summary_of d described Hdesc) as Hcolumns.
  assert (Hne : empty (summary_of described) = false).
  { rewrite Hsum. unfold empty, len. cbn [index series]. rewrite !length_fmap.
    unfold numeric_columns, columns in Hsome.
    destruct (series (select_dtypes ["number"] d)); [done|]. done. }
  assert (Hj : "right" ∈ valid_justifications) by decide_by_compute.
  assert (Hndsum : NoDup (columns (summary_of described))).
  { rewrite Hcolumns. by apply NoDup_selected. }
  exists (summary_of described).
  split; [by rewrite Hrun|].
  split; [by rewrite Hsum|].
  split; [exact Hcolumns|].
  split.
  { rewrite Hsum. cbn [series]. apply Forall_fmap, Forall_forall. by intros c _. }
  split.
  - intros Hacc.
    destruct (print_dataframe_table (summary_of described) None None None true "right"
                quiet Hj Hne Hndsum Hacc) as (t & Ht & Hok & Hcols & Hrows & Hcap & _).
    exists t. unfold rendering, verdict in Hrun. rewrite Ht, Hok in Hrun.
    split; [exact Hrun|].
    rewrite Hcols, Hrows, Hcap.
    change (display_frame (summary_of described) None None) with (summary_of described).
    split.
    { rewrite fmap_app, <- list_fmap_compose. simpl. f_equal.
      rewrite <- Hcolumns. unfold columns. by apply list_fmap_ext. }
    split; [|reflexivity].
    rewrite Hsum. unfold len. cbn [index]. by rewrite !length_fmap, length_seq.
  - intros Hrej.
    destruct (print_dataframe_rejected (summary_of described) None None None true "right"
                quiet Hj Hne Hndsum Hrej) as [Ht Hraise].
    unfold rendering, verdict in Hrun. rewrite Ht, Hraise, app_nil_r in Hrun.
    exact Hrun.
Qed.


End numeric_table.

(** * Sections without applicable data, and normal return *)

Section no_data.
Context `{Externals}.

Lemma zip_seq_lookup {A} (start : nat) (xs : list A) k x :
  xs !! k = Some x → enumerate start xs !! k = Some ((start + k)%nat, x).
Proof.
  intros Hx. unfold enumerate. rewrite lookup_zip_with.
  rewrite lookup_seq_lt by (by eapply lookup_lt_Some). simpl. by rewrite Hx.
Qed.

(** X8: [basic_info] prints, after its banner, the true row count and
    column count of the table, the memory line, and then every column name
    in declaration order, numbered from 1; nothing else, and it returns
    normally. *)
Theorem basic_info_reports_dimensions_and_columns :
  ∀ self d w,
    heap w !! df self = Some d →
    ∃ lines,
      basic_info self w = (mkWorld (heap w) (console w ++ lines), Ok tt)
      ∧ length lines = (7 + length (columns d))%nat
      ∧ take 3 lines = banner "BASIC DATAFRAME INFORMATION"
      ∧ lines !! 3%nat = Some (Print ("Number of rows: " +:+ str_nat (len d)))
      ∧ lines !! 4%nat
        = Some (Print ("Number of columns: " +:+ str_nat (length (columns d))))
      ∧ lines !! 6%nat = Some (Print (nl +:+ "Column Names:"))
      ∧ ∀ k name, columns d !! k = Some name →
          lines !! (7 + k)%nat
          = Some (Print ("  " +:+ str_nat (k + 1) +:+ ". " +:+ name)).
Proof.
  intros self d w Hd. exists (basic_report d).
  split; [exact (basic_info_prints self d w Hd)|].
  unfold basic_report, banner.
  split.
  { rewrite !length_app, !length_fmap. unfold enumerate.
    rewrite length_zip_with, length_seq. simpl. lia. }
  do 4 (split; [reflexivity|]).
  intros k name Hk.
  rewrite lookup_app_r by (simpl; lia).
  rewrite lookup_app_r by (simpl; lia).
  simpl length.
  replace (7 + k - 3 - 4)%nat with k by lia.
  rewrite list_lookup_fmap.
  rewrite (zip_seq_lookup 1 (columns d) k name Hk). simpl.
  by replace (k + 1)%nat with (S k) by lia.
Qed.

(** X12: without a column of dtype object, [categorical_summary] prints its
    banner and the "no categorical data" line, draws no table, and returns
    normally. *)
Theorem categorical_summary_without_object_columns :
  ∀ self d w,
    heap w !! df self = Some d →
    categorical_columns d = [] →
    categorical_summary self w
    = (mkWorld (heap w)
         (console w ++ banner "CATEGORICAL COLUMNS STATISTICS"
          ++ [Print "No categorical data exists in dataset..."]), Ok tt).
Proof.
  intros self d w Hd Hnone.
  change (prints (categorical_summary self) w
            (banner "CATEGORICAL COLUMNS STATISTICS"
             ++ [Print "No categorical data exists in dataset..."]) tt).
  unfold categorical_summary. apply (prints_divider _ _ _ _ tt).
  intros w' Hw'. rewrite <- Hw' in Hd.
  eapply prints_eq.
  - eapply prints_bind; [by apply prints_load|]. cbv beta zeta.
    unfold categorical_columns in Hnone. rewrite Hnone.
    rewrite bool_decide_eq_false_2 by (intros Hn; by apply Hn).
    apply prints_print.
  - reflexivity.
Qed.

(** X14: with fewer than two numeric columns [correlation_analysis] computes
    no matrix: with none it prints the "no numerical data" line, with exactly
    one the line saying that at least two are required, and in both cases
    nothing after it. *)
Theorem correlation_needs_two_numeric_columns :
  ∀ self d w,
    heap w !! df self = Some d →
    (numeric_columns d = [] →
     correlation_analysis self w
     = (mkWorld (heap w)
          (console w
           ++ banner "CORRELATION ANALYSIS (applicable to the numeric columns only)"
           ++ [Print "No numerical data found in dataset..."]), Ok tt))
    ∧ (∀ name, numeric_columns d = [name] →
       correlation_analysis self w
       = (mkWorld (heap w)
            (console w
             ++ banner "CORRELATION ANALYSIS (applicable to the numeric columns only)"
             ++ [Print "Found only 1 numeric column(s). At least 2 numeric columns are required for correlation analysis."]),
          Ok tt)).
Proof.
  intros self d w Hd. split.
  - intros Hnone. unfold correlation_analysis.
    apply (prints_divider _ _ _ _ tt). intros w' Hw'. rewrite <- Hw' in Hd.
    eapply prints_eq.
    + eapply prints_bind; [by apply prints_load|]. cbv beta zeta.
      unfold numeric_columns in Hnone. rewrite Hnone.
      rewrite bool_decide_eq_true_2 by done.
      apply prints_print.
    + reflexivity.
  - intros name Hone. unfold correlation_analysis.
    apply (prints_divider _ _ _ _ tt). intros w' Hw'. rewrite <- Hw' in Hd.
    eapply prints_eq.
    + eapply prints_bind; [by apply prints_load|]. cbv beta zeta.
      unfold numeric_columns in Hone. rewrite Hone.
      rewrite bool_decide_eq_false_2 by done.
      rewrite bool_decide_eq_true_2 by (simpl; lia).
      apply prints_print.
    + reflexivity.
Qed.

End no_data.

(** * How the analysis methods end *)

Section ends.
Context `{Externals}.
Variables (E : exn → Prop) (l : loc) (d : DataFrame).
(** The console may reject a table, or it accepts every text. *)
Hypothesis rich : E MarkupError ∨ ∀ s, markup_ok s = true.











End ends.

Section only_the_console.
Context `{Externals}.








End only_the_console.

(** * Construction and the driver *)

Section driver_runs.
Context `{Externals} `{Host}.

Lemma druns_call {A} (c : M A) w h es a :
  runs c w h es a → druns (call c) w h es (inr a).
Proof. unfold runs, druns, call. by intros ->. Qed.

Lemma druns_call_finishes {A} (c : M A) w h es r :
  finishes c w h es r →
  druns (call c) w h es (match r with Ok a => inr a | Raise e => inl (Analysis e) end).
Proof. unfold finishes, druns, call. intros ->. by destruct r. Qed.

Lemma druns_bind {A B} (c : D A) (k : A → D B) w h es a h' es' r :
  druns c w h es (inr a) →
  druns (k a) (mkWorld h (console w ++ es)) h' es' r →
  druns (c ≫= k) w h' (es ++ es') r.
Proof.
  unfold druns, mbind, D_bind, dbind. intros -> ->. simpl. by rewrite app_assoc.
Qed.

Lemma druns_fail {A B} (c : D A) (k : A → D B) w h es f :
  druns c w h es (inl f) → druns (c ≫= k) w h es (inl f).
Proof. unfold druns, mbind, D_bind, dbind. by intros ->. Qed.

Lemma druns_throw {A} f w : druns (throw f : D A) w (heap w) [] (inl f).
Proof. unfold druns, throw. rewrite app_nil_r. by destruct w. Qed.

Lemma druns_print s w : druns (call (print s)) w (heap w) [Print s] (inr tt).
Proof. apply druns_call, runs_of_prints, prints_print. Qed.

Lemma druns_eq {A} (c : D A) w h h' es es' r :
  druns c w h es r → h = h' → es = es' → druns c w h' es' r.
Proof. by intros ? <- <-. Qed.

(** The three ways construction ends. *)
Lemma DataInsights_init_cases :
  ∀ path w,
    (∀ table, read_csv path = Loaded table →
       DataInsights_init path w
       = (mkWorld (<[fresh (dom (heap w)) := table]> (heap w))
            (console w ++ banner "INITIALIZING DATA INSIGHTS OBJECT"
             ++ [Print ("Data loaded successfully: " +:+ str_nat (len table)
                        +:+ " rows, " +:+ str_nat (length (columns table))
                        +:+ " columns")]),
          inr (mkDataInsights (fresh (dom (heap w))))))
    ∧ (∀ message, read_csv path = NotFound message →
       DataInsights_init path w
       = (mkWorld (<[fresh (dom (heap w)) := DataFrame_empty]> (heap w))
            (console w ++ banner "INITIALIZING DATA INSIGHTS OBJECT"
             ++ [Print ("File not found: " +:+ path)]),
          inl (FileNotFoundError message)))
    ∧ (∀ message, read_csv path = Unreadable message →
       DataInsights_init path w
       = (mkWorld (<[fresh (dom (heap w)) := DataFrame_empty]> (heap w))
            (console w ++ banner "INITIALIZING DATA INSIGHTS OBJECT"
             ++ [Print ("Error loading data: " +:+ message)]),
          inl (LoadFailure message))).
Proof.
  intros path w. unfold DataInsights_init.
  split; [|split]; intros x Hread; rewrite Hread;
    unfold mbind, D_bind, dbind, call, print, emit, alloc, store, load,
           throw, mret, D_ret, dret, banner; simpl.
  - rewrite lookup_insert_eq. simpl. rewrite lookup_insert_eq. simpl.
    rewrite insert_insert_eq. by rewrite <- !app_assoc.
  - by rewrite <- !app_assoc.
  - by rewrite <- !app_assoc.
Qed.

(** X16: construction announces what happened to the load.  A table that
    loads becomes [self.df] of a new object, after the banner and a line
    with its row and column counts; a missing file gives the banner, the
    "File not found" line with the path, and the FileNotFoundError again;
    any other failure gives the banner, "Error loading data" with the
    error's text, and that error again.  No object but the new one is
    touched. *)
Theorem construction_announces_then_fails :
  ∀ path w,
    (∀ table, read_csv path = Loaded table →
       DataInsights_init path w
       = (mkWorld (<[fresh (dom (heap w)) := table]> (heap w))
            (console w ++ banner "INITIALIZING DATA INSIGHTS OBJECT"
             ++ [Print ("Data loaded successfully: " +:+ str_nat (len table)
                        +:+ " rows, " +:+ str_nat (length (columns table))
                        +:+ " columns")]),
          inr (mkDataInsights (fresh (dom (heap w))))))
    ∧ (∀ message, read_csv path = NotFound message →
       DataInsights_init path w
       = (mkWorld (<[fresh (dom (heap w)) := DataFrame_empty]> (heap w))
            (console w ++ banner "INITIALIZING DATA INSIGHTS OBJECT"
             ++ [Print ("File not found: " +:+ path)]),
          inl (FileNotFoundError message)))
    ∧ (∀ message, read_csv path = Unreadable message →
       DataInsights_init path w
       = (mkWorld (<[fresh (dom (heap w)) := DataFrame_empty]> (heap w))
            (console w ++ banner "INITIALIZING DATA INSIGHTS OBJECT"
             ++ [Print ("Error loading data: " +:+ message)]),
          inl (LoadFailure message))).
Proof.
  intros path w. unfold DataInsights_init.
  split; [|split]; intros x Hread; rewrite Hread;
    unfold mbind, D_bind, dbind, call, print, emit, alloc, store, load,
           throw, mret, D_ret, dret, banner; simpl.
  - rewrite lookup_insert_eq. simpl. rewrite lookup_insert_eq. simpl.
    rewrite insert_insert_eq. by rewrite <- !app_assoc.
  - by rewrite <- !app_assoc.
  - by rewrite <- !app_assoc.
Qed.

(** X15: when the data set loads, as a table with distinct column labels,
    the driver prints the welcome line, the construction report and the
    sections of [basic_info], [missing_values_analysis],
    [data_types_summary] and [numeric_summary], and then fails: with the
    MarkupError of the console when it rejects the statistics table, and
    otherwise with an AttributeError, since the class has no
    [numeric_distributions].  The categorical and the correlation section
    and the closing prompt are never printed. *)
Theorem main_stops_at_numeric_distributions :
  ∀ w table,
    read_csv "dataset/Walmart_customer_purchases.csv" = Loaded table →
    NoDup (columns table) →
    ∃ h f,
      main w
      = (mkWorld h
           (console w
            ++ [Print "Welcome to Walmart-customer-behavior-insights!"]
            ++ banner "INITIALIZING DATA INSIGHTS OBJECT"
            ++ [Print ("Data loaded successfully: " +:+ str_nat (len table)
                       +:+ " rows, " +:+ str_nat (length (columns table))
                       +:+ " columns")]
            ++ basic_report table ++ missing_report table ++ types_report table
            ++ numeric_report table),
         inl f)
      ∧ h !! fresh (dom (heap w)) = Some table
      ∧ f = match numeric_verdict table with
            | Ok _ =>
              AttributeError
                "'DataInsights' object has no attribute 'numeric_distributions'"
            | Raise e => Analysis e
            end
      ∧ (f = AttributeError
               "'DataInsights' object has no attribute 'numeric_distributions'"
         ∨ f = Analysis MarkupError).
Proof.
  intros w table Hread Hnd.
  set (f := match numeric_verdict table with
            | Ok _ =>
              AttributeError
                "'DataInsights' object has no attribute 'numeric_distributions'"
            | Raise e => Analysis e
            end).
  enough (Hmain : ∃ h,
    druns main w h
      ([Print "Welcome to Walmart-customer-behavior-insights!"]
       ++ banner "INITIALIZING DATA INSIGHTS OBJECT"
       ++ [Print ("Data loaded successfully: " +:+ str_nat (len table)
                  +:+ " rows, " +:+ str_nat (length (columns table)) +:+ " columns")]
       ++ basic_report table ++ missing_report table ++ types_report table
       ++ numeric_report table)
      (inl f)
    ∧ h !! fresh (dom (heap w)) = Some table).
  { destruct Hmain as (h & Hrun & Hh). exists h, f.
    split; [exact Hrun|]. split; [exact Hh|]. split; [done|].
    subst f.
    destruct (numeric_verdict_cases table Hnd) as [-> | ->]; [by left | by right]. }
  unfold main. cbv zeta.
  destruct (DataInsights_init_cases
              "dataset/Walmart_customer_purchases.csv"
              (mkWorld (heap w)
                 (console w ++ [Print "Welcome to Walmart-customer-behavior-insights!"])))
    as (Hinit & _ & _).
  specialize (Hinit table Hread). simpl in Hinit.
  set (l := fresh (dom (heap w))) in *.
  set (self := mkDataInsights l) in *.
  set (h1 := <[l := table]> (heap w)) in *.
  assert (Hself : h1 !! df self = Some table) by apply lookup_insert_eq.
  assert (Hnumeric : ∀ w1, heap w1 = h1 →
            ∃ h, druns (call (numeric_summary self) ≫= λ _ : unit,
                          numeric_distributions self ≫= λ _ : unit,
                          call (categorical_summary self) ≫= λ _ : unit,
                          call (correlation_analysis self) ≫= λ _ : unit,
                          call (print (nl +:+ "Press Enter key to exit the program..."))
                          ≫= λ _ : unit, input ≫= λ _ : string, mret tt)
                   w1 h (numeric_report table) (inl f)
                 ∧ h !! l = Some table).
  { intros w1 Hw1.
    assert (Hd : heap w1 !! df self = Some table) by (by rewrite Hw1).
    pose proof (numeric_summary_finishes self table w1 Hd) as Hfin.
    apply druns_call_finishes in Hfin.
    assert (Hkept : (match describe_number table with
                     | Some described =>
                       <[fresh (dom (heap w1)) := summary_of described]> (heap w1)
                     | None => heap w1
                     end) !! l = Some table).
    { destruct (describe_number table); [|by rewrite Hw1].
      rewrite lookup_insert_ne; [by rewrite Hw1|].
      apply (fresh_not_allocated (heap w1) (df self) table Hd). }
    eexists. split; [|exact Hkept].
    subst f. destruct (numeric_verdict table) as [[]|e].
    - eapply druns_eq.
      + eapply druns_bind; [exact Hfin|].
        apply druns_fail. unfold numeric_distributions. apply druns_throw.
      + reflexivity.
      + by rewrite app_nil_r.
    - apply druns_fail. exact Hfin. }
  destruct (Hnumeric
              (mkWorld h1
                 (((((console w ++ [Print "Welcome to Walmart-customer-behavior-insights!"])
                     ++ banner "INITIALIZING DATA INSIGHTS OBJECT"
                        ++ [Print ("Data loaded successfully: " +:+ str_nat (len table)
                                   +:+ " rows, " +:+ str_nat (length (columns table))
                                   +:+ " columns")])
                    ++ basic_report table) ++ missing_report table) ++ types_report table))
              eq_refl) as (h & Hrun & Hh).
  exists h. split; [|exact Hh].
  eapply druns_eq.
  - eapply druns_bind; [apply druns_print|].
    eapply druns_bind; [exact Hinit|]. cbv beta.
    eapply druns_bind;
      [apply druns_call, runs_of_prints, (basic_info_prints self table); exact Hself|].
    eapply druns_bind;
      [apply druns_call, runs_of_prints,
         (missing_values_analysis_prints self table); exact Hself|].
    eapply druns_bind;
      [apply druns_call, runs_of_prints,
         (data_types_summary_prints self table); exact Hself|].
    exact Hrun.
  - reflexivity.
  - unfold missing_report, types_report. simpl. rewrite ?app_nil_r.
    by rewrite <- ?app_assoc.
Qed.

(** X17: when the data set does not load, the driver prints the welcome
    line, the construction banner and the one line that announces the
    failure, and ends with the error of the load; no section of the report
    is printed. *)
Theorem main_ends_with_the_load_error :
  ∀ w,
    (∀ message,
       read_csv "dataset/Walmart_customer_purchases.csv" = NotFound message →
       main w
       = (mkWorld (<[fresh (dom (heap w)) := DataFrame_empty]> (heap w))
            (console w
             ++ [Print "Welcome to Walmart-customer-behavior-insights!"]
             ++ banner "INITIALIZING DATA INSIGHTS OBJECT"
             ++ [Print "File not found: dataset/Walmart_customer_purchases.csv"]),
          inl (FileNotFoundError message)))
    ∧ (∀ message,
         read_csv "dataset/Walmart_customer_purchases.csv" = Unreadable message →
         main w
         = (mkWorld (<[fresh (dom (heap w)) := DataFrame_empty]> (heap w))
              (console w
               ++ [Print "Welcome to Walmart-customer-behavior-insights!"]
               ++ banner "INITIALIZING DATA INSIGHTS OBJECT"
               ++ [Print ("Error loading data: " +:+ message)]),
            inl (LoadFailure message))).
Proof.
  intros w.
  destruct (DataInsights_init_cases
              "dataset/Walmart_customer_purchases.csv"
              (mkWorld (heap w)
                 (console w ++ [Print "Welcome to Walmart-customer-behavior-insights!"])))
    as (_ & Hnf & Hun).
  split; intros message Hread; unfold main; cbv zeta.
  - specialize (Hnf message Hread). simpl in Hnf.
    eapply druns_eq.
    + eapply druns_bind; [apply druns_print|]. apply druns_fail. exact Hnf.
    + reflexivity.
    + reflexivity.
  - specialize (Hun message Hread). simpl in Hun.
    eapply druns_eq.
    + eapply druns_bind; [apply druns_print|]. apply druns_fail. exact Hun.
    + reflexivity.
    + reflexivity.
Qed.

End driver_runs.

(** * The properties above, on concrete tables *)

Lemma empty_frame_prints_only_the_notice_witness :
  ("center" ∈ ["left"; "center"; "right"])
  ∧ (len DataFrame_empty = 0%nat ∨ series DataFrame_empty = [])
  ∧ print_dataframe (H:=exact.runtime) DataFrame_empty (Some "t") (Some 3%Z) None
      true "center" quiet
    = (mkWorld (heap quiet)
         (console quiet ++ [ConsolePrint "[yellow]DataFrame is empty[/yellow]"]), Ok tt).
Proof.
  assert (Hj : "center" ∈ ["left"; "center"; "right"]) by decide_by_compute.
  assert (He : len DataFrame_empty = 0%nat ∨ series DataFrame_empty = [])
    by (left; reflexivity).
  split; [exact Hj|]. split; [exact He|].
  exact (empty_frame_prints_only_the_notice (H:=exact.runtime)
           DataFrame_empty (Some "t") (Some 3%Z) None true "center" quiet Hj He).
Defined.

Lemma rendered_rows_fit_the_columns_witness :
  ("right" ∈ ["left"; "center"; "right"])
  ∧ empty five_by_three = false
  ∧ NoDup (columns five_by_three)
  ∧ accepted (H:=exact.runtime)
      (build_table (H:=exact.runtime) five_by_three None (Some 2%Z) (Some 1%Z) true "right") = true
  ∧ ∃ t rest,
      emitted (print_dataframe (H:=exact.runtime) five_by_three None (Some 2%Z)
                 (Some 1%Z) true "right") quiet
      = ConsoleTable t :: rest
      ∧ header <$> table_columns t
        = (if true then ["Index"] else [])
          ++ columns (display_frame five_by_three (Some 2%Z) (Some 1%Z))
      ∧ length (table_rows t) = len (display_frame five_by_three (Some 2%Z) (Some 1%Z))
      ∧ Forall (λ r, length r = length (table_columns t)) (table_rows t).
Proof.
  assert (Hj : "right" ∈ ["left"; "center"; "right"]) by decide_by_compute.
  assert (Hne : empty five_by_three = false) by reflexivity.
  assert (Hnd : NoDup (columns five_by_three)) by decide_by_compute.
  assert (Hacc : accepted (H:=exact.runtime)
                   (build_table (H:=exact.runtime) five_by_three None (Some 2%Z) (Some 1%Z) true "right") = true)
    by (vm_compute; reflexivity).
  split; [exact Hj|]. split; [exact Hne|]. split; [exact Hnd|]. split; [exact Hacc|].
  exact (rendered_rows_fit_the_columns (H:=exact.runtime)
           five_by_three None (Some 2%Z) (Some 1%Z) true "right" quiet Hj Hne Hnd Hacc).
Defined.

Lemma caps_limit_rows_and_columns_witness :
  ("right" ∈ ["left"; "center"; "right"])
  ∧ empty five_by_three = false
  ∧ NoDup (columns five_by_three)
  ∧ accepted (H:=exact.runtime)
      (build_table (H:=exact.runtime) five_by_three None (Some (-2)%Z) (Some 7%Z) false "right") = true
  ∧ ∃ t rest,
      emitted (print_dataframe (H:=exact.runtime) five_by_three None (Some (-2)%Z)
                 (Some 7%Z) false "right") quiet
      = ConsoleTable t :: rest
      ∧ length (table_rows t) = (len five_by_three - Pos.to_nat 2)%nat
      ∧ length (table_columns t)
        = ((if false then 1 else 0)
           + Nat.min (Pos.to_nat 7) (length (columns five_by_three)))%nat.
Proof.
  assert (Hj : "right" ∈ ["left"; "center"; "right"]) by decide_by_compute.
  assert (Hne : empty five_by_three = false) by reflexivity.
  assert (Hnd : NoDup (columns five_by_three)) by decide_by_compute.
  assert (Hacc : accepted (H:=exact.runtime)
                   (build_table (H:=exact.runtime) five_by_three None (Some (-2)%Z) (Some 7%Z) false "right") = true)
    by (vm_compute; reflexivity).
  split; [exact Hj|]. split; [exact Hne|]. split; [exact Hnd|]. split; [exact Hacc|].
  exact (caps_limit_rows_and_columns (H:=exact.runtime)
           five_by_three None (Some (-2)%Z) (Some 7%Z) false "right" quiet Hj Hne Hnd Hacc).
Defined.

Lemma row_cap_shows_the_first_rows_witness :
  ("left" ∈ ["left"; "center"; "right"])
  ∧ empty five_by_three = false
  ∧ NoDup (columns five_by_three)
  ∧ accepted (H:=exact.runtime)
      (build_table (H:=exact.runtime) five_by_three None (Some (Z.pos 2)) None
         true "left") = true
  ∧ accepted (H:=exact.runtime)
      (build_table (H:=exact.runtime) five_by_three None None None true "left") = true
  ∧ ∃ t rest t0 rest0,
      emitted (print_dataframe (H:=exact.runtime) five_by_three None (Some (Z.pos 2))
                 None true "left") quiet
      = ConsoleTable t :: rest
      ∧ emitted (print_dataframe (H:=exact.runtime) five_by_three None None
                   None true "left") quiet
        = ConsoleTable t0 :: rest0
      ∧ table_columns t = table_columns t0
      ∧ table_rows t = take (Pos.to_nat 2) (table_rows t0).
Proof.
  assert (Hj : "left" ∈ ["left"; "center"; "right"]) by decide_by_compute.
  assert (Hne : empty five_by_three = false) by reflexivity.
  assert (Hnd : NoDup (columns five_by_three)) by decide_by_compute.
  assert (Hacc : accepted (H:=exact.runtime)
                   (build_table (H:=exact.runtime) five_by_three None (Some (Z.pos 2))
                      None true "left") = true) by (vm_compute; reflexivity).
  assert (Hacc0 : accepted (H:=exact.runtime)
                    (build_table (H:=exact.runtime) five_by_three None None None
                       true "left") = true) by (vm_compute; reflexivity).
  split; [exact Hj|]. split; [exact Hne|]. split; [exact Hnd|].
  split; [exact Hacc|]. split; [exact Hacc0|].
  exact (row_cap_shows_the_first_rows (H:=exact.runtime)
           five_by_three None 2%positive None true "left" quiet Hj Hne Hnd Hacc Hacc0).
Defined.

Lemma caption_reports_the_first_cut_witness :
  ("right" ∈ ["left"; "center"; "right"])
  ∧ empty five_by_three = false
  ∧ NoDup (columns five_by_three)
  ∧ accepted (H:=exact.runtime)
      (build_table (H:=exact.runtime) five_by_three None (Some 9%Z) (Some 2%Z) true "right") = true
  ∧ ∃ t rest,
      emitted (print_dataframe (H:=exact.runtime) five_by_three None (Some 9%Z)
                 (Some 2%Z) true "right") quiet
      = ConsoleTable t :: rest
      ∧ (cuts (Some 9%Z) (len five_by_three) →
         caption t = Some ("Showing " +:+ str_int (int_of (Some 9%Z)) +:+ " of "
                           +:+ str_nat (len five_by_three) +:+ " rows"))
      ∧ (¬ cuts (Some 9%Z) (len five_by_three) →
         cuts (Some 2%Z) (length (columns five_by_three)) →
         caption t = Some ("Showing " +:+ str_int (int_of (Some 2%Z)) +:+ " of "
                           +:+ str_nat (length (columns five_by_three)) +:+ " columns"))
      ∧ (caption t = None
         ↔ ¬ cuts (Some 9%Z) (len five_by_three)
           ∧ ¬ cuts (Some 2%Z) (length (columns five_by_three))).
Proof.
  assert (Hj : "right" ∈ ["left"; "center"; "right"]) by decide_by_compute.
  assert (Hne : empty five_by_three = false) by reflexivity.
  assert (Hnd : NoDup (columns five_by_three)) by decide_by_compute.
  assert (Hacc : accepted (H:=exact.runtime)
                   (build_table (H:=exact.runtime) five_by_three None (Some 9%Z) (Some 2%Z) true "right") = true)
    by (vm_compute; reflexivity).
  split; [exact Hj|]. split; [exact Hne|]. split; [exact Hnd|]. split; [exact Hacc|].
  exact (caption_reports_the_first_cut (H:=exact.runtime)
           five_by_three None (Some 9%Z) (Some 2%Z) true "right" quiet Hj Hne Hnd Hacc).
Defined.

Lemma non_numeric_columns_stay_left_witness :
  ("center" ∈ ["left"; "center"; "right"])
  ∧ empty five_by_three = false
  ∧ NoDup (columns five_by_three)
  ∧ accepted (H:=exact.runtime)
      (build_table (H:=exact.runtime) five_by_three None None None true "center") = true
  ∧ ∃ t rest,
      emitted (print_dataframe (H:=exact.runtime) five_by_three None None None
                 true "center") quiet
      = ConsoleTable t :: rest
      ∧ (true = true →
         table_columns t !! 0%nat = Some (mkColumn "Index" (Some "dim") "right" "ellipsis"))
      ∧ Forall2 (λ col rc,
                   header rc = s_name col
                   ∧ justify rc = (if is_numeric_dtype (s_dtype col)
                                   then "center" else "left"))
          (series (display_frame five_by_three None None))
          (drop (if true then 1 else 0) (table_columns t)).
Proof.
  assert (Hj : "center" ∈ ["left"; "center"; "right"]) by decide_by_compute.
  assert (Hne : empty five_by_three = false) by reflexivity.
  assert (Hnd : NoDup (columns five_by_three)) by decide_by_compute.
  assert (Hacc : accepted (H:=exact.runtime)
                   (build_table (H:=exact.runtime) five_by_three None None None true "center") = true)
    by (vm_compute; reflexivity).
  split; [exact Hj|]. split; [exact Hne|]. split; [exact Hnd|]. split; [exact Hacc|].
  exact (non_numeric_columns_stay_left (H:=exact.runtime)
           five_by_three None None None true "center" quiet Hj Hne Hnd Hacc).
Defined.

Lemma basic_info_reports_dimensions_and_columns_witness :
  heap (loaded scenario) !! df report = Some scenario
  ∧ ∃ lines,
      basic_info (H:=exact.runtime) report (loaded scenario)
      = (mkWorld (heap (loaded scenario)) (console (loaded scenario) ++ lines), Ok tt)
      ∧ length lines = (7 + length (columns scenario))%nat
      ∧ take 3 lines = banner "BASIC DATAFRAME INFORMATION"
      ∧ lines !! 3%nat = Some (Print ("Number of rows: " +:+ str_nat (len scenario)))
      ∧ lines !! 4%nat
        = Some (Print ("Number of columns: " +:+ str_nat (length (columns scenario))))
      ∧ lines !! 6%nat = Some (Print (nl +:+ "Column Names:"))
      ∧ ∀ k name, columns scenario !! k = Some name →
          lines !! (7 + k)%nat
          = Some (Print ("  " +:+ str_nat (k + 1) +:+ ". " +:+ name)).
Proof.
  assert (Hd : heap (loaded scenario) !! df report = Some scenario) by reflexivity.
  split; [exact Hd|].
  exact (basic_info_reports_dimensions_and_columns (H:=exact.runtime)
           report scenario (loaded scenario) Hd).
Defined.

Lemma numeric_summary_without_numeric_columns_witness :
  heap (loaded flags) !! df report = Some flags
  ∧ numeric_columns flags = []
  ∧ numeric_summary (H:=exact.runtime) report (loaded flags)
    = (mkWorld (heap (loaded flags))
         (console (loaded flags) ++ banner "NUMERIC COLUMNS STATISTICS"
          ++ [Print "No numeric data exists in dataset..."]), Ok tt).
Proof.
  assert (Hd : heap (loaded flags) !! df report = Some flags) by reflexivity.
  assert (Hn : numeric_columns flags = []) by reflexivity.
  split; [exact Hd|]. split; [exact Hn|].
  exact (numeric_summary_without_numeric_columns (H:=exact.runtime)
           report flags (loaded flags) Hd Hn).
Defined.

Lemma numeric_summary_builds_the_statistics_table_witness :
  heap (loaded scenario) !! df report = Some scenario
  ∧ numeric_columns scenario ≠ []
  ∧ NoDup (columns scenario)
  ∧ ∃ summary,
      heap (numeric_summary (H:=exact.runtime) report (loaded scenario)).1
      = <[fresh (dom (heap (loaded scenario))) := summary]> (heap (loaded scenario))
      ∧ index summary
        = LStr <$> ["count"; "mean"; "std"; "min"; "25%"; "50%"; "75%"; "max";
                    "median"; "skew"; "kurtosis"]
      ∧ columns summary = numeric_columns scenario
      ∧ Forall (λ c, s_dtype c = Float64 ∧ length (s_values c) = 11%nat) (series summary)
      ∧ (accepted (H:=exact.runtime)
           (build_table (H:=exact.runtime) summary None None None true "right") = true →
         ∃ t,
           numeric_summary (H:=exact.runtime) report (loaded scenario)
           = (mkWorld (<[fresh (dom (heap (loaded scenario))) := summary]>
                         (heap (loaded scenario)))
                (console (loaded scenario) ++ banner "NUMERIC COLUMNS STATISTICS"
                 ++ [ConsoleTable t]),
              Ok tt)
           ∧ header <$> table_columns t = "Index" :: numeric_columns scenario
           ∧ length (table_rows t) = 11%nat
           ∧ caption t = None)
      ∧ (accepted (H:=exact.runtime)
           (build_table (H:=exact.runtime) summary None None None true "right") = false →
         numeric_summary (H:=exact.runtime) report (loaded scenario)
         = (mkWorld (<[fresh (dom (heap (loaded scenario))) := summary]>
                       (heap (loaded scenario)))
              (console (loaded scenario) ++ banner "NUMERIC COLUMNS STATISTICS"),
            Raise MarkupError)).
Proof.
  assert (Hd : heap (loaded scenario) !! df report = Some scenario) by reflexivity.
  assert (Hn : numeric_columns scenario ≠ []) by (vm_compute; discriminate).
  assert (Hnd : NoDup (columns scenario)) by decide_by_compute.
  split; [exact Hd|]. split; [exact Hn|]. split; [exact Hnd|].
  exact (numeric_summary_builds_the_statistics_table (H:=exact.runtime)
           report scenario (loaded scenario) Hd Hn Hnd).
Defined.


Lemma categorical_summary_without_object_columns_witness :
  heap (loaded readings) !! df report = Some readings
  ∧ categorical_columns readings = []
  ∧ categorical_summary (H:=exact.runtime) report (loaded readings)
    = (mkWorld (heap (loaded readings))
         (console (loaded readings) ++ banner "CATEGORICAL COLUMNS STATISTICS"
          ++ [Print "No categorical data exists in dataset..."]), Ok tt).
Proof.
  assert (Hd : heap (loaded readings) !! df report = Some readings) by reflexivity.
  assert (Hn : categorical_columns readings = []) by reflexivity.
  split; [exact Hd|]. split; [exact Hn|].
  exact (categorical_summary_without_object_columns (H:=exact.runtime)
           report readings (loaded readings) Hd Hn).
Defined.

Lemma correlation_needs_two_numeric_columns_witness :
  heap (loaded readings) !! df report = Some readings
  ∧ numeric_columns readings = ["A"]
  ∧ correlation_analysis (H:=exact.runtime) report (loaded readings)
    = (mkWorld (heap (loaded readings))
         (console (loaded readings)
          ++ banner "CORRELATION ANALYSIS (applicable to the numeric columns only)"
          ++ [Print "Found only 1 numeric column(s). At least 2 numeric columns are required for correlation analysis."]),
       Ok tt).
Proof.
  assert (Hd : heap (loaded readings) !! df report = Some readings) by reflexivity.
  assert (Hn : numeric_columns readings = ["A"]) by reflexivity.
  split; [exact Hd|]. split; [exact Hn|].
  exact (proj2 (correlation_needs_two_numeric_columns (H:=exact.runtime)
                  report readings (loaded readings) Hd) "A" Hn).
Defined.


Lemma main_stops_at_numeric_distributions_witness :
  read_csv (Host:=disk) "dataset/Walmart_customer_purchases.csv" = Loaded scenario
  ∧ NoDup (columns scenario)
  ∧ numeric_verdict (H:=exact.runtime) scenario = Ok tt
  ∧ ∃ h f,
      main (H:=exact.runtime) (H0:=disk) quiet
      = (mkWorld h
           (console quiet
            ++ [Print "Welcome to Walmart-customer-behavior-insights!"]
            ++ banner "INITIALIZING DATA INSIGHTS OBJECT"
            ++ [Print ("Data loaded successfully: " +:+ str_nat (len scenario)
                       +:+ " rows, " +:+ str_nat (length (columns scenario))
                       +:+ " columns")]
            ++ basic_report (H:=exact.runtime) scenario
            ++ missing_report (H:=exact.runtime) scenario
            ++ types_report scenario
            ++ numeric_report (H:=exact.runtime) scenario),
         inl f)
      ∧ h !! fresh (dom (heap quiet)) = Some scenario
      ∧ f = match numeric_verdict (H:=exact.runtime) scenario with
            | Ok _ =>
              AttributeError
                "'DataInsights' object has no attribute 'numeric_distributions'"
            | Raise e => Analysis e
            end
      ∧ (f = AttributeError
               "'DataInsights' object has no attribute 'numeric_distributions'"
         ∨ f = Analysis MarkupError).
Proof.
  assert (Hread : read_csv (Host:=disk) "dataset/Walmart_customer_purchases.csv"
                  = Loaded scenario) by reflexivity.
  assert (Hnd : NoDup (columns scenario)) by decide_by_compute.
  split; [exact Hread|]. split; [exact Hnd|]. split; [vm_compute; reflexivity|].
  exact (main_stops_at_numeric_distributions (H:=exact.runtime) (H0:=disk)
           quiet scenario Hread Hnd).
Defined.

(** * Every section opens with its banner *)

Section banners.
Context `{Externals}.

Lemma appends_ret {A} (a : A) : appends (mret a).
Proof. intros w. exists []. by rewrite app_nil_r. Qed.

Lemma appends_raise {A} e : appends (raise e : M A).
Proof. intros w. exists []. by rewrite app_nil_r. Qed.

Lemma appends_lift {A} e (o : option A) : appends (lift e o).
Proof. destruct o; [apply appends_ret | apply appends_raise]. Qed.

Lemma appends_bind {A B} (c : M A) (k : A → M B) :
  appends c → (∀ a, appends (k a)) → appends (c ≫= k).
Proof.
  intros Hc Hk w. unfold mbind, M_bind, bind.
  destruct (Hc w) as [es Hes]. destruct (c w) as [w' [a|e]]; simpl in *.
  - destruct (Hk a w') as [es' Hes']. exists (es ++ es').
    by rewrite Hes', Hes, app_assoc.
  - by exists es.
Qed.

Lemma appends_emit e : appends (emit e).
Proof. intros w. by exists [e]. Qed.

Lemma appends_print s : appends (print s).
Proof. apply appends_emit. Qed.

Lemma appends_load l : appends (load l).
Proof. intros w. exists []. unfold load. rewrite app_nil_r. by destruct (heap w !! l). Qed.

Lemma appends_alloc v : appends (alloc v).
Proof. intros w. exists []. by rewrite app_nil_r. Qed.

Lemma appends_store l v : appends (store l v).
Proof. intros w. exists []. unfold store. rewrite app_nil_r. by destruct (heap w !! l). Qed.

Lemma appends_for {A} (xs : list A) (body : A → M unit) :
  (∀ x, appends (body x)) → appends (for_ xs body).
Proof.
  intros Hbody. induction xs as [|x xs IH]; [apply appends_ret|].
  apply (appends_bind (body x) (λ _, for_ xs body)); [apply Hbody | done].
Qed.

Lemma appends_print_dataframe frame title_ max_rows max_cols show_index j :
  appends (print_dataframe frame title_ max_rows max_cols show_index j).
Proof.
  intros w. eexists. by rewrite print_dataframe_anywhere.
Qed.

Ltac appends_step :=
  first
    [ apply appends_print | apply appends_load | apply appends_alloc
    | apply appends_store | apply appends_lift | apply appends_ret
    | apply appends_print_dataframe
    | apply appends_for; intros ?; cbv beta zeta
    | apply appends_bind; [|intros ?; cbv beta zeta]
    | match goal with
      | |- appends (if ?b then _ else _) => destruct b
      | |- appends (let '(_, _) := ?p in _) => destruct p
      end ].

Lemma appends_loc_assign summary lbl row : appends (loc_assign summary lbl row).
Proof. unfold loc_assign. repeat appends_step. Qed.

Lemma appends_print_items items : appends (print_items items).
Proof. unfold print_items. repeat appends_step. Qed.

Lemma appends_getitem_column self col : appends (getitem_column self col).
Proof. unfold getitem_column. repeat appends_step. Qed.

(** The decorator: whatever the method does, its banner comes first. *)
Lemma divider_opens {A} text (c : M A) w :
  appends c →
  ∃ rest, console (print_divider text c w).1 = console w ++ banner text ++ rest.
Proof.
  intros Hc. unfold print_divider, mbind, M_bind, bind, print, emit, banner. simpl.
  match goal with
  | |- context [c ?w1] => destruct (Hc w1) as [es Hes]; destruct (c w1) as [w' [a|e]]
  end; simpl in *; exists es; rewrite Hes; by rewrite <- !app_assoc.
Qed.

(** X7: every analysis method opens its section with its own banner and
    adds to the console only: what was printed before the call is still
    there, followed by the three banner lines, followed by the rest of the
    section.  This holds however the method ends, also when it raises. *)
Theorem every_section_opens_with_its_banner :
  ∀ self w,
    (∃ rest, console (basic_info self w).1
             = console w ++ banner "BASIC DATAFRAME INFORMATION" ++ rest)
    ∧ (∃ rest, console (missing_values_analysis self w).1
               = console w ++ banner "MISSING VALUES ANALYSIS" ++ rest)
    ∧ (∃ rest, console (data_types_summary self w).1
               = console w ++ banner "DATA TYPES SUMMARY" ++ rest)
    ∧ (∃ rest, console (numeric_summary self w).1
               = console w ++ banner "NUMERIC COLUMNS STATISTICS" ++ rest)
    ∧ (∃ rest, console (categorical_summary self w).1
               = console w ++ banner "CATEGORICAL COLUMNS STATISTICS" ++ rest)
    ∧ (∃ rest, console (correlation_analysis self w).1
               = console w
                 ++ banner "CORRELATION ANALYSIS (applicable to the numeric columns only)"
                 ++ rest).
Proof.
  intros self w. repeat split; apply divider_opens.
  - repeat appends_step.
  - repeat appends_step.
  - repeat appends_step.
  - cbv zeta. repeat first [apply appends_loc_assign | appends_step].
  - cbv zeta.
    repeat first [apply appends_print_items | apply appends_getitem_column | appends_step].
  - cbv zeta. repeat appends_step.
Qed.

End banners.
